(** * A shallow embedding of the network simulation engine

    The development follows the Python sources [core/device.py],
    [core/topology_generator.py] and [core/simulator.py].

    Conventions.
    - Python dictionaries keep insertion order and the engine relies on it
      (first matching interface, first device), so a dictionary with string
      keys is an association list with the update-in-place discipline of
      [dict.__setitem__] (module [PyDict]).
    - [time.time()] readings, durations and timestamps are exact integers
      (milliseconds); the rounding of floating point is not modelled.
    - Every call to [logging] at level INFO or above is kept as a
      [LogRecord]; both loggers are set to level INFO, so [debug] calls
      produce nothing and are left out.
    - Threads are not modelled: each loop body is a function from state to
      state, and the clock reading is an argument. *)

From Stdlib Require Import ZArith List String Ascii Bool Lia.
Import ListNotations.

Local Open Scope string_scope.
Local Open Scope Z_scope.

(* ================================================================== *)
(** * Python values *)
(* ================================================================== *)

(** The values that travel in messages, fault parameters and event
    payloads ([Dict[str, Any]] in the source). *)
#[warnings="-register-all"]
Inductive PyVal : Type :=
| VNone
| VInt (z : Z)
| VStr (s : string)
| VList (l : list PyVal)
| VDict (d : list (string * PyVal)).

(** Truth value testing ([if x:]). *)
Definition truthy (v : PyVal) : bool :=
  match v with
  | VNone => false
  | VInt z => negb (z =? 0)
  | VStr s => negb (String.eqb s "")
  | VList l => match l with [] => false | _ => true end
  | VDict d => match d with [] => false | _ => true end
  end.

(** [a == b].  Lists compare element by element, dictionaries compare as
    mappings, whatever the insertion order. *)
Fixpoint py_eqb (a b : PyVal) : bool :=
  match a, b with
  | VNone, VNone => true
  | VInt x, VInt y => x =? y
  | VStr s, VStr t => String.eqb s t
  | VList l, VList m =>
      (fix go (l m : list PyVal) : bool :=
         match l, m with
         | [], [] => true
         | x :: l', y :: m' => py_eqb x y && go l' m'
         | _, _ => false
         end) l m
  | VDict d, VDict e =>
      Nat.eqb (List.length d) (List.length e) &&
      (fix all (d0 : list (string * PyVal)) : bool :=
         match d0 with
         | [] => true
         | (k, v) :: d' =>
             existsb (fun kw => String.eqb k (fst kw) && py_eqb v (snd kw)) e
             && all d'
         end) d
  | _, _ => false
  end.

(** Truthiness of the optional scalars of the source. *)
Definition truthy_opt_num (o : option Z) : bool :=
  match o with Some z => negb (z =? 0) | None => false end.

Definition truthy_opt_str (o : option string) : bool :=
  match o with Some s => negb (String.eqb s "") | None => false end.

Definition opt_Z_eqb (a b : option Z) : bool :=
  match a, b with
  | Some x, Some y => x =? y
  | None, None => true
  | _, _ => false
  end.

Definition opt_string_eqb (a b : option string) : bool :=
  match a, b with
  | Some x, Some y => String.eqb x y
  | None, None => true
  | _, _ => false
  end.

(** ** Logging *)

Inductive Level : Type := INFO | WARNING | ERROR.

(** One record per [logger.info/warning/error] call: the text of the
    f-string with [{}] for each interpolated value, and the values. *)
Record LogRecord : Type := mkLog {
  levelname : Level;
  fmt : string;
  fmt_args : list PyVal
}.

Inductive PyExn : Type := KeyError | TypeError | ValueError | RuntimeError.

(* ================================================================== *)
(** * Insertion-ordered dictionaries *)
(* ================================================================== *)

Module PyDict.

Definition t (V : Type) : Type := list (string * V).

(** [d.get(k)] *)
Fixpoint get {V} (d : t V) (k : string) : option V :=
  match d with
  | [] => None
  | (k', v) :: d' => if String.eqb k k' then Some v else get d' k
  end.

(** [k in d] *)
Definition mem {V} (k : string) (d : t V) : bool :=
  match get d k with Some _ => true | None => false end.

(** [d[k] = v]: an existing key keeps its position. *)
Fixpoint set {V} (d : t V) (k : string) (v : V) : t V :=
  match d with
  | [] => [(k, v)]
  | (k', v') :: d' =>
      if String.eqb k k' then (k', v) :: d' else (k', v') :: set d' k v
  end.

Definition keys {V} (d : t V) : list string := map fst d.
Definition values {V} (d : t V) : list V := map snd d.

(** [d] was built by [set] only: no key occurs twice. *)
Definition wf {V} (d : t V) : Prop := NoDup (keys d).

End PyDict.

(* ================================================================== *)
(** * The part of Python's [ipaddress] the device uses *)
(* ================================================================== *)

Module Ipaddress.

Definition ALL_ONES : Z := 4294967295.

(** An [IPv4Network]: the network address and the prefix length. *)
Record IPv4Network_t : Type := mkNet {
  network_address : Z;
  prefixlen : Z
}.

(** [str.split(sep)] for a one-character separator. *)
Fixpoint split_on (sep : ascii) (s : string) : list string :=
  match s with
  | EmptyString => [EmptyString]
  | String c s' =>
      if Ascii.eqb c sep then EmptyString :: split_on sep s'
      else match split_on sep s' with
           | [] => [String c EmptyString]
           | p :: ps => String c p :: ps
           end
  end.

Definition digit_of (c : ascii) : option Z :=
  let n := Z.of_nat (nat_of_ascii c) in
  if (48 <=? n) && (n <=? 57) then Some (n - 48) else None.

Fixpoint digits_acc (s : string) (acc : Z) : option Z :=
  match s with
  | EmptyString => Some acc
  | String c s' =>
      match digit_of c with
      | Some d => digits_acc s' (10 * acc + d)
      | None => None
      end
  end.

(** [s.isascii() and s.isdigit()] followed by [int(s, 10)]. *)
Definition parse_decimal (s : string) : option Z :=
  match s with
  | EmptyString => None
  | _ => digits_acc s 0
  end.

(** [_parse_octet]: one to three digits, no leading zero, at most 255. *)
Definition parse_octet (s : string) : option Z :=
  match parse_decimal s with
  | None => None
  | Some n =>
      if (3 <? String.length s)%nat then None
      else if negb (String.eqb s "0") &&
              match s with String c _ => Ascii.eqb c "0"%char | _ => false end
      then None
      else if 255 <? n then None
      else Some n
  end.

(** [_ip_int_from_string]: exactly four octets, big-endian. *)
Definition ip_int_from_string (s : string) : option Z :=
  match split_on "."%char s with
  | [a; b; c; d] =>
      match parse_octet a, parse_octet b, parse_octet c, parse_octet d with
      | Some a, Some b, Some c, Some d =>
          Some (((a * 256 + b) * 256 + c) * 256 + d)
      | _, _, _, _ => None
      end
  | _ => None
  end.

Definition ip_int_from_prefix (p : Z) : Z :=
  Z.lxor ALL_ONES (Z.shiftr ALL_ONES p).

(** [_prefix_from_ip_int]: the prefix length of a contiguous netmask. *)
Definition prefix_from_ip_int (ip_int : Z) : option Z :=
  find (fun p => ip_int_from_prefix p =? ip_int)
       (map Z.of_nat (seq 0 33)).

(** [_prefix_from_prefix_string] *)
Definition prefix_from_prefix_string (s : string) : option Z :=
  match parse_decimal s with
  | Some p => if p <=? 32 then Some p else None
  | None => None
  end.

(** [_prefix_from_ip_string]: a netmask, or else a hostmask. *)
Definition prefix_from_ip_string (s : string) : option Z :=
  match ip_int_from_string s with
  | None => None
  | Some ip_int =>
      match prefix_from_ip_int ip_int with
      | Some p => Some p
      | None => prefix_from_ip_int (Z.lxor ip_int ALL_ONES)
      end
  end.

(** [_make_netmask] for a string argument. *)
Definition make_netmask (s : string) : option Z :=
  match prefix_from_prefix_string s with
  | Some p => Some p
  | None => prefix_from_ip_string s
  end.

(** [_split_addr_prefix] then the constructor's masking.  [None] stands
    for [ValueError] (and its subclasses [AddressValueError] and
    [NetmaskValueError]). *)
Definition network_of (addr : Z) (p : Z) (strict : bool)
  : option IPv4Network_t :=
  let netmask := ip_int_from_prefix p in
  if Z.land addr netmask =? addr then Some (mkNet addr p)
  else if strict then None
  else Some (mkNet (Z.land addr netmask) p).

Definition IPv4Network (address : PyVal) (strict : bool)
  : option IPv4Network_t :=
  match address with
  | VInt n =>
      if (0 <=? n) && (n <=? ALL_ONES) then network_of n 32 strict else None
  | VStr s =>
      match split_on "/"%char s with
      | [a] =>
          match ip_int_from_string a with
          | Some n => network_of n 32 strict
          | None => None
          end
      | [a; m] =>
          match ip_int_from_string a with
          | Some n =>
              match make_netmask m with
              | Some p => network_of n p strict
              | None => None
              end
          | None => None
          end
      | _ => None
      end
  | _ => None
  end.

Definition hostmask (n : IPv4Network_t) : Z :=
  Z.shiftr ALL_ONES (prefixlen n).

Definition broadcast_address (n : IPv4Network_t) : Z :=
  Z.lor (network_address n) (hostmask n).

(** [a.subnet_of(b)] *)
Definition subnet_of (a b : IPv4Network_t) : bool :=
  (network_address b <=? network_address a) &&
  (broadcast_address a <=? broadcast_address b).

End Ipaddress.

(* ================================================================== *)
(** * Methods: state, log and exceptions *)
(* ================================================================== *)

(** A method body runs on the object it mutates, writes log records and
    either returns or raises.  What was mutated and logged before an
    exception stays. *)
Module Eff.

Inductive Result (A : Type) : Type :=
| Ok (a : A)
| Raise (e : PyExn).
Arguments Ok {A} a.
Arguments Raise {A} e.

Record Outcome (St A : Type) : Type := mkOutcome {
  result : Result A;
  state' : St;
  logged : list LogRecord
}.
Arguments mkOutcome {St A} _ _ _.
Arguments result {St A} _.
Arguments state' {St A} _.
Arguments logged {St A} _.

Definition t (St A : Type) : Type := St -> Outcome St A.

Definition ret {St A} (a : A) : t St A := fun s => mkOutcome (Ok a) s [].

Definition bind {St A B} (m : t St A) (k : A -> t St B) : t St B :=
  fun s =>
    let o := m s in
    match result o with
    | Ok a =>
        let o' := k a (state' o) in
        mkOutcome (result o') (state' o') (logged o ++ logged o')
    | Raise e => mkOutcome (Raise e) (state' o) (logged o)
    end.

Definition raise {St A} (e : PyExn) : t St A :=
  fun s => mkOutcome (Raise e) s [].

Definition read {St A} (f : St -> A) : t St A :=
  fun s => mkOutcome (Ok (f s)) s [].

Definition modify {St} (f : St -> St) : t St unit :=
  fun s => mkOutcome (Ok tt) (f s) [].

Definition log {St} (l : Level) (text : string) (args : list PyVal)
  : t St unit :=
  fun s => mkOutcome (Ok tt) s [mkLog l text args].

(** [try: m  except Exception as e: handler e] *)
Definition try_except {St A} (m : t St A) (handler : PyExn -> t St A)
  : t St A :=
  fun s =>
    let o := m s in
    match result o with
    | Ok a => o
    | Raise e =>
        let o' := handler e (state' o) in
        mkOutcome (result o') (state' o') (logged o ++ logged o')
    end.

Declare Scope eff_scope.
Delimit Scope eff_scope with eff.
Notation "x <- m ;; k" := (bind m (fun x => k))
  (at level 61, m at next level, right associativity) : eff_scope.
Notation "m ;; k" := (bind m (fun _ => k))
  (at level 61, right associativity) : eff_scope.

(** [for x in l: body x] *)
Fixpoint for_each {St A} (l : list A) (body : A -> t St unit) : t St unit :=
  match l with
  | [] => ret tt
  | x :: l' => bind (body x) (fun _ => for_each l' body)
  end.

End Eff.

(* ================================================================== *)
(** * [core/device.py] *)
(* ================================================================== *)

Module Device.

Inductive DeviceType : Type := ROUTER | SWITCH | ENDPOINT.

Inductive InterfaceState : Type := UP | DOWN | ADMIN_DOWN.

(** [InterfaceState.value] *)
Definition InterfaceState_value (st : InterfaceState) : string :=
  match st with UP => "up" | DOWN => "down" | ADMIN_DOWN => "admin_down" end.

Definition is_UP (st : InterfaceState) : bool :=
  match st with UP => true | _ => false end.

Definition DeviceType_is_router (t : DeviceType) : bool :=
  match t with ROUTER => true | _ => false end.

Record Interface : Type := mkInterface {
  name : string;
  ip_address : string;
  subnet_mask : string;
  bandwidth : Z;
  mtu : Z;
  state : InterfaceState;
  vlan : option Z;
  description : string
}.

(** [interface.state = st] *)
Definition with_state (i : Interface) (st : InterfaceState) : Interface :=
  mkInterface (name i) (ip_address i) (subnet_mask i) (bandwidth i) (mtu i)
              st (vlan i) (description i).

(** One entry of [config['interfaces']]; a key read with [.get] may be
    absent. *)
Record InterfaceData : Type := mkInterfaceData {
  data_name : string;
  data_ip_address : string;
  data_subnet_mask : string;
  data_bandwidth : option Z;
  data_mtu : option Z;
  data_vlan : option Z;
  data_description : option string
}.

Record Statistics : Type := mkStatistics {
  packets_sent : Z;
  packets_received : Z;
  errors : Z;
  uptime : Z
}.

Definition Message : Type := PyDict.t PyVal.

(** [message.get(key)]: [None] when the key is absent. *)
Definition msg_get (message : Message) (key : string) : PyVal :=
  match PyDict.get message key with Some v => v | None => VNone end.

Record NetworkDevice : Type := mkDevice {
  hostname : string;
  device_type : DeviceType;
  config : list InterfaceData;
  message_queue : list Message;
  running : bool;
  alive : bool;                       (* [Thread.is_alive()] *)
  started : bool;                     (* [start()] was called *)
  interfaces : PyDict.t Interface;
  neighbors : list string;
  routing_table : list (PyVal * PyVal);
  arp_table : PyDict.t string;
  statistics : Statistics
}.

Definition set_interfaces (d : NetworkDevice) (x : PyDict.t Interface) :=
  mkDevice (hostname d) (device_type d) (config d) (message_queue d)
           (running d) (alive d) (started d) x (neighbors d) (routing_table d)
           (arp_table d) (statistics d).

Definition set_neighbors (d : NetworkDevice) (x : list string) :=
  mkDevice (hostname d) (device_type d) (config d) (message_queue d)
           (running d) (alive d) (started d) (interfaces d) x (routing_table d)
           (arp_table d) (statistics d).

Definition set_routing_table (d : NetworkDevice) (x : list (PyVal * PyVal)) :=
  mkDevice (hostname d) (device_type d) (config d) (message_queue d)
           (running d) (alive d) (started d) (interfaces d) (neighbors d) x
           (arp_table d) (statistics d).

Definition set_statistics (d : NetworkDevice) (x : Statistics) :=
  mkDevice (hostname d) (device_type d) (config d) (message_queue d)
           (running d) (alive d) (started d) (interfaces d) (neighbors d)
           (routing_table d) (arp_table d) x.

Definition set_message_queue (d : NetworkDevice) (x : list Message) :=
  mkDevice (hostname d) (device_type d) (config d) x
           (running d) (alive d) (started d) (interfaces d) (neighbors d)
           (routing_table d) (arp_table d) (statistics d).

Definition set_running (d : NetworkDevice) (x : bool) :=
  mkDevice (hostname d) (device_type d) (config d) (message_queue d)
           x (alive d) (started d) (interfaces d) (neighbors d)
           (routing_table d) (arp_table d) (statistics d).

Definition set_alive (d : NetworkDevice) (x : bool) :=
  mkDevice (hostname d) (device_type d) (config d) (message_queue d)
           (running d) x (started d) (interfaces d) (neighbors d)
           (routing_table d) (arp_table d) (statistics d).

Definition set_started (d : NetworkDevice) (x : bool) :=
  mkDevice (hostname d) (device_type d) (config d) (message_queue d)
           (running d) (alive d) x (interfaces d) (neighbors d)
           (routing_table d) (arp_table d) (statistics d).

(** Methods run on one device. *)
Definition M (A : Type) : Type := Eff.t NetworkDevice A.

Import Eff.
Local Open Scope eff_scope.

Definition exn_name (e : PyExn) : PyVal :=
  match e with
  | KeyError => VStr "KeyError"
  | TypeError => VStr "TypeError"
  | ValueError => VStr "ValueError"
  | RuntimeError => VStr "RuntimeError"
  end.

(** ** Construction *)

Definition default {A} (o : option A) (a : A) : A :=
  match o with Some x => x | None => a end.

(** [_initialize_interfaces] *)
Definition _initialize_interfaces (cfg : list InterfaceData)
  : PyDict.t Interface :=
  fold_left
    (fun acc interface_data =>
       let interface :=
         mkInterface (data_name interface_data)
                     (data_ip_address interface_data)
                     (data_subnet_mask interface_data)
                     (default (data_bandwidth interface_data) 100)
                     (default (data_mtu interface_data) 1500)
                     UP
                     (data_vlan interface_data)
                     (default (data_description interface_data) "") in
       PyDict.set acc (name interface) interface)
    cfg [].

(** [NetworkDevice.__init__] *)
Definition __init__ (hostname : string) (device_type : DeviceType)
           (config : list InterfaceData) : NetworkDevice :=
  mkDevice hostname device_type config [] true false false
           (_initialize_interfaces config) [] [] []
           (mkStatistics 0 0 0 0).

(** ** Neighbours and interfaces *)

Definition str_in (x : string) (l : list string) : bool :=
  existsb (String.eqb x) l.

(** [list.remove(x)] on a list that contains [x]. *)
Fixpoint list_remove (x : string) (l : list string) : list string :=
  match l with
  | [] => []
  | y :: l' => if String.eqb x y then l' else y :: list_remove x l'
  end.

Definition add_neighbor (neighbor_hostname : string) : M unit :=
  nb <- read neighbors ;;
  if negb (str_in neighbor_hostname nb) then
    modify (fun d => set_neighbors d (neighbors d ++ [neighbor_hostname])) ;;
    log INFO "Added neighbor: {}" [VStr neighbor_hostname]
  else ret tt.

Definition remove_neighbor (neighbor_hostname : string) : M unit :=
  nb <- read neighbors ;;
  if str_in neighbor_hostname nb then
    modify (fun d => set_neighbors d
                       (list_remove neighbor_hostname (neighbors d))) ;;
    log INFO "Removed neighbor: {}" [VStr neighbor_hostname]
  else ret tt.

Definition send_message (message : Message) : M unit :=
  modify (fun d => set_message_queue d (message_queue d ++ [message])).

Definition set_interface_state (interface_name : string)
           (st : InterfaceState) : M unit :=
  intfs <- read interfaces ;;
  match PyDict.get intfs interface_name with
  | Some i =>
      modify (fun d => set_interfaces d
                (PyDict.set (interfaces d) interface_name (with_state i st))) ;;
      log INFO "Interface {} state changed to {}"
          [VStr interface_name; VStr (InterfaceState_value st)]
  | None => ret tt
  end.

(** [Thread.start]: a thread starts once. *)
Definition start : M unit :=
  st <- read started ;;
  if st then raise RuntimeError
  else modify (fun d => set_alive (set_started d true) true).

Definition stop : M unit :=
  modify (fun d => set_running d false) ;;
  h <- read hostname ;;
  log INFO "Stopping device {}" [VStr h].

(** ** Reachability *)

(** The body of the [try] block of [_can_reach_ip] for one interface;
    [None] is the [ValueError] the [except] clause swallows. *)
Definition interface_reaches (interface : Interface) (target_ip : PyVal)
  : option bool :=
  match Ipaddress.IPv4Network
          (VStr (ip_address interface ++ "/" ++ subnet_mask interface))
          false with
  | None => None
  | Some interface_network =>
      match Ipaddress.IPv4Network target_ip true with
      | None => None
      | Some target_network =>
          Some (Ipaddress.subnet_of target_network interface_network)
      end
  end.

(** The [for] loop of [_can_reach_ip] over [self.interfaces.values()]. *)
Fixpoint can_reach_loop (l : list Interface) (target_ip : PyVal) : bool :=
  match l with
  | [] => false
  | interface :: rest =>
      if is_UP (state interface) then
        match interface_reaches interface target_ip with
        | Some true => true
        | Some false => can_reach_loop rest target_ip
        | None => can_reach_loop rest target_ip      (* continue *)
        end
      else can_reach_loop rest target_ip
  end.

Definition _can_reach_ip (d : NetworkDevice) (target_ip : PyVal) : bool :=
  can_reach_loop (PyDict.values (interfaces d)) target_ip.

(** ** Message handlers *)

(** [_forward_arp_request] and [_forward_ping] only write debug traces. *)
Definition _forward_arp_request (message : Message) : M unit := ret tt.
Definition _forward_ping (message : Message) : M unit := ret tt.

(** The [for] loop of [_handle_arp_request]: the first interface whose
    address equals the target, whatever its state. *)
Fixpoint arp_owner (l : list Interface) (target_ip : PyVal)
  : option Interface :=
  match l with
  | [] => None
  | interface :: rest =>
      if py_eqb (VStr (ip_address interface)) target_ip then Some interface
      else arp_owner rest target_ip
  end.

(** [_handle_arp_request]; the value is the reply the method returns. *)
Definition _handle_arp_request (message : Message) : M (option Message) :=
  let target_ip := msg_get message "target_ip" in
  let source_mac := msg_get message "source_mac" in
  intfs <- read interfaces ;;
  h <- read hostname ;;
  match arp_owner (PyDict.values intfs) target_ip with
  | Some interface =>
      let reply : Message :=
        [("type", VStr "arp_reply");
         ("target_mac", source_mac);
         ("source_ip", target_ip);
         ("source_mac", VStr ("MAC_" ++ h ++ "_" ++ name interface))] in
      log INFO "ARP reply for {}" [target_ip] ;;
      ret (Some reply)
  | None =>
      _forward_arp_request message ;;
      ret None
  end.

Definition _handle_ospf_hello (message : Message) : M unit :=
  t <- read device_type ;;
  if DeviceType_is_router t then log INFO "OSPF hello reply sent" []
  else ret tt.

(** [route[key]] *)
Definition subscript (route : PyVal) (key : string) : M PyVal :=
  match route with
  | VDict d =>
      match PyDict.get d key with
      | Some v => ret v
      | None => raise KeyError
      end
  | _ => raise TypeError
  end.

Definition hashable (v : PyVal) : bool :=
  match v with VList _ | VDict _ => false | _ => true end.

(** [table[k] = v] on a dictionary with arbitrary hashable keys. *)
Fixpoint table_set (t : list (PyVal * PyVal)) (k v : PyVal)
  : list (PyVal * PyVal) :=
  match t with
  | [] => [(k, v)]
  | (k', v') :: t' =>
      if py_eqb k k' then (k', v) :: t' else (k', v') :: table_set t' k v
  end.

Definition _handle_routing_update (message : Message) : M unit :=
  t <- read device_type ;;
  if DeviceType_is_router t then
    let route := msg_get message "route" in
    if truthy route then
      next_hop <- subscript route "next_hop" ;;
      destination <- subscript route "destination" ;;
      (if hashable destination then
         modify (fun d => set_routing_table d
                            (table_set (routing_table d) destination next_hop))
       else raise TypeError) ;;
      log INFO "Updated routing table: {} -> {}" [destination; next_hop]
    else ret tt
  else ret tt.

Definition _handle_ping (message : Message) : M unit :=
  let target_ip := msg_get message "target_ip" in
  let source_ip := msg_get message "source_ip" in
  reach <- read (fun d => _can_reach_ip d target_ip) ;;
  if reach then log INFO "Ping reply sent to {}" [source_ip]
  else _forward_ping message.

Definition incr_packets_received (d : NetworkDevice) : NetworkDevice :=
  let s := statistics d in
  set_statistics d (mkStatistics (packets_sent s) (packets_received s + 1)
                                 (errors s) (uptime s)).

Definition incr_errors (d : NetworkDevice) : NetworkDevice :=
  let s := statistics d in
  set_statistics d (mkStatistics (packets_sent s) (packets_received s)
                                 (errors s + 1) (uptime s)).

Definition set_uptime (now : Z) (d : NetworkDevice) : NetworkDevice :=
  let s := statistics d in
  set_statistics d (mkStatistics (packets_sent s) (packets_received s)
                                 (errors s) now).

Definition process_message (message : Message) : M unit :=
  let msg_type := msg_get message "type" in
  modify incr_packets_received ;;
  if py_eqb msg_type (VStr "arp_request") then
    _handle_arp_request message ;; ret tt
  else if py_eqb msg_type (VStr "ospf_hello") then
    _handle_ospf_hello message
  else if py_eqb msg_type (VStr "routing_update") then
    _handle_routing_update message
  else if py_eqb msg_type (VStr "ping") then
    _handle_ping message
  else log WARNING "Unknown message type: {}" [msg_type].

(** [simulate_periodic_tasks]: beyond the uptime only debug traces. *)
Definition simulate_periodic_tasks (current_time : Z) : M unit :=
  modify (set_uptime current_time).

(** One turn of the [while self.running] loop of [run]: [message] is
    what [message_queue.get(timeout=1)] delivered, if anything. *)
Definition run_iteration (current_time : Z) : M unit :=
  try_except
    (q <- read message_queue ;;
     (match q with
      | message :: rest =>
          modify (fun d => set_message_queue d rest) ;;
          process_message message
      | [] => ret tt
      end) ;;
     simulate_periodic_tasks current_time)
    (fun e =>
       h <- read hostname ;;
       log ERROR "Error in device {}: {}" [VStr h; exn_name e] ;;
       modify incr_errors).

(** [inject_fault(fault_type, **kwargs)] *)
Definition inject_fault (fault_type : string) (kwargs : PyDict.t PyVal)
  : M unit :=
  if String.eqb fault_type "interface_down" then
    match msg_get kwargs "interface_name" with
    | VStr interface_name =>
        intfs <- read interfaces ;;
        if PyDict.mem interface_name intfs then
          set_interface_state interface_name DOWN ;;
          log WARNING "Fault injected: Interface {} is down"
              [VStr interface_name]
        else ret tt
    | VList _ | VDict _ => raise TypeError      (* unhashable *)
    | _ => ret tt
    end
  else if String.eqb fault_type "link_failure" then
    match msg_get kwargs "neighbor" with
    | VStr neighbor =>
        nb <- read neighbors ;;
        if str_in neighbor nb then
          remove_neighbor neighbor ;;
          log WARNING "Fault injected: Link to {} failed" [VStr neighbor]
        else ret tt
    | _ => ret tt
    end
  else if String.eqb fault_type "high_cpu" then
    log WARNING "Fault injected: High CPU usage" []
  else log WARNING "Unknown fault type: {}" [VStr fault_type].

End Device.

(* ================================================================== *)
(** * [core/config_parser.py]: the parsed configuration records *)
(* ================================================================== *)

Module Config.

Record ParsedInterface : Type := mkParsedInterface {
  name : string;
  ip_address : string;
  subnet_mask : string;
  bandwidth : Z;
  mtu : Z;
  vlan : option Z;
  description : string;
  shutdown : bool;
  encapsulation : option string
}.

Record ParsedConfig : Type := mkParsedConfig {
  hostname : string;
  interfaces : list ParsedInterface;
  routing_protocols : list string;
  vlans : list Z;
  ospf_areas : list string;
  bgp_asn : option Z;
  default_gateway : option string;
  dns_servers : list string;
  ntp_servers : list string;
  access_lists : PyDict.t (list string);
  route_maps : PyDict.t (list string)
}.

End Config.

(* ================================================================== *)
(** * [core/topology_generator.py] *)
(* ================================================================== *)

Module Topology.

(** [latency] and [reliability] are floats the engine never reads; they
    are carried as thousandths. *)
Record NetworkLink : Type := mkLink {
  source_device : string;
  source_interface : string;
  target_device : string;
  target_interface : string;
  bandwidth : Z;
  latency : Z;
  reliability : Z;
  link_type : string
}.

(** An undirected [networkx.Graph] by its adjacency: every node with its
    neighbours, both in insertion order (edge attributes are not read by
    the engine). *)
Definition Graph : Type := PyDict.t (list string).

(** [graph.add_node(n)] *)
Definition add_node (g : Graph) (n : string) : Graph :=
  if PyDict.mem n g then g else PyDict.set g n [].

Definition adj_add (g : Graph) (u v : string) : Graph :=
  match PyDict.get g u with
  | Some nb =>
      if Device.str_in v nb then g else PyDict.set g u (nb ++ [v])%list
  | None => PyDict.set g u [v]
  end.

(** [graph.add_edge(u, v)] *)
Definition add_edge (g : Graph) (u v : string) : Graph :=
  adj_add (adj_add (add_node (add_node g u) v) u v) v u.

(** [device in graph] *)
Definition contains (g : Graph) (n : string) : bool := PyDict.mem n g.

(** [list(graph.neighbors(n))] for a node of the graph. *)
Definition graph_neighbors (g : Graph) (n : string) : list string :=
  match PyDict.get g n with Some nb => nb | None => [] end.

Record NetworkTopology : Type := mkTopology {
  devices : PyDict.t Config.ParsedConfig;
  links : list NetworkLink;
  graph : Graph;
  subnets : PyDict.t (list string);
  vlans : list (Z * list string);
  routing_domains : PyDict.t (list string)
}.

(** A [TopologyGenerator] holds the topology it generated last, if any. *)
Record TopologyGenerator : Type := mkGenerator {
  topology : option NetworkTopology
}.

(** [TopologyGenerator.__init__]: [self.topology = None]. *)
Definition __init__ : TopologyGenerator := mkGenerator None.

(** The graph [generate_topology] builds: a node per configuration, then
    an edge per link. *)
Definition build_graph (configs : PyDict.t Config.ParsedConfig)
           (links : list NetworkLink) : Graph :=
  fold_left (fun g link => add_edge g (source_device link) (target_device link))
            links
            (fold_left (fun g hc => add_node g (fst hc)) configs []).

(** [generate_topology], with the results of the link inference and of
    the subnet, VLAN and routing-domain classification (external to the
    engine) as arguments.  The generator keeps the topology. *)
Definition generate_topology (self : TopologyGenerator)
           (configs : PyDict.t Config.ParsedConfig)
           (links : list NetworkLink)
           (subnets : PyDict.t (list string))
           (vlans : list (Z * list string))
           (routing_domains : PyDict.t (list string))
  : TopologyGenerator * NetworkTopology :=
  let topo := mkTopology configs links (build_graph configs links)
                         subnets vlans routing_domains in
  (mkGenerator (Some topo), topo).

(** [get_device_neighbors] *)
Definition get_device_neighbors (self : TopologyGenerator) (device : string)
  : list string :=
  match topology self with
  | None => []
  | Some topo =>
      if contains (graph topo) device then graph_neighbors (graph topo) device
      else []
  end.

End Topology.

(* ================================================================== *)
(** * [core/simulator.py] *)
(* ================================================================== *)

Module Simulator.

Import Eff.
Local Open Scope eff_scope.

Record FaultInjection : Type := mkFault {
  fault_type : string;
  target_device : string;
  target_interface : option string;
  parameters : PyDict.t PyVal;
  duration : option Z;          (* None for permanent faults *)
  start_time : option Z
}.

(** The [data] of an event: the payload of a packet, or [{'fault': f}]. *)
Inductive EventData : Type :=
| DataDict (d : PyDict.t PyVal)
| DataFault (fault : FaultInjection).

Record SimulationEvent : Type := mkEvent {
  timestamp : Z;
  event_type : string;
  source_device : string;
  event_target_device : option string;
  description : string;
  data : EventData
}.

Record Statistics : Type := mkStatistics {
  total_packets : Z;
  total_errors : Z;
  devices_online : Z;
  devices_offline : Z;
  links_active : Z;
  links_failed : Z
}.

(** A registered handler is an opaque callable; it is known by a number. *)
Definition Callable : Type := nat.

Record NetworkSimulator : Type := mkSim {
  topology : Topology.NetworkTopology;
  topology_generator : Topology.TopologyGenerator;
  devices : PyDict.t Device.NetworkDevice;
  simulation_running : bool;
  simulation_paused : bool;
  simulation_start_time : option Z;
  simulation_time : Z;
  events : list SimulationEvent;
  event_queue : list SimulationEvent;
  active_faults : list FaultInjection;
  fault_history : list FaultInjection;
  statistics : Statistics;
  event_handlers : PyDict.t (list Callable)
}.

Definition set_devices (s : NetworkSimulator) x :=
  mkSim (topology s) (topology_generator s) x (simulation_running s)
        (simulation_paused s) (simulation_start_time s) (simulation_time s)
        (events s) (event_queue s) (active_faults s) (fault_history s)
        (statistics s) (event_handlers s).

Definition set_simulation_running (s : NetworkSimulator) x :=
  mkSim (topology s) (topology_generator s) (devices s) x
        (simulation_paused s) (simulation_start_time s) (simulation_time s)
        (events s) (event_queue s) (active_faults s) (fault_history s)
        (statistics s) (event_handlers s).

Definition set_simulation_paused (s : NetworkSimulator) x :=
  mkSim (topology s) (topology_generator s) (devices s) (simulation_running s)
        x (simulation_start_time s) (simulation_time s)
        (events s) (event_queue s) (active_faults s) (fault_history s)
        (statistics s) (event_handlers s).

Definition set_simulation_start_time (s : NetworkSimulator) x :=
  mkSim (topology s) (topology_generator s) (devices s) (simulation_running s)
        (simulation_paused s) x (simulation_time s)
        (events s) (event_queue s) (active_faults s) (fault_history s)
        (statistics s) (event_handlers s).

Definition set_simulation_time (s : NetworkSimulator) x :=
  mkSim (topology s) (topology_generator s) (devices s) (simulation_running s)
        (simulation_paused s) (simulation_start_time s) x
        (events s) (event_queue s) (active_faults s) (fault_history s)
        (statistics s) (event_handlers s).

Definition set_events (s : NetworkSimulator) x :=
  mkSim (topology s) (topology_generator s) (devices s) (simulation_running s)
        (simulation_paused s) (simulation_start_time s) (simulation_time s)
        x (event_queue s) (active_faults s) (fault_history s)
        (statistics s) (event_handlers s).

Definition set_event_queue (s : NetworkSimulator) x :=
  mkSim (topology s) (topology_generator s) (devices s) (simulation_running s)
        (simulation_paused s) (simulation_start_time s) (simulation_time s)
        (events s) x (active_faults s) (fault_history s)
        (statistics s) (event_handlers s).

Definition set_active_faults (s : NetworkSimulator) x :=
  mkSim (topology s) (topology_generator s) (devices s) (simulation_running s)
        (simulation_paused s) (simulation_start_time s) (simulation_time s)
        (events s) (event_queue s) x (fault_history s)
        (statistics s) (event_handlers s).

Definition set_fault_history (s : NetworkSimulator) x :=
  mkSim (topology s) (topology_generator s) (devices s) (simulation_running s)
        (simulation_paused s) (simulation_start_time s) (simulation_time s)
        (events s) (event_queue s) (active_faults s) x
        (statistics s) (event_handlers s).

Definition set_statistics (s : NetworkSimulator) x :=
  mkSim (topology s) (topology_generator s) (devices s) (simulation_running s)
        (simulation_paused s) (simulation_start_time s) (simulation_time s)
        (events s) (event_queue s) (active_faults s) (fault_history s)
        x (event_handlers s).

Definition set_event_handlers (s : NetworkSimulator) x :=
  mkSim (topology s) (topology_generator s) (devices s) (simulation_running s)
        (simulation_paused s) (simulation_start_time s) (simulation_time s)
        (events s) (event_queue s) (active_faults s) (fault_history s)
        (statistics s) x.

Definition S (A : Type) : Type := Eff.t NetworkSimulator A.

(** [self.devices[h].method(...)]: the method runs on the device stored
    under [h]; a missing key raises [KeyError]. *)
Definition on_device {A} (h : string) (m : Device.M A) : S A :=
  fun s =>
    match PyDict.get (devices s) h with
    | None => mkOutcome (Raise KeyError) s []
    | Some d =>
        let o := m d in
        mkOutcome (result o)
                  (set_devices s (PyDict.set (devices s) h (state' o)))
                  (logged o)
    end.

(** [self.devices[h]] *)
Definition lookup_device (h : string) : S Device.NetworkDevice :=
  fun s =>
    match PyDict.get (devices s) h with
    | None => mkOutcome (Raise KeyError) s []
    | Some d => mkOutcome (Ok d) s []
    end.

(** ** Construction *)

Definition truthy_list {A} (l : list A) : bool :=
  match l with [] => false | _ => true end.

(** [_determine_device_type] *)
Definition _determine_device_type (config : Config.ParsedConfig)
  : Device.DeviceType :=
  if truthy_list (Config.routing_protocols config)
     || truthy_opt_str (Config.default_gateway config)
  then Device.ROUTER
  else if truthy_list (Config.vlans config)
          || existsb (fun intf => truthy_opt_num (Config.vlan intf))
                     (Config.interfaces config)
  then Device.SWITCH
  else Device.ENDPOINT.

(** [_convert_config_for_device]: every key is present in the result. *)
Definition _convert_config_for_device (config : Config.ParsedConfig)
  : list Device.InterfaceData :=
  map (fun interface =>
         Device.mkInterfaceData
           (Config.name interface)
           (Config.ip_address interface)
           (Config.subnet_mask interface)
           (Some (Config.bandwidth interface))
           (Some (Config.mtu interface))
           (Config.vlan interface)
           (Some (Config.description interface)))
      (Config.interfaces config).

(** [_initialize_devices] *)
Definition _initialize_devices : S unit :=
  log INFO "Initializing network devices..." [] ;;
  topo <- read topology ;;
  for_each (Topology.devices topo)
    (fun hc =>
       let hostname := fst hc in
       let config := snd hc in
       let device_type := _determine_device_type config in
       let device := Device.__init__ hostname device_type
                       (_convert_config_for_device config) in
       modify (fun s => set_devices s (PyDict.set (devices s) hostname device)) ;;
       gen <- read topology_generator ;;
       let neighbors := Topology.get_device_neighbors gen hostname in
       for_each neighbors
         (fun neighbor => on_device hostname (Device.add_neighbor neighbor))) ;;
  n <- read (fun s => List.length (devices s)) ;;
  log INFO "Initialized {} devices" [VInt (Z.of_nat n)].

Definition default_event_handlers : PyDict.t (list Callable) :=
  [("device_start", []); ("device_stop", []); ("link_failure", []);
   ("link_recovery", []); ("packet_sent", []); ("packet_received", []);
   ("error_occurred", [])].

(** [NetworkSimulator.__init__]: the simulator makes a topology generator
    of its own. *)
Definition __init__ (topology : Topology.NetworkTopology)
  : Outcome NetworkSimulator unit :=
  let self :=
    mkSim topology Topology.__init__ [] false false None 0
          [] [] [] [] (mkStatistics 0 0 0 0 0 0) [] in
  (_initialize_devices ;;
   modify (fun s => set_event_handlers s default_event_handlers)) self.

(** ** Start, stop, pause *)

Definition start_simulation (now : Z) : S unit :=
  running <- read simulation_running ;;
  if running then log WARNING "Simulation is already running" []
  else
    log INFO "Starting network simulation..." [] ;;
    modify (fun s => set_simulation_running s true) ;;
    modify (fun s => set_simulation_paused s false) ;;
    modify (fun s => set_simulation_start_time s (Some now)) ;;
    devs <- read devices ;;
    for_each (PyDict.keys devs) (fun h => on_device h Device.start) ;;
    log INFO "Network simulation started successfully" [].

(** [stop_simulation]; the [join] that follows waits for the threads and
    changes nothing here. *)
Definition stop_simulation : S unit :=
  running <- read simulation_running ;;
  if negb running then log WARNING "Simulation is not running" []
  else
    log INFO "Stopping network simulation..." [] ;;
    modify (fun s => set_simulation_running s false) ;;
    devs <- read devices ;;
    for_each (PyDict.keys devs) (fun h => on_device h Device.stop) ;;
    log INFO "Network simulation stopped" [].

Definition pause_simulation : S unit :=
  running <- read simulation_running ;;
  if negb running then log WARNING "Simulation is not running" []
  else
    modify (fun s => set_simulation_paused s true) ;;
    log INFO "Network simulation paused" [].

Definition resume_simulation : S unit :=
  running <- read simulation_running ;;
  if negb running then log WARNING "Simulation is not running" []
  else
    modify (fun s => set_simulation_paused s false) ;;
    log INFO "Network simulation resumed" [].

(** ** Events *)

(** [_record_event]: the event goes on the queue of the event thread. *)
Definition _record_event (now : Z) (event_type source_device : string)
           (target_device : option string) (description : string)
           (data : EventData) : S unit :=
  let event := mkEvent now event_type source_device target_device
                       description data in
  modify (fun s => set_event_queue s (event_queue s ++ [event])).

(** [_update_statistics] *)
Definition _update_statistics (event : SimulationEvent) : S unit :=
  modify (fun s =>
    let st := statistics s in
    let ty := event_type event in
    if String.eqb ty "packet_sent" then
      set_statistics s (mkStatistics (total_packets st + 1) (total_errors st)
        (devices_online st) (devices_offline st) (links_active st)
        (links_failed st))
    else if String.eqb ty "error_occurred" then
      set_statistics s (mkStatistics (total_packets st) (total_errors st + 1)
        (devices_online st) (devices_offline st) (links_active st)
        (links_failed st))
    else if String.eqb ty "device_start" then
      set_statistics s (mkStatistics (total_packets st) (total_errors st)
        (devices_online st + 1) (devices_offline st) (links_active st)
        (links_failed st))
    else if String.eqb ty "device_stop" then
      set_statistics s (mkStatistics (total_packets st) (total_errors st)
        (devices_online st) (devices_offline st + 1) (links_active st)
        (links_failed st))
    else s).

(** [_handle_event]: the event joins the log and the counters; the
    registered handlers run for their own effects, outside this state, and
    what they raise is caught. *)
Definition _handle_event (event : SimulationEvent) : S unit :=
  modify (fun s => set_events s (events s ++ [event])) ;;
  _update_statistics event.

(** One turn of the loop of [_process_events]. *)
Definition _process_events_iteration (now : Z) : S unit :=
  try_except
    (q <- read event_queue ;;
     (match q with
      | event :: rest =>
          modify (fun s => set_event_queue s rest) ;;
          _handle_event event
      | [] => ret tt
      end) ;;
     paused <- read simulation_paused ;;
     if negb paused then
       t0 <- read simulation_start_time ;;
       match t0 with
       | Some t0 => modify (fun s => set_simulation_time s (now - t0))
       | None => raise TypeError
       end
     else ret tt)
    (fun e => log ERROR "Error processing events: {}" [Device.exn_name e]).

(** [register_event_handler] *)
Definition register_event_handler (event_type : string) (handler : Callable)
  : S unit :=
  modify (fun s =>
    let hs := match PyDict.get (event_handlers s) event_type with
              | Some l => l
              | None => []
              end in
    set_event_handlers s (PyDict.set (event_handlers s) event_type
                                     (hs ++ [handler])%list)) ;;
  log INFO "Registered event handler for {}" [VStr event_type].

(** [events[start:]] *)
Definition slice_from {A} (start : Z) (l : list A) : list A :=
  let n := Z.of_nat (List.length l) in
  let start' := if start <? 0 then Z.max (start + n) 0 else Z.min start n in
  skipn (Z.to_nat start') l.

(** [get_simulation_events] *)
Definition get_simulation_events (s : NetworkSimulator)
           (event_type_filter : option string) (limit : option Z)
  : list SimulationEvent :=
  let events0 := events s in
  let events1 :=
    if truthy_opt_str event_type_filter then
      filter (fun e => opt_string_eqb (Some (event_type e)) event_type_filter)
             events0
    else events0 in
  if truthy_opt_num limit then
    match limit with
    | Some n => slice_from (- n) events1
    | None => events1
    end
  else events1.

(** ** Faults *)

(** [_apply_fault] *)
Definition _apply_fault (fault : FaultInjection) : S unit :=
  let target := target_device fault in
  device <- lookup_device target ;;
  if String.eqb (fault_type fault) "interface_down" then
    if truthy_opt_str (target_interface fault) then
      match target_interface fault with
      | Some intf_name =>
          on_device target (Device.set_interface_state intf_name Device.DOWN)
      | None => ret tt
      end
    else
      for_each (PyDict.keys (Device.interfaces device))
        (fun intf_name =>
           on_device target (Device.set_interface_state intf_name Device.DOWN))
  else if String.eqb (fault_type fault) "link_failure" then
    let neighbors := Device.neighbors device in
    for_each neighbors
      (fun neighbor =>
         on_device target (Device.remove_neighbor neighbor) ;;
         devs <- read devices ;;
         if PyDict.mem neighbor devs then
           on_device neighbor (Device.remove_neighbor target)
         else ret tt)
  else if String.eqb (fault_type fault) "high_cpu" then
    on_device target (Device.inject_fault "high_cpu" [])
  else if String.eqb (fault_type fault) "memory_leak" then
    on_device target (Device.inject_fault "high_cpu" [])
  else if String.eqb (fault_type fault) "packet_loss" then
    on_device target (Device.inject_fault "high_cpu" [])
  else
    log WARNING "Unknown fault type: {}" [VStr (fault_type fault)].

(** [_remove_fault] *)
Definition _remove_fault (fault : FaultInjection) : S unit :=
  let target := target_device fault in
  device <- lookup_device target ;;
  (if String.eqb (fault_type fault) "interface_down" then
     if truthy_opt_str (target_interface fault) then
       match target_interface fault with
       | Some intf_name =>
           on_device target (Device.set_interface_state intf_name Device.UP)
       | None => ret tt
       end
     else
       for_each (PyDict.keys (Device.interfaces device))
         (fun intf_name =>
            on_device target (Device.set_interface_state intf_name Device.UP))
   else if String.eqb (fault_type fault) "link_failure" then
     gen <- read topology_generator ;;
     let neighbors := Topology.get_device_neighbors gen target in
     for_each neighbors
       (fun neighbor =>
          on_device target (Device.add_neighbor neighbor) ;;
          devs <- read devices ;;
          if PyDict.mem neighbor devs then
            on_device neighbor (Device.add_neighbor target)
          else ret tt)
   else ret tt) ;;
  log INFO "Fault removed: {} from {}"
      [VStr (fault_type fault); VStr target].

(** The fault [inject_fault] constructs: the start time is read from the
    clock only [if duration]. *)
Definition new_fault (fault_type target_device : string)
           (target_interface : option string)
           (parameters : option (PyDict.t PyVal))
           (duration : option Z) (now : Z) : FaultInjection :=
  mkFault fault_type target_device target_interface
          (match parameters with Some p => p | None => [] end)
          duration
          (if truthy_opt_num duration then Some now else None).

(** [inject_fault]; [now] and [now'] are the two clock readings, for the
    fault and for the event. *)
Definition inject_fault (fault_type target_device : string)
           (target_interface : option string)
           (parameters : option (PyDict.t PyVal))
           (duration : option Z) (now now' : Z) : S unit :=
  devs <- read devices ;;
  if negb (PyDict.mem target_device devs) then
    log ERROR "Target device {} not found" [VStr target_device]
  else
    let fault := new_fault fault_type target_device target_interface
                           parameters duration now in
    modify (fun s => set_active_faults s (active_faults s ++ [fault])) ;;
    modify (fun s => set_fault_history s (fault_history s ++ [fault])) ;;
    _apply_fault fault ;;
    log INFO "Fault injected: {} on {}" [VStr fault_type; VStr target_device] ;;
    _record_event now' "fault_injected" target_device None
                  ("Fault " ++ fault_type ++ " injected") (DataFault fault).

(** [f == g] for two faults: the dataclass compares field by field. *)
Definition fault_eqb (f g : FaultInjection) : bool :=
  String.eqb (fault_type f) (fault_type g)
  && String.eqb (target_device f) (target_device g)
  && opt_string_eqb (target_interface f) (target_interface g)
  && py_eqb (VDict (parameters f)) (VDict (parameters g))
  && opt_Z_eqb (duration f) (duration g)
  && opt_Z_eqb (start_time f) (start_time g).

(** [l.remove(f)]: the first element equal to [f] goes; [None] is the
    [ValueError] of a list without such an element. *)
Fixpoint faults_remove (f : FaultInjection) (l : list FaultInjection)
  : option (list FaultInjection) :=
  match l with
  | [] => None
  | g :: l' =>
      if fault_eqb f g then Some l'
      else match faults_remove f l' with
           | Some r => Some (g :: r)
           | None => None
           end
  end.

(** The test of the expiry loop on one fault. *)
Definition expired (current_time : Z) (fault : FaultInjection) : bool :=
  truthy_opt_num (duration fault) && truthy_opt_num (start_time fault) &&
  match duration fault, start_time fault with
  | Some d, Some t0 => d <=? current_time - t0
  | _, _ => false
  end.

(** The first [for] loop of [_process_faults]: every expired fault is
    reverted and noted. *)
Fixpoint revert_expired (current_time : Z) (l : list FaultInjection)
  : S (list FaultInjection) :=
  match l with
  | [] => ret []
  | fault :: rest =>
      if expired current_time fault then
        _remove_fault fault ;;
        faults_to_remove <- revert_expired current_time rest ;;
        ret (fault :: faults_to_remove)
      else revert_expired current_time rest
  end.

(** One turn of the loop of [_process_faults], with the clock reading. *)
Definition _process_faults_iteration (current_time : Z) : S unit :=
  try_except
    (active <- read active_faults ;;
     faults_to_remove <- revert_expired current_time active ;;
     for_each faults_to_remove
       (fun fault =>
          l <- read active_faults ;;
          match faults_remove fault l with
          | Some l' => modify (fun s => set_active_faults s l')
          | None => raise ValueError
          end))
    (fun e => log ERROR "Error processing faults: {}" [Device.exn_name e]).

(** The expiry loop over successive clock readings, for as long as the
    simulation runs. *)
Fixpoint _process_faults (ticks : list Z) (s : NetworkSimulator)
  : NetworkSimulator :=
  match ticks with
  | [] => s
  | current_time :: rest =>
      if simulation_running s then
        _process_faults rest (state' (_process_faults_iteration current_time s))
      else s
  end.

(** ** Packets and status *)

(** [send_packet]; [now] and [now'] are the two clock readings. *)
Definition send_packet (source_device target_device packet_type : string)
           (packet_data : PyDict.t PyVal) (now now' : Z) : S unit :=
  devs <- read devices ;;
  if negb (PyDict.mem source_device devs)
     || negb (PyDict.mem target_device devs) then
    log ERROR "Invalid device names: {} -> {}"
        [VStr source_device; VStr target_device]
  else
    let packet : Device.Message :=
      [("type", VStr packet_type); ("source", VStr source_device);
       ("target", VStr target_device); ("timestamp", VInt now);
       ("data", VDict packet_data)] in
    on_device target_device (Device.send_message packet) ;;
    _record_event now' "packet_sent" source_device (Some target_device)
                  ("Packet sent: " ++ packet_type) (DataDict packet_data).

End Simulator.

(** The snapshot [get_network_status] returns. *)
Module Status.

Record DeviceSummary : Type := mkSummary {
  online : bool;
  neighbors : list string;
  interfaces : nat
}.

Record t : Type := mkStatus {
  simulation_running : bool;
  simulation_paused : bool;
  simulation_time : Z;
  total_devices : nat;
  active_faults : nat;
  statistics : Simulator.Statistics;
  devices : PyDict.t DeviceSummary
}.

End Status.

(** [NetworkSimulator.get_network_status] *)
Definition get_network_status (s : Simulator.NetworkSimulator) : Status.t :=
  Status.mkStatus
    (Simulator.simulation_running s)
    (Simulator.simulation_paused s)
    (Simulator.simulation_time s)
    (List.length (Simulator.devices s))
    (List.length (Simulator.active_faults s))
    (Simulator.statistics s)
    (fold_left
       (fun acc hd =>
          PyDict.set acc (fst hd)
            (Status.mkSummary (Device.alive (snd hd))
                              (Device.neighbors (snd hd))
                              (List.length (Device.interfaces (snd hd)))))
       (Simulator.devices s) []).

(* ================================================================== *)
(** * More of [core/topology_generator.py] *)
(* ================================================================== *)

Module TopologyAnalysis.

Import Topology.

(** [link] is the reverse of [existing_link] (the test of the second loop
    of [_generate_links]). *)
Definition is_reverse_of (link existing_link : NetworkLink) : bool :=
  String.eqb (source_device link) (target_device existing_link)
  && String.eqb (target_device link) (source_device existing_link).

(** The second loop of [_generate_links]: a link is kept unless a link
    kept before it is its reverse. *)
Fixpoint unique_links_loop (links unique_links : list NetworkLink)
  : list NetworkLink :=
  match links with
  | [] => unique_links
  | link :: rest =>
      if existsb (is_reverse_of link) unique_links
      then unique_links_loop rest unique_links
      else unique_links_loop rest (unique_links ++ [link])
  end.

Definition remove_duplicate_links (links : list NetworkLink)
  : list NetworkLink :=
  unique_links_loop links [].

(** [name.split('/')[0]] *)
Definition interface_type (name : string) : string :=
  hd "" (Ipaddress.split_on "/"%char name).

(** [_determine_link_type] *)
Definition _determine_link_type (intf1 intf2 : Config.ParsedInterface)
  : string :=
  let intf1_type := interface_type (Config.name intf1) in
  let intf2_type := interface_type (Config.name intf2) in
  if Device.str_in "GigabitEthernet" [intf1_type; intf2_type]
  then "gigabit_ethernet"
  else if Device.str_in "FastEthernet" [intf1_type; intf2_type]
  then "fast_ethernet"
  else if Device.str_in "Serial" [intf1_type; intf2_type]
  then "serial"
  else if Device.str_in "Loopback" [intf1_type; intf2_type]
  then "loopback"
  else "ethernet".

(** The dictionary [_analyze_bandwidth_distribution] returns. *)
Record BandwidthDistribution : Type := mkDistribution {
  low : Z;       (* < 100 Mbps *)
  medium : Z;    (* 100 Mbps - 1 Gbps *)
  high : Z;      (* 1 Gbps - 10 Gbps *)
  ultra : Z      (* > 10 Gbps *)
}.

(** [_analyze_bandwidth_distribution] on the links of the topology. *)
Definition _analyze_bandwidth_distribution (links : list NetworkLink)
  : BandwidthDistribution :=
  fold_left
    (fun distribution link =>
       if bandwidth link <? 100 then
         mkDistribution (low distribution + 1) (medium distribution)
                        (high distribution) (ultra distribution)
       else if bandwidth link <? 1000 then
         mkDistribution (low distribution) (medium distribution + 1)
                        (high distribution) (ultra distribution)
       else if bandwidth link <? 10000 then
         mkDistribution (low distribution) (medium distribution)
                        (high distribution + 1) (ultra distribution)
       else
         mkDistribution (low distribution) (medium distribution)
                        (high distribution) (ultra distribution + 1))
    links (mkDistribution 0 0 0 0).

(** [d[k].append(x)] for a key of [d]. *)
Definition dict_append (d : PyDict.t (list string)) (k x : string)
  : PyDict.t (list string) :=
  match PyDict.get d k with
  | Some l => PyDict.set d k (l ++ [x])%list
  | None => d
  end.

(** [_identify_routing_domains] *)
Definition _identify_routing_domains (configs : PyDict.t Config.ParsedConfig)
  : PyDict.t (list string) :=
  let routing_domains :=
    fold_left
      (fun domains hc =>
         let hostname := fst hc in
         let config := snd hc in
         let domains' :=
           fold_left
             (fun acc protocol =>
                if PyDict.mem protocol acc then dict_append acc protocol hostname
                else acc)
             (Config.routing_protocols config) domains in
         if truthy_opt_str (Config.default_gateway config)
         then dict_append domains' "Static" hostname
         else domains')
      configs
      [("OSPF", []); ("BGP", []); ("EIGRP", []); ("RIP", []); ("Static", [])] in
  filter (fun kv => match snd kv with [] => false | _ => true end)
         routing_domains.

End TopologyAnalysis.

(* ================================================================== *)
(** * More of [core/device.py] and [core/simulator.py]: the loops *)
(* ================================================================== *)

Module Loops.

Import Simulator Eff.
Local Open Scope eff_scope.

(** The [while self.running] loop of [NetworkDevice.run] over successive
    clock readings. *)
Fixpoint run (ticks : list Z) (d : Device.NetworkDevice)
  : Device.NetworkDevice :=
  match ticks with
  | [] => d
  | current_time :: rest =>
      if Device.running d then
        run rest (state' (Device.run_iteration current_time d))
      else d
  end.

(** The loop of [_process_events] over successive clock readings. *)
Fixpoint _process_events (ticks : list Z) (s : NetworkSimulator)
  : NetworkSimulator :=
  match ticks with
  | [] => s
  | now :: rest =>
      if simulation_running s then
        _process_events rest (state' (_process_events_iteration now s))
      else s
  end.

(** The two counting loops of [_collect_statistics]. *)
Definition count_devices (devs : PyDict.t Device.NetworkDevice) : Z * Z :=
  fold_left
    (fun counts device =>
       if Device.alive device then (fst counts + 1, snd counts)
       else (fst counts, snd counts + 1))
    (PyDict.values devs) (0, 0).

Definition link_is_active (devs : PyDict.t Device.NetworkDevice)
           (link : Topology.NetworkLink) : bool :=
  match PyDict.get devs (Topology.source_device link),
        PyDict.get devs (Topology.target_device link) with
  | Some source_device, Some target_device =>
      Device.alive source_device && Device.alive target_device
  | _, _ => false
  end.

Definition count_links (devs : PyDict.t Device.NetworkDevice)
           (links : list Topology.NetworkLink) : Z * Z :=
  fold_left
    (fun counts link =>
       if link_is_active devs link then (fst counts + 1, snd counts)
       else (fst counts, snd counts + 1))
    links (0, 0).

(** One turn of the loop of [_collect_statistics]. *)
Definition _collect_statistics_iteration : S unit :=
  try_except
    (paused <- read simulation_paused ;;
     if negb paused then
       modify (fun s =>
         let st := statistics s in
         let counts := count_devices (devices s) in
         set_statistics s
           (mkStatistics (total_packets st) (total_errors st)
                         (fst counts) (snd counts)
                         (links_active st) (links_failed st))) ;;
       modify (fun s =>
         let st := statistics s in
         let counts := count_links (devices s)
                                   (Topology.links (topology s)) in
         set_statistics s
           (mkStatistics (total_packets st) (total_errors st)
                         (devices_online st) (devices_offline st)
                         (fst counts) (snd counts)))
     else ret tt)
    (fun e => log ERROR "Error collecting statistics: {}" [Device.exn_name e]).

End Loops.

(** Predicates of the further statements. *)
Module MoreProps.

Import Simulator Eff.

(** A view of the simulator that neither the device table nor the active
    list can change. *)
Definition blind {X} (f : NetworkSimulator -> X) : Prop :=
  (forall s x, f (set_devices s x) = f s) /\
  (forall s x, f (set_active_faults s x) = f s).

(** [m] leaves the view [f] as it found it, whether it returns or raises. *)
Definition preserves {X A} (f : NetworkSimulator -> X) (m : S A) : Prop :=
  forall s, f (state' (m s)) = f s.

(** Everything of the simulator but the device table and the active list. *)
Definition rest_of (s : NetworkSimulator) : NetworkSimulator :=
  set_active_faults (set_devices s []) [].

(** [link] reverses [existing_link]. *)
Definition reverses (link existing_link : Topology.NetworkLink) : Prop :=
  Topology.source_device link = Topology.target_device existing_link /\
  Topology.target_device link = Topology.source_device existing_link.

(** A link of [links] joins [u] and [v], in either direction. *)
Definition linked (links : list Topology.NetworkLink) (u v : string) : Prop :=
  exists link, In link links /\
    ((Topology.source_device link = u /\ Topology.target_device link = v) \/
     (Topology.source_device link = v /\ Topology.target_device link = u)).

(** The number of events of a kind in a list. *)
Definition count_kind (kind : string) (l : list SimulationEvent) : Z :=
  Z.of_nat (List.length (filter (fun e => String.eqb (event_type e) kind) l)).

(** [table[k]] on a dictionary with arbitrary hashable keys. *)
Fixpoint table_get (t : list (PyVal * PyVal)) (k : PyVal) : option PyVal :=
  match t with
  | [] => None
  | (k', v) :: t' => if py_eqb k k' then Some v else table_get t' k
  end.

(** [set_interface_state] called for each of [names] in turn. *)
Definition set_states (names : list string) (st : Device.InterfaceState)
           (l : PyDict.t Device.Interface) : PyDict.t Device.Interface :=
  fold_left
    (fun acc nm =>
       match PyDict.get acc nm with
       | Some i => PyDict.set acc nm (Device.with_state i st)
       | None => acc
       end)
    names l.

(** [remove_neighbor] on a list. *)
Definition without (x : string) (l : list string) : list string :=
  if Device.str_in x l then Device.list_remove x l else l.

(** One turn of the loop of a link failure on [target], as an update of
    the device table: [n] leaves the list of [target], and [target] leaves
    the list of [n] when [n] is a device of the table. *)
Definition cut_link (target : string) (devs : PyDict.t Device.NetworkDevice)
           (n : string) : PyDict.t Device.NetworkDevice :=
  let devs1 :=
    match PyDict.get devs target with
    | Some dt =>
        PyDict.set devs target
          (Device.set_neighbors dt (without n (Device.neighbors dt)))
    | None => devs
    end in
  match PyDict.get devs1 n with
  | Some dn =>
      PyDict.set devs1 n
        (Device.set_neighbors dn (without target (Device.neighbors dn)))
  | None => devs1
  end.

(** The lists of the adjacency of a graph hold no name twice. *)
Definition adjacency_NoDup (g : Topology.Graph) : Prop :=
  forall u, NoDup (Topology.graph_neighbors g u).

(** [d[k]] read as a list, empty for a missing key. *)
Definition members (d : PyDict.t (list string)) (k : string) : list string :=
  match PyDict.get d k with Some l => l | None => [] end.

(** The routing domains [_identify_routing_domains] knows. *)
Definition known_domains : list string :=
  ["OSPF"; "BGP"; "EIGRP"; "RIP"; "Static"].

(** The device table with [f] applied to every device. *)
Definition each_device (f : Device.NetworkDevice -> Device.NetworkDevice)
           (devs : PyDict.t Device.NetworkDevice)
  : PyDict.t Device.NetworkDevice :=
  map (fun hd => (fst hd, f (snd hd))) devs.

(** No device of the table was ever started. *)
Definition never_started (s : NetworkSimulator) : Prop :=
  forall h d, In (h, d) (devices s) -> Device.started d = false.

End MoreProps.

(* ================================================================== *)
(** * Scenarios and predicates used in the statements *)
(* ================================================================== *)

Module Scenario.

Import Simulator Eff.

Definition now0 : Z := 1700000000000.

(** A configuration with one addressed interface. *)
Definition host_config (hostname ip : string) : Config.ParsedConfig :=
  Config.mkParsedConfig hostname
    [Config.mkParsedInterface "GigabitEthernet0/0" ip "255.255.255.0"
                              1000 1500 None "" false None]
    [] [] [] None None [] [] [] [].

Definition link (a b : string) : Topology.NetworkLink :=
  Topology.mkLink a "GigabitEthernet0/0" b "GigabitEthernet0/0"
                  1000 100 999 "gigabit_ethernet".

(** Two devices joined by one link. *)
Definition pair_configs : PyDict.t Config.ParsedConfig :=
  [("R1", host_config "R1" "10.0.0.1"); ("R2", host_config "R2" "10.0.0.2")].

Definition pair_topology : Topology.NetworkTopology :=
  snd (Topology.generate_topology Topology.__init__ pair_configs
         [link "R1" "R2"] [] [] []).

(** Three devices, each a neighbour of the other two. *)
Definition triangle_configs : PyDict.t Config.ParsedConfig :=
  [("A", host_config "A" "10.0.0.1"); ("B", host_config "B" "10.0.0.2");
   ("C", host_config "C" "10.0.0.3")].

Definition triangle_topology : Topology.NetworkTopology :=
  snd (Topology.generate_topology Topology.__init__ triangle_configs
         [link "A" "B"; link "A" "C"; link "B" "C"] [] [] []).

(** The simulator as constructed and started. *)
Definition started (topo : Topology.NetworkTopology) : NetworkSimulator :=
  state' (start_simulation now0 (state' (__init__ topo))).

(** [add_neighbor] called on the devices directly, for every edge of the
    topology graph. *)
Definition seed_neighbors (s : NetworkSimulator) : NetworkSimulator :=
  state'
    (for_each (Topology.graph (topology s))
       (fun nbs =>
          for_each (snd nbs)
            (fun neighbor =>
               on_device (fst nbs) (Device.add_neighbor neighbor)))
       s).

(** A simulator whose event thread has recorded a packet and a fault. *)
Definition with_two_events : NetworkSimulator :=
  let s0 := started pair_topology in
  let s1 := state' (send_packet "R1" "R2" "ping"
                      [("target_ip", VStr "10.0.0.2")] now0 now0 s0) in
  let s2 := state' (inject_fault "high_cpu" "R1" None None None
                      now0 now0 s1) in
  let s3 := state' (_process_events_iteration (now0 + 1) s2) in
  state' (_process_events_iteration (now0 + 2) s3).

(** The triangle with the neighbour sets in place, and the link failure on
    A injected for two seconds at [now0]. *)
Definition triangle_seeded : NetworkSimulator :=
  seed_neighbors (started triangle_topology).

Definition triangle_failed : NetworkSimulator :=
  state' (inject_fault "link_failure" "A" None None (Some 2000)
                       now0 now0 triangle_seeded).

(** A router with the one interface 192.168.1.1/24, up and then down. *)
Definition router_R : Device.NetworkDevice :=
  Device.__init__ "R" Device.ROUTER
    [Device.mkInterfaceData "eth0" "192.168.1.1" "255.255.255.0"
                            (Some 100) (Some 1500) None (Some "")].

Definition router_R_down : Device.NetworkDevice :=
  state' (Device.set_interface_state "eth0" Device.DOWN router_R).

Definition eth0_of_R : Device.Interface :=
  Device.mkInterface "eth0" "192.168.1.1" "255.255.255.0" 100 1500
                     Device.DOWN None "".

Definition arp_for_R : Device.Message :=
  [("type", VStr "arp_request"); ("target_ip", VStr "192.168.1.1");
   ("source_mac", VStr "MAC_X_eth0")].

Definition ping_for_R : Device.Message :=
  [("type", VStr "ping"); ("target_ip", VStr "192.168.1.1");
   ("source_ip", VStr "192.168.1.77")].

Definition bogus_message : Device.Message :=
  [("type", VStr "bogus"); ("payload", VInt 7)].

(** The neighbour list of a device, empty for an unknown name. *)
Definition neighbors_of (s : NetworkSimulator) (h : string) : list string :=
  match PyDict.get (devices s) h with
  | Some d => Device.neighbors d
  | None => []
  end.

End Scenario.

(** Predicates the statements and their proofs share. *)
Module Props.

Import Simulator Eff.

(** The kinds [process_message] dispatches on. *)
Definition recognized_kinds : list string :=
  ["arp_request"; "ospf_hello"; "routing_update"; "ping"].

(** Every active fault targets a device of the table.  [inject_fault]
    checks this before it records a fault, and nothing removes a device. *)
Definition faults_valid (s : NetworkSimulator) : Prop :=
  forall f, In f (active_faults s) ->
            PyDict.mem (target_device f) (devices s) = true.

(** What applying or reverting a fault leaves alone: the active faults,
    the names in the device table, the running flag and the topology
    generator. *)
Definition frame (AF : list FaultInjection) (K : list string) (R : bool)
           (G : Topology.TopologyGenerator) (s : NetworkSimulator) : Prop :=
  active_faults s = AF /\ PyDict.keys (devices s) = K /\
  simulation_running s = R /\ topology_generator s = G.

(** Nothing was logged at level ERROR. *)
Definition no_error_logged (l : list LogRecord) : Prop :=
  Forall (fun r => levelname r <> ERROR) l.

(** [m] keeps [I], returns (does not raise) a value that satisfies [Q],
    and logs no error. *)
Definition returns {A} (I : NetworkSimulator -> Prop) (m : S A)
           (Q : A -> Prop) : Prop :=
  forall s, I s ->
    I (state' (m s)) /\
    (exists a, result (m s) = Ok a /\ Q a) /\
    no_error_logged (logged (m s)).

(** A device method that returns on every device and logs no error. *)
Definition device_total {A} (m : Device.M A) : Prop :=
  forall d, (exists a, result (m d) = Ok a) /\
            no_error_logged (logged (m d)).

(** No device of the table has a neighbour. *)
Definition no_neighbors (s : NetworkSimulator) : Prop :=
  forall h d, In (h, d) (devices s) -> Device.neighbors d = [].

(** The [n] most recent elements of [l]. *)
Definition most_recent {A} (n : nat) (l : list A) : list A :=
  skipn (List.length l - n) l.

End Props.

(** Further scenarios, for the devices, the loops and the topology. *)
Module MoreScenario.

Import Simulator Eff Scenario.

(** A routing update, and one whose route lacks the next hop. *)
Definition route_update : Device.Message :=
  [("type", VStr "routing_update");
   ("route", VDict [("destination", VStr "10.1.0.0/16");
                    ("next_hop", VStr "192.168.1.254")])].

Definition bad_update : Device.Message :=
  [("type", VStr "routing_update");
   ("route", VDict [("destination", VStr "10.1.0.0/16")])].

(** The router R with a message in its inbox. *)
Definition router_R_with (message : Device.Message) : Device.NetworkDevice :=
  state' (Device.send_message message router_R).

(** A switch with the configuration of R. *)
Definition switch_S : Device.NetworkDevice :=
  Device.__init__ "S" Device.SWITCH
    [Device.mkInterfaceData "eth0" "192.168.1.2" "255.255.255.0"
                            (Some 100) (Some 1500) None (Some "")].

(** The device stored under a name, the router R for an unknown name. *)
Definition device_of (s : NetworkSimulator) (h : string)
  : Device.NetworkDevice :=
  match PyDict.get (devices s) h with Some d => d | None => router_R end.

(** The pair as constructed, before the start. *)
Definition constructed_pair : NetworkSimulator :=
  state' (__init__ pair_topology).

(** The started pair with a packet and a fault event in the queue. *)
Definition two_queued : NetworkSimulator :=
  let s0 := started pair_topology in
  let s1 := state' (send_packet "R1" "R2" "ping"
                      [("target_ip", VStr "10.0.0.2")] now0 now0 s0) in
  state' (inject_fault "high_cpu" "R1" None None None now0 now0 s1).

(** The started pair with a fault of two seconds on R1. *)
Definition pair_with_timed_fault : NetworkSimulator :=
  state' (inject_fault "high_cpu" "R1" None None (Some 2000) now0 now0
                       (started pair_topology)).

(** Two interfaces of no named kind. *)
Definition vlan_interface (n : string) : Config.ParsedInterface :=
  Config.mkParsedInterface n "10.0.0.1" "255.255.255.0" 100 1500 None ""
                           false None.

(** A configuration that runs OSPF and has no default gateway. *)
Definition ospf_config (hostname : string) : Config.ParsedConfig :=
  Config.mkParsedConfig hostname [] ["OSPF"] [] [] None None [] [] [] [].

End MoreScenario.

(* ================================================================== *)
(** * Facts about values and dictionaries *)
(* ================================================================== *)

(** Induction on values that reaches inside lists and dictionaries. *)
Lemma PyVal_nested_ind (P : PyVal -> Prop)
      (HNone : P VNone)
      (HInt : forall z, P (VInt z))
      (HStr : forall s, P (VStr s))
      (HList : forall l, Forall P l -> P (VList l))
      (HDict : forall d, Forall (fun kv => P (snd kv)) d -> P (VDict d)) :
  forall v, P v.
Proof.
  fix IH 1.
  intros [ | z | s | l | d ].
  - exact HNone.
  - apply HInt.
  - apply HStr.
  - apply HList.
    induction l as [ | x l IHl ]; constructor; [ apply IH | exact IHl ].
  - apply HDict.
    induction d as [ | [k x] d IHd ]; constructor; [ apply IH | exact IHd ].
Qed.

Lemma py_eqb_refl (v : PyVal) : py_eqb v v = true.
Proof.
  induction v as [ | z | s | l Hl | d Hd ] using PyVal_nested_ind; simpl.
  - reflexivity.
  - apply Z.eqb_refl.
  - apply String.eqb_refl.
  - induction Hl as [ | x l Hx _ IHl ]; [ reflexivity | ].
    rewrite Hx. exact IHl.
  - rewrite Nat.eqb_refl. simpl.
    assert (Hsub : forall d0, incl d0 d ->
      (fix all (d1 : list (string * PyVal)) : bool :=
         match d1 with
         | [] => true
         | (k, v) :: d' =>
             existsb (fun kw => String.eqb k (fst kw) && py_eqb v (snd kw)) d
             && all d'
         end) d0 = true).
    { induction d0 as [ | [k v] d0 IHd0 ]; intros Hincl; [ reflexivity | ].
      rewrite IHd0 by (intros x Hx; apply Hincl; right; exact Hx).
      rewrite andb_true_r. apply existsb_exists.
      exists (k, v). split; [ apply Hincl; left; reflexivity | ].
      simpl. rewrite String.eqb_refl. simpl.
      rewrite Forall_forall in Hd.
      apply (Hd (k, v)). apply Hincl. left. reflexivity. }
    apply Hsub. apply incl_refl.
Qed.

Lemma py_eqb_VStr (s : string) (v : PyVal) :
  py_eqb (VStr s) v = true <-> v = VStr s.
Proof.
  destruct v; simpl; split; intros H; try discriminate.
  - apply String.eqb_eq in H. subst. reflexivity.
  - injection H as ->. apply String.eqb_refl.
Qed.

Module PyDictFacts.

Import PyDict.

Lemma get_In {V} (d : t V) (k : string) (v : V) :
  get d k = Some v -> In (k, v) d.
Proof.
  induction d as [ | [k' v'] d IHd ]; simpl; [ discriminate | ].
  destruct (String.eqb_spec k k') as [-> | Hne].
  - intros [= ->]. left. reflexivity.
  - intros H. right. apply IHd. exact H.
Qed.

Lemma mem_keys {V} (d : t V) (k : string) :
  mem k d = true <-> In k (keys d).
Proof.
  unfold mem, keys.
  induction d as [ | [k' v'] d IHd ]; simpl.
  - split; [ discriminate | intros [] ].
  - destruct (String.eqb_spec k k') as [-> | Hne].
    + split; [ intros _; left; reflexivity | reflexivity ].
    + rewrite IHd. split; [ intros H; right; exact H | ].
      intros [H | H]; [ congruence | exact H ].
Qed.

Lemma keys_set_present {V} (d : t V) (k : string) (v : V) :
  mem k d = true -> keys (set d k v) = keys d.
Proof.
  unfold mem, keys.
  induction d as [ | [k' v'] d IHd ]; simpl; [ discriminate | ].
  destruct (String.eqb_spec k k') as [-> | Hne]; simpl.
  - reflexivity.
  - intros H. rewrite IHd by exact H. reflexivity.
Qed.

Lemma keys_set_absent {V} (d : t V) (k : string) (v : V) :
  mem k d = false -> keys (set d k v) = (keys d ++ [k])%list.
Proof.
  unfold mem, keys.
  induction d as [ | [k' v'] d IHd ]; simpl; [ reflexivity | ].
  destruct (String.eqb_spec k k') as [-> | Hne]; simpl.
  - discriminate.
  - intros H. rewrite IHd by exact H. reflexivity.
Qed.

Lemma get_set_same {V} (d : t V) (k : string) (v : V) :
  get (set d k v) k = Some v.
Proof.
  induction d as [ | [k' v'] d IHd ]; simpl.
  - rewrite String.eqb_refl. reflexivity.
  - destruct (String.eqb_spec k k') as [-> | Hne]; simpl.
    + rewrite String.eqb_refl. reflexivity.
    + destruct (String.eqb_spec k k'); [ congruence | exact IHd ].
Qed.

Lemma get_set_other {V} (d : t V) (k k0 : string) (v : V) :
  k0 <> k -> get (set d k v) k0 = get d k0.
Proof.
  intros Hne.
  induction d as [ | [k' v'] d IHd ]; simpl.
  - destruct (String.eqb_spec k0 k); [ congruence | reflexivity ].
  - destruct (String.eqb_spec k k') as [-> | Hne']; simpl.
    + destruct (String.eqb_spec k0 k'); [ congruence | reflexivity ].
    + destruct (String.eqb_spec k0 k'); [ reflexivity | exact IHd ].
Qed.

Lemma mem_set {V} (d : t V) (k k0 : string) (v : V) :
  mem k0 (set d k v) = String.eqb k0 k || mem k0 d.
Proof.
  unfold mem.
  destruct (String.eqb_spec k0 k) as [-> | Hne].
  - rewrite get_set_same. reflexivity.
  - rewrite get_set_other by exact Hne. reflexivity.
Qed.

Lemma set_get_id {V} (d : t V) (k : string) (v : V) :
  get d k = Some v -> set d k v = d.
Proof.
  induction d as [ | [k' v'] d IHd ]; simpl; [ discriminate | ].
  destruct (String.eqb_spec k k') as [-> | Hne].
  - intros [= ->]. reflexivity.
  - intros H. rewrite IHd by exact H. reflexivity.
Qed.

Lemma wf_set {V} (d : t V) (k : string) (v : V) :
  wf d -> wf (set d k v).
Proof.
  unfold wf. intros Hwf.
  destruct (mem k d) eqn:Hm.
  - rewrite keys_set_present by exact Hm. exact Hwf.
  - rewrite keys_set_absent by exact Hm.
    apply NoDup_app; [ exact Hwf | repeat constructor; intros [] | ].
    intros x Hx [<- | []].
    apply mem_keys in Hx. congruence.
Qed.

End PyDictFacts.

(* ================================================================== *)
(** * Running method bodies step by step *)
(* ================================================================== *)

Module EffFacts.

Import Eff.

Lemma outcome_eta {St A} (o : Outcome St A) :
  mkOutcome (result o) (state' o) (logged o) = o.
Proof. destruct o. reflexivity. Qed.

Lemma bind_ret {St A B} (a : A) (k : A -> t St B) (s : St) :
  bind (ret a) k s = k a s.
Proof. unfold bind, ret. simpl. apply outcome_eta. Qed.

Lemma bind_read {St A B} (f : St -> A) (k : A -> t St B) (s : St) :
  bind (read f) k s = k (f s) s.
Proof. unfold bind, read. simpl. apply outcome_eta. Qed.

Lemma bind_modify {St B} (f : St -> St) (k : unit -> t St B) (s : St) :
  bind (modify f) k s = k tt (f s).
Proof. unfold bind, modify. simpl. apply outcome_eta. Qed.

Lemma bind_raise {St A B} (e : PyExn) (k : A -> t St B) (s : St) :
  bind (raise e) k s = raise e s.
Proof. reflexivity. Qed.

Lemma bind_log {St B} (l : Level) (text : string) (args : list PyVal)
      (k : unit -> t St B) (s : St) :
  bind (log l text args) k s
  = mkOutcome (result (k tt s)) (state' (k tt s))
              (mkLog l text args :: logged (k tt s)).
Proof. reflexivity. Qed.

Lemma bind_assoc {St A B C} (m : t St A) (k : A -> t St B)
      (k' : B -> t St C) (s : St) :
  bind (bind m k) k' s = bind m (fun a => bind (k a) k') s.
Proof.
  unfold bind. destruct (m s) as [[a | e] s1 l1]; simpl; [ | reflexivity ].
  destruct (k a s1) as [[b | e] s2 l2]; simpl; [ | reflexivity ].
  rewrite app_assoc. reflexivity.
Qed.

(** The outcome of a sequence from the outcome of its first step. *)
Lemma bind_ok {St A B} (m : t St A) (k : A -> t St B) (s s1 : St) (a : A)
      (l1 : list LogRecord) :
  m s = mkOutcome (Ok a) s1 l1 ->
  bind m k s = mkOutcome (result (k a s1)) (state' (k a s1))
                         (l1 ++ logged (k a s1)).
Proof. intros H. unfold bind. rewrite H. reflexivity. Qed.

Lemma bind_fail {St A B} (m : t St A) (k : A -> t St B) (s s1 : St)
      (e : PyExn) (l1 : list LogRecord) :
  m s = mkOutcome (Raise e) s1 l1 ->
  bind m k s = mkOutcome (Raise e) s1 l1.
Proof. intros H. unfold bind. rewrite H. reflexivity. Qed.

End EffFacts.

(* ================================================================== *)
(** * The device *)
(* ================================================================== *)

Module DeviceFacts.

Import Device Eff Props.
Local Open Scope eff_scope.

Ltac run_eff :=
  cbv [bind ret read modify log raise try_except
       result state' logged] in *.

(** ** Reachability *)

Lemma can_reach_loop_iff (l : list Interface) (target_ip : PyVal) :
  can_reach_loop l target_ip = true <->
  exists interface,
    In interface l /\ state interface = UP /\
    interface_reaches interface target_ip = Some true.
Proof.
  induction l as [ | i l IHl ]; simpl.
  - split; [ discriminate | intros (i & [] & _) ].
  - destruct (state i) eqn:Hst; simpl.
    + destruct (interface_reaches i target_ip) as [ [ | ] | ] eqn:Hr.
      * split; [ | reflexivity ]. intros _. exists i. auto.
      * rewrite IHl. split.
        -- intros (j & Hj & Hup & Hrj). exists j. auto.
        -- intros (j & [<- | Hj] & Hup & Hrj); [ congruence | ].
           exists j. auto.
      * rewrite IHl. split.
        -- intros (j & Hj & Hup & Hrj). exists j. auto.
        -- intros (j & [<- | Hj] & Hup & Hrj); [ congruence | ].
           exists j. auto.
    + rewrite IHl. split.
      * intros (j & Hj & Hup & Hrj). exists j. auto.
      * intros (j & [<- | Hj] & Hup & Hrj); [ congruence | ].
        exists j. auto.
    + rewrite IHl. split.
      * intros (j & Hj & Hup & Hrj). exists j. auto.
      * intros (j & [<- | Hj] & Hup & Hrj); [ congruence | ].
        exists j. auto.
Qed.

Lemma interface_reaches_true (i : Interface) (target_ip : PyVal) :
  interface_reaches i target_ip = Some true <->
  exists interface_network target_network,
    Ipaddress.IPv4Network
      (VStr (ip_address i ++ "/" ++ subnet_mask i)) false
      = Some interface_network /\
    Ipaddress.IPv4Network target_ip true = Some target_network /\
    Ipaddress.subnet_of target_network interface_network = true.
Proof.
  unfold interface_reaches.
  destruct (Ipaddress.IPv4Network (VStr _) false) as [n | ].
  - destruct (Ipaddress.IPv4Network target_ip true) as [t | ].
    + split.
      * intros [= H]. exists n, t. auto.
      * intros (n' & t' & [= <-] & [= <-] & H). rewrite H. reflexivity.
    + split; [ discriminate | intros (n' & t' & _ & H & _); discriminate ].
  - split; [ discriminate | intros (n' & t' & H & _); discriminate ].
Qed.

Lemma interface_reaches_with_state (i : Interface) (st : InterfaceState)
      (target_ip : PyVal) :
  interface_reaches (with_state i st) target_ip = interface_reaches i target_ip.
Proof. reflexivity. Qed.

(** The network of a plain address (no ['/']) is the singleton of that
    address. *)
Lemma address_network_is_singleton (s : string) (n : Z)
      (net : Ipaddress.IPv4Network_t) :
  Ipaddress.split_on "/"%char s = [s] ->
  Ipaddress.ip_int_from_string s = Some n ->
  Ipaddress.IPv4Network (VStr s) true = Some net ->
  net = Ipaddress.mkNet n 32 /\
  Ipaddress.broadcast_address net = n.
Proof.
  intros Hsplit Hip. unfold Ipaddress.IPv4Network.
  rewrite Hsplit, Hip. unfold Ipaddress.network_of.
  change (Ipaddress.ip_int_from_prefix 32) with Ipaddress.ALL_ONES.
  destruct (Z.land n Ipaddress.ALL_ONES =? n) eqn:Hl; [ | discriminate ].
  intros [= <-]. split; [ reflexivity | ].
  unfold Ipaddress.broadcast_address, Ipaddress.hostmask. simpl.
  change (Z.shiftr Ipaddress.ALL_ONES 32) with 0.
  apply Z.lor_0_r.
Qed.

(** C6: [_can_reach_ip] answers true exactly when some interface in state
    UP has a network (address and mask, host bits dropped) of which the
    network of the target is a subnet; when no interface is UP the answer
    is false. *)
Theorem can_reach_ip_iff_up_interface_covers
        (d : NetworkDevice) (target_ip : string) :
  (_can_reach_ip d (VStr target_ip) = true <->
   exists interface interface_network target_network,
     In interface (PyDict.values (interfaces d)) /\
     state interface = UP /\
     Ipaddress.IPv4Network
       (VStr (ip_address interface ++ "/" ++ subnet_mask interface)) false
       = Some interface_network /\
     Ipaddress.IPv4Network (VStr target_ip) true = Some target_network /\
     Ipaddress.subnet_of target_network interface_network = true)
  /\
  ((forall interface,
       In interface (PyDict.values (interfaces d)) ->
       state interface = DOWN \/ state interface = ADMIN_DOWN) ->
   _can_reach_ip d (VStr target_ip) = false).
Proof.
  unfold _can_reach_ip. split.
  - rewrite can_reach_loop_iff. split.
    + intros (i & Hin & Hup & Hr).
      apply interface_reaches_true in Hr as (n & t & Hn & Ht & Hs).
      exists i, n, t. auto.
    + intros (i & n & t & Hin & Hup & Hn & Ht & Hs).
      exists i. repeat split; try assumption.
      apply interface_reaches_true. exists n, t. auto.
  - intros Hdown.
    destruct (can_reach_loop _ _) eqn:Hc; [ | reflexivity ].
    apply can_reach_loop_iff in Hc as (i & Hin & Hup & _).
    destruct (Hdown i Hin) as [H | H]; congruence.
Qed.

(** ** Interface state *)

Lemma In_set_wf {V} (l : PyDict.t V) (nm : string) (j : V) (k : string) (x : V) :
  PyDict.wf l -> PyDict.mem nm l = true ->
  (In (k, x) (PyDict.set l nm j) <->
   (k = nm /\ x = j) \/ (k <> nm /\ In (k, x) l)).
Proof.
  unfold PyDict.wf, PyDict.mem, PyDict.keys.
  induction l as [ | [k' v'] l IHl ]; simpl; [ discriminate | ].
  intros Hwf Hmem. inversion Hwf as [ | ? ? Hnotin Hwf' ]; subst.
  destruct (String.eqb_spec nm k') as [-> | Hne]; simpl.
  - split.
    + intros [[= <- <-] | Hin]; [ left; auto | ].
      right. split; [ | right; exact Hin ].
      intros ->. apply Hnotin. apply (in_map fst) in Hin. exact Hin.
    + intros [[-> ->] | [Hk [[= <- <-] | Hin]]]; auto; congruence.
  - rewrite (IHl Hwf' Hmem). split.
    + intros [[= <- <-] | [H | [Hk Hin]]]; auto.
    + intros [H | [Hk [[= <- <-] | Hin]]]; auto.
Qed.

Lemma can_reach_after_set (l : PyDict.t Interface) (nm : string)
      (j : Interface) (target_ip : PyVal) :
  PyDict.wf l -> PyDict.mem nm l = true ->
  (can_reach_loop (PyDict.values (PyDict.set l nm j)) target_ip = true <->
   (state j = UP /\ interface_reaches j target_ip = Some true) \/
   exists k x, In (k, x) l /\ k <> nm /\ state x = UP /\
               interface_reaches x target_ip = Some true).
Proof.
  intros Hwf Hmem. rewrite can_reach_loop_iff. unfold PyDict.values. split.
  - intros (i & Hin & Hup & Hr).
    apply in_map_iff in Hin as ([k x] & Hx & Hin). simpl in Hx. subst x.
    apply (In_set_wf l nm j k i Hwf Hmem) in Hin as [[-> ->] | [Hk Hin]].
    + left. auto.
    + right. exists k, i. auto.
  - intros [[Hup Hr] | (k & x & Hin & Hk & Hup & Hr)].
    + exists j. repeat split; try assumption.
      apply in_map_iff. exists (nm, j). split; [ reflexivity | ].
      apply (In_set_wf l nm j nm j Hwf Hmem). left. auto.
    + exists x. repeat split; try assumption.
      apply in_map_iff. exists (k, x). split; [ reflexivity | ].
      apply (In_set_wf l nm j k x Hwf Hmem). right. auto.
Qed.

Lemma set_interface_state_known (d : NetworkDevice) (nm : string)
      (i : Interface) (st : InterfaceState) :
  PyDict.get (interfaces d) nm = Some i ->
  state' (set_interface_state nm st d)
  = set_interfaces d (PyDict.set (interfaces d) nm (with_state i st)).
Proof.
  intros Hget. unfold set_interface_state. run_eff. rewrite Hget. reflexivity.
Qed.

Lemma set_interface_state_unknown (d : NetworkDevice) (nm : string)
      (st : InterfaceState) :
  PyDict.get (interfaces d) nm = None ->
  set_interface_state nm st d = mkOutcome (Ok tt) d [].
Proof.
  intros Hget. unfold set_interface_state. run_eff. rewrite Hget. reflexivity.
Qed.

(** C7: with an unknown name [set_interface_state] changes nothing; for a
    known name, DOWN then UP leaves the interface UP, and [_can_reach_ip]
    sees each state: while the interface is DOWN only the other UP
    interfaces answer, once it is UP again it answers too. *)
Theorem set_interface_state_down_then_up
        (d : NetworkDevice) (nm : string) :
  PyDict.wf (interfaces d) ->
  (PyDict.get (interfaces d) nm = None ->
   forall st, state' (set_interface_state nm st d) = d) /\
  (forall i, PyDict.get (interfaces d) nm = Some i ->
     let d1 := state' (set_interface_state nm DOWN d) in
     let d2 := state' (set_interface_state nm UP d1) in
     option_map state (PyDict.get (interfaces d1) nm) = Some DOWN /\
     option_map state (PyDict.get (interfaces d2) nm) = Some UP /\
     forall target_ip,
       (_can_reach_ip d1 target_ip = true <->
        exists k x, In (k, x) (interfaces d) /\ k <> nm /\ state x = UP /\
                    interface_reaches x target_ip = Some true) /\
       (_can_reach_ip d2 target_ip = true <->
        interface_reaches i target_ip = Some true \/
        exists k x, In (k, x) (interfaces d) /\ k <> nm /\ state x = UP /\
                    interface_reaches x target_ip = Some true)).
Proof.
  intros Hwf. split.
  - intros Hget st. rewrite set_interface_state_unknown by exact Hget.
    reflexivity.
  - intros i Hget d1 d2.
    assert (Hmem : PyDict.mem nm (interfaces d) = true)
      by (unfold PyDict.mem; rewrite Hget; reflexivity).
    assert (Hd1 : d1 = set_interfaces d
                         (PyDict.set (interfaces d) nm (with_state i DOWN)))
      by (apply set_interface_state_known; exact Hget).
    assert (Hget1 : PyDict.get (interfaces d1) nm = Some (with_state i DOWN))
      by (rewrite Hd1; simpl; apply PyDictFacts.get_set_same).
    assert (Hd2 : d2 = set_interfaces d1
                         (PyDict.set (interfaces d1) nm
                                     (with_state (with_state i DOWN) UP)))
      by (apply set_interface_state_known; exact Hget1).
    assert (Hwf1 : PyDict.wf (interfaces d1))
      by (rewrite Hd1; simpl; apply PyDictFacts.wf_set; exact Hwf).
    assert (Hmem1 : PyDict.mem nm (interfaces d1) = true)
      by (unfold PyDict.mem; rewrite Hget1; reflexivity).
    assert (Hothers : forall k x, k <> nm ->
              (In (k, x) (interfaces d1) <-> In (k, x) (interfaces d))).
    { intros k x Hk. rewrite Hd1. simpl.
      rewrite (In_set_wf _ nm _ k x Hwf Hmem). split.
      - intros [[-> _] | [_ H]]; [ congruence | exact H ].
      - intros H. right. auto. }
    split; [ rewrite Hget1; reflexivity | ].
    split; [ rewrite Hd2; simpl; rewrite PyDictFacts.get_set_same;
             reflexivity | ].
    intros target_ip. split.
    + unfold _can_reach_ip. rewrite Hd1. simpl.
      rewrite (can_reach_after_set _ nm _ target_ip Hwf Hmem). simpl.
      split.
      * intros [[H _] | H]; [ discriminate | exact H ].
      * intros H. right. exact H.
    + unfold _can_reach_ip. rewrite Hd2. simpl.
      rewrite (can_reach_after_set _ nm _ target_ip Hwf1 Hmem1). simpl.
      rewrite !interface_reaches_with_state. split.
      * intros [[_ H] | (k & x & Hin & Hk & Hup & Hr)]; [ left; exact H | ].
        right. exists k, x. repeat split; try assumption.
        apply Hothers; assumption.
      * intros [H | (k & x & Hin & Hk & Hup & Hr)]; [ left; auto | ].
        right. exists k, x. repeat split; try assumption.
        apply Hothers; assumption.
Qed.

(** ** Message processing *)

Lemma _handle_arp_request_state (message : Message) (d : NetworkDevice) :
  state' (_handle_arp_request message d) = d.
Proof.
  unfold _handle_arp_request, _forward_arp_request. run_eff.
  destruct (arp_owner _ _); reflexivity.
Qed.

Lemma _handle_arp_request_result (message : Message) (d : NetworkDevice) :
  exists reply, result (_handle_arp_request message d) = Ok reply.
Proof.
  unfold _handle_arp_request, _forward_arp_request. run_eff.
  destruct (arp_owner _ _); eexists; reflexivity.
Qed.

Lemma _handle_ospf_hello_state (message : Message) (d : NetworkDevice) :
  state' (_handle_ospf_hello message d) = d.
Proof.
  unfold _handle_ospf_hello. run_eff.
  destruct (DeviceType_is_router _); reflexivity.
Qed.

Lemma _handle_ping_state (message : Message) (d : NetworkDevice) :
  state' (_handle_ping message d) = d.
Proof.
  unfold _handle_ping, _forward_ping. run_eff.
  destruct (_can_reach_ip _ _); reflexivity.
Qed.

Lemma subscript_state (route : PyVal) (key : string) (d : NetworkDevice) :
  state' (subscript route key d) = d.
Proof.
  unfold subscript. run_eff.
  destruct route as [ | | | | r ]; try reflexivity.
  destruct (PyDict.get r key); reflexivity.
Qed.

Lemma _handle_routing_update_statistics (message : Message)
      (d : NetworkDevice) :
  statistics (state' (_handle_routing_update message d)) = statistics d.
Proof.
  unfold _handle_routing_update.
  unfold bind at 1. unfold read at 1. simpl.
  destruct (DeviceType_is_router (device_type d)); [ | reflexivity ].
  destruct (truthy (msg_get message "route")); [ | reflexivity ].
  unfold bind at 1.
  pose proof (subscript_state (msg_get message "route") "next_hop" d) as H1.
  destruct (subscript (msg_get message "route") "next_hop" d)
    as [[next_hop | e] d1 l1]; simpl in *; subst d1; [ | reflexivity ].
  unfold bind at 1.
  pose proof (subscript_state (msg_get message "route") "destination" d) as H2.
  destruct (subscript (msg_get message "route") "destination" d)
    as [[destination | e] d2 l2]; simpl in *; subst d2; [ | reflexivity ].
  run_eff. destruct (hashable destination); reflexivity.
Qed.

Lemma py_eqb_kind_false (v : PyVal) (k : string) :
  v <> VStr k -> py_eqb v (VStr k) = false.
Proof.
  intros Hne. destruct v; simpl; try reflexivity.
  destruct (String.eqb_spec s k); [ congruence | reflexivity ].
Qed.

Lemma process_message_unknown (message : Message) (d : NetworkDevice) :
  (forall k, In k recognized_kinds -> msg_get message "type" <> VStr k) ->
  process_message message d
  = mkOutcome (Ok tt) (incr_packets_received d)
              [mkLog WARNING "Unknown message type: {}"
                     [msg_get message "type"]].
Proof.
  intros Hkind. unfold process_message.
  unfold bind at 1. unfold modify at 1. simpl.
  rewrite !py_eqb_kind_false by (apply Hkind; simpl; auto).
  reflexivity.
Qed.

(** C9: [process_message] adds exactly one to [packets_received] for every
    message, before it looks at the kind (a handler that raises does not
    undo it); a message of an unrecognized kind is logged as a warning and
    dropped, and neither [process_message] nor the turn of the [run] loop
    that delivers it touches the error counter. *)
Theorem process_message_counts_every_message
        (d : NetworkDevice) (message : Message) :
  packets_received (statistics (state' (process_message message d)))
  = packets_received (statistics d) + 1
  /\
  ((forall k, In k recognized_kinds -> msg_get message "type" <> VStr k) ->
   process_message message d
   = mkOutcome (Ok tt) (incr_packets_received d)
               [mkLog WARNING "Unknown message type: {}"
                      [msg_get message "type"]]
   /\ errors (statistics (state' (process_message message d)))
      = errors (statistics d)
   /\ forall (now : Z) (rest : list Message),
        let d0 := set_message_queue d (message :: rest) in
        let d1 := state' (run_iteration now d0) in
        errors (statistics d1) = errors (statistics d)
        /\ packets_received (statistics d1)
           = packets_received (statistics d) + 1
        /\ message_queue d1 = rest).
Proof.
  split.
  - unfold process_message.
    unfold bind at 1. unfold modify at 1. simpl.
    set (d' := incr_packets_received d).
    assert (Hd' : packets_received (statistics d')
                  = packets_received (statistics d) + 1) by reflexivity.
    destruct (py_eqb _ (VStr "arp_request")).
    { unfold bind at 1.
      pose proof (_handle_arp_request_state message d') as Hs.
      destruct (_handle_arp_request_result message d') as [reply Hr].
      destruct (_handle_arp_request message d') as [r d'' l]; simpl in *.
      subst d'' r. simpl. exact Hd'. }
    destruct (py_eqb _ (VStr "ospf_hello")).
    { rewrite _handle_ospf_hello_state. exact Hd'. }
    destruct (py_eqb _ (VStr "routing_update")).
    { rewrite _handle_routing_update_statistics. exact Hd'. }
    destruct (py_eqb _ (VStr "ping")).
    { rewrite _handle_ping_state. exact Hd'. }
    simpl. exact Hd'.
  - intros Hkind.
    pose proof (process_message_unknown message d Hkind) as Hpm.
    split; [ exact Hpm | ].
    split; [ rewrite Hpm; reflexivity | ].
    intros now rest d0 d1.
    assert (Hpm0 := process_message_unknown message
                      (set_message_queue d0 rest) Hkind).
    unfold d1, run_iteration, try_except.
    rewrite EffFacts.bind_read.
    change (message_queue d0) with (message :: rest). cbv beta iota.
    rewrite EffFacts.bind_assoc, EffFacts.bind_modify.
    rewrite (EffFacts.bind_ok _ _ _ _ _ _ Hpm0). simpl. auto.
Qed.

(** ** ARP *)

Lemma arp_owner_found (l : list Interface) (target_ip : PyVal) (i : Interface) :
  In i l -> target_ip = VStr (ip_address i) ->
  exists j, arp_owner l target_ip = Some j /\ In j l /\
            ip_address j = ip_address i.
Proof.
  intros Hin ->. induction l as [ | x l IHl ]; simpl; [ destruct Hin | ].
  destruct (String.eqb_spec (ip_address x) (ip_address i)) as [He | Hne].
  - exists x. split; [ reflexivity | ].
    split; [ left; reflexivity | exact He ].
  - destruct Hin as [-> | Hin]; [ congruence | ].
    destruct (IHl Hin) as (j & Hj & Hjin & Hip). exists j. auto.
Qed.

(** C10: an [arp_request] whose target is the address of some interface of
    the device gets a reply, built from an interface with that address,
    whatever the state of that or any other interface. *)
Theorem arp_request_for_own_address_is_answered
        (d : NetworkDevice) (message : Message) (interface : Interface) :
  In interface (PyDict.values (interfaces d)) ->
  msg_get message "target_ip" = VStr (ip_address interface) ->
  exists owner,
    In owner (PyDict.values (interfaces d)) /\
    ip_address owner = ip_address interface /\
    _handle_arp_request message d
    = mkOutcome
        (Ok (Some [("type", VStr "arp_reply");
                   ("target_mac", msg_get message "source_mac");
                   ("source_ip", VStr (ip_address interface));
                   ("source_mac",
                    VStr ("MAC_" ++ hostname d ++ "_" ++ name owner))]))
        d
        [mkLog INFO "ARP reply for {}" [VStr (ip_address interface)]].
Proof.
  intros Hin Htarget.
  destruct (arp_owner_found _ _ _ Hin Htarget) as (j & Hj & Hjin & Hip).
  exists j. repeat split; try assumption.
  unfold _handle_arp_request. run_eff. rewrite Hj, Htarget. reflexivity.
Qed.

End DeviceFacts.

(* ================================================================== *)
(** * The simulator *)
(* ================================================================== *)

Module SimulatorFacts.

Import Simulator Eff EffFacts Props.
Local Open Scope eff_scope.

(** ** Rules for method bodies that keep the frame *)

Section FrameRules.

Variables (AF : list FaultInjection) (K : list string) (R : bool)
          (G : Topology.TopologyGenerator).

Lemma returns_ret {A} (a : A) (Q : A -> Prop) :
  Q a -> returns (frame AF K R G) (ret a) Q.
Proof.
  intros HQ s Hs. split; [ exact Hs | ].
  split; [ exists a; auto | constructor ].
Qed.

Lemma returns_bind {A B} (m : S A) (k : A -> S B)
      (Q : A -> Prop) (Q' : B -> Prop) :
  returns (frame AF K R G) m Q ->
  (forall a, Q a -> returns (frame AF K R G) (k a) Q') ->
  returns (frame AF K R G) (bind m k) Q'.
Proof.
  intros Hm Hk s Hs.
  destruct (Hm s Hs) as (Hs1 & (a & Ha & HQ) & Hl1).
  unfold bind. rewrite Ha.
  destruct (Hk a HQ _ Hs1) as (Hs2 & (b & Hb & HQ') & Hl2).
  simpl. split; [ exact Hs2 | ].
  split; [ exists b; auto | apply Forall_app; auto ].
Qed.

Lemma returns_weaken {A} (m : S A) (Q Q' : A -> Prop) :
  returns (frame AF K R G) m Q -> (forall a, Q a -> Q' a) ->
  returns (frame AF K R G) m Q'.
Proof.
  intros Hm HQ s Hs. destruct (Hm s Hs) as (Hs1 & (a & Ha & Hq) & Hl).
  split; [ exact Hs1 | ]. split; [ exists a; auto | exact Hl ].
Qed.

Lemma returns_read {A} (f : NetworkSimulator -> A) (Q : A -> Prop) :
  (forall s, frame AF K R G s -> Q (f s)) ->
  returns (frame AF K R G) (read f) Q.
Proof.
  intros HQ s Hs. split; [ exact Hs | ].
  split; [ exists (f s); auto | constructor ].
Qed.

Lemma returns_log (l : Level) (text : string) (args : list PyVal) :
  l <> ERROR ->
  returns (frame AF K R G) (log l text args) (fun _ => True).
Proof.
  intros Hl s Hs. split; [ exact Hs | ].
  split; [ exists tt; auto | repeat constructor; exact Hl ].
Qed.

Lemma returns_for_each {A} (l : list A) (body : A -> S unit) :
  (forall x, In x l -> returns (frame AF K R G) (body x) (fun _ => True)) ->
  returns (frame AF K R G) (for_each l body) (fun _ => True).
Proof.
  induction l as [ | x l IHl ]; intros Hbody; simpl.
  - apply returns_ret. exact Logic.I.
  - eapply returns_bind.
    + apply Hbody. left. reflexivity.
    + intros _ _. apply IHl. intros y Hy. apply Hbody. right. exact Hy.
Qed.

Lemma returns_on_device {A} (h : string) (m : Device.M A) :
  In h K -> device_total m ->
  returns (frame AF K R G) (on_device h m) (fun _ => True).
Proof.
  intros Hh Hm s (Ha & Hk & Hr & Hg). unfold on_device.
  assert (Hmem : PyDict.mem h (devices s) = true)
    by (apply PyDictFacts.mem_keys; rewrite Hk; exact Hh).
  unfold PyDict.mem in Hmem.
  destruct (PyDict.get (devices s) h) as [d | ] eqn:Hget; [ | discriminate ].
  destruct (Hm d) as ([a Hres] & Hlog). simpl. split.
  - repeat split; simpl; try assumption.
    rewrite PyDictFacts.keys_set_present; [ exact Hk | ].
    unfold PyDict.mem. rewrite Hget. reflexivity.
  - split; [ exists a; auto | exact Hlog ].
Qed.

Lemma returns_lookup_device (h : string) :
  In h K -> returns (frame AF K R G) (lookup_device h) (fun _ => True).
Proof.
  intros Hh s Hs. pose proof Hs as (Ha & Hk & Hr & Hg). unfold lookup_device.
  assert (Hmem : PyDict.mem h (devices s) = true)
    by (apply PyDictFacts.mem_keys; rewrite Hk; exact Hh).
  unfold PyDict.mem in Hmem.
  destruct (PyDict.get (devices s) h) as [d | ]; [ | discriminate ].
  simpl. split; [ exact Hs | ]. split; [ exists d; auto | constructor ].
Qed.

(** [if neighbor in self.devices: self.devices[neighbor].m()] *)
Lemma returns_guarded_on_device (h : string) (m : Device.M unit) :
  device_total m ->
  returns (frame AF K R G)
    (devs <- read devices ;;
     if PyDict.mem h devs then on_device h m else ret tt)
    (fun _ => True).
Proof.
  intros Hm.
  apply returns_bind with (Q := fun devs => PyDict.keys devs = K).
  - apply returns_read. intros s (_ & Hk & _). exact Hk.
  - intros devs Hk. destruct (PyDict.mem h devs) eqn:Hmem.
    + apply returns_on_device; [ | exact Hm ].
      rewrite <- Hk. apply PyDictFacts.mem_keys. exact Hmem.
    + apply returns_ret. exact Logic.I.
Qed.

End FrameRules.

(** ** The device methods the simulator calls never raise *)

Ltac device_total_cases :=
  split; [ eexists; reflexivity
         | repeat constructor; simpl; discriminate ].

Lemma set_interface_state_total (nm : string) (st : Device.InterfaceState) :
  device_total (Device.set_interface_state nm st).
Proof.
  intros d. unfold Device.set_interface_state.
  cbv [bind read modify log ret result state' logged].
  destruct (PyDict.get (Device.interfaces d) nm); device_total_cases.
Qed.

Lemma add_neighbor_total (n : string) : device_total (Device.add_neighbor n).
Proof.
  intros d. unfold Device.add_neighbor.
  cbv [bind read modify log ret result state' logged].
  destruct (negb _); device_total_cases.
Qed.

Lemma remove_neighbor_total (n : string) :
  device_total (Device.remove_neighbor n).
Proof.
  intros d. unfold Device.remove_neighbor.
  cbv [bind read modify log ret result state' logged].
  destruct (Device.str_in _ _); device_total_cases.
Qed.

Lemma inject_high_cpu_total : device_total (Device.inject_fault "high_cpu" []).
Proof. intros d. device_total_cases. Qed.

(** ** Applying and reverting a fault keeps the frame *)

Section FaultFrame.

Variables (AF : list FaultInjection) (K : list string) (R : bool)
          (G : Topology.TopologyGenerator).

Lemma _apply_fault_returns (fault : FaultInjection) :
  In (target_device fault) K ->
  returns (frame AF K R G) (_apply_fault fault) (fun _ => True).
Proof.
  intros Hk. unfold _apply_fault.
  eapply returns_bind; [ apply returns_lookup_device; exact Hk | ].
  intros device _.
  destruct (String.eqb (fault_type fault) "interface_down").
  { destruct (truthy_opt_str (target_interface fault)).
    - destruct (target_interface fault).
      + apply returns_on_device; [ exact Hk | apply set_interface_state_total ].
      + apply returns_ret. exact Logic.I.
    - apply returns_for_each. intros nm _.
      apply returns_on_device; [ exact Hk | apply set_interface_state_total ]. }
  destruct (String.eqb (fault_type fault) "link_failure").
  { apply returns_for_each. intros neighbor _.
    eapply returns_bind.
    - apply returns_on_device; [ exact Hk | apply remove_neighbor_total ].
    - intros _ _. apply returns_guarded_on_device. apply remove_neighbor_total. }
  destruct (String.eqb (fault_type fault) "high_cpu").
  { apply returns_on_device; [ exact Hk | apply inject_high_cpu_total ]. }
  destruct (String.eqb (fault_type fault) "memory_leak").
  { apply returns_on_device; [ exact Hk | apply inject_high_cpu_total ]. }
  destruct (String.eqb (fault_type fault) "packet_loss").
  { apply returns_on_device; [ exact Hk | apply inject_high_cpu_total ]. }
  apply returns_log. discriminate.
Qed.

Lemma _remove_fault_returns (fault : FaultInjection) :
  In (target_device fault) K ->
  returns (frame AF K R G) (_remove_fault fault) (fun _ => True).
Proof.
  intros Hk. unfold _remove_fault.
  eapply returns_bind; [ apply returns_lookup_device; exact Hk | ].
  intros device _.
  eapply returns_bind; [ | intros _ _; apply returns_log; discriminate ].
  destruct (String.eqb (fault_type fault) "interface_down").
  { destruct (truthy_opt_str (target_interface fault)).
    - destruct (target_interface fault).
      + apply returns_on_device; [ exact Hk | apply set_interface_state_total ].
      + apply returns_ret. exact Logic.I.
    - apply returns_for_each. intros nm _.
      apply returns_on_device; [ exact Hk | apply set_interface_state_total ]. }
  destruct (String.eqb (fault_type fault) "link_failure").
  { eapply returns_bind;
      [ apply returns_read with (Q := fun _ => True); auto | ].
    intros gen _.
    apply returns_for_each. intros neighbor _.
    eapply returns_bind.
    - apply returns_on_device; [ exact Hk | apply add_neighbor_total ].
    - intros _ _. apply returns_guarded_on_device. apply add_neighbor_total. }
  apply returns_ret. exact Logic.I.
Qed.

(** The first loop of the expiry turn returns the expired faults, in
    order. *)
Lemma revert_expired_returns (current_time : Z) (l : list FaultInjection) :
  (forall f, In f l -> In (target_device f) K) ->
  returns (frame AF K R G) (revert_expired current_time l)
          (fun r => r = filter (expired current_time) l).
Proof.
  induction l as [ | f l IHl ]; intros Hl; simpl.
  - apply returns_ret. reflexivity.
  - destruct (expired current_time f).
    + eapply returns_bind.
      * apply _remove_fault_returns. apply Hl. left. reflexivity.
      * intros _ _. eapply returns_bind.
        -- apply IHl. intros g Hg. apply Hl. right. exact Hg.
        -- intros r ->. apply returns_ret. reflexivity.
    + apply IHl. intros g Hg. apply Hl. right. exact Hg.
Qed.

End FaultFrame.

(** ** The expiry turn *)

Lemma opt_Z_eqb_eq (a b : option Z) : opt_Z_eqb a b = true -> a = b.
Proof.
  destruct a, b; simpl; try discriminate; try reflexivity.
  intros H. apply Z.eqb_eq in H. subst. reflexivity.
Qed.

Lemma opt_Z_eqb_refl (a : option Z) : opt_Z_eqb a a = true.
Proof. destruct a; simpl; [ apply Z.eqb_refl | reflexivity ]. Qed.

Lemma opt_string_eqb_refl (a : option string) : opt_string_eqb a a = true.
Proof. destruct a; simpl; [ apply String.eqb_refl | reflexivity ]. Qed.

Lemma fault_eqb_refl (f : FaultInjection) : fault_eqb f f = true.
Proof.
  unfold fault_eqb.
  rewrite !String.eqb_refl, opt_string_eqb_refl, py_eqb_refl,
          !opt_Z_eqb_refl.
  reflexivity.
Qed.

(** Equal faults expire together. *)
Lemma fault_eqb_expired (t : Z) (f g : FaultInjection) :
  fault_eqb f g = true -> expired t g = expired t f.
Proof.
  unfold fault_eqb. intros H.
  repeat (apply andb_true_iff in H as [H ?]).
  unfold expired.
  rewrite (opt_Z_eqb_eq (duration f) (duration g)) by assumption.
  rewrite (opt_Z_eqb_eq (start_time f) (start_time g)) by assumption.
  reflexivity.
Qed.

(** [remove] of the first expired fault takes an expired fault away and
    leaves the others where they are. *)
Lemma faults_remove_first_expired (t : Z) (x : FaultInjection)
      (C R : list FaultInjection) :
  filter (expired t) C = x :: R ->
  exists C',
    faults_remove x C = Some C' /\
    filter (expired t) C' = R /\
    filter (fun f => negb (expired t f)) C'
    = filter (fun f => negb (expired t f)) C.
Proof.
  induction C as [ | g C IHC ]; simpl; [ discriminate | ].
  destruct (fault_eqb x g) eqn:Heq.
  - intros H. exists C.
    assert (Hx : expired t x = true).
    { assert (Hin : In x (filter (expired t) (g :: C)))
        by (simpl; rewrite H; left; reflexivity).
      apply filter_In in Hin. apply Hin. }
    rewrite (fault_eqb_expired t x g Heq), Hx in H |- *.
    injection H as _ H. simpl. auto.
  - destruct (expired t g) eqn:Hg.
    + intros [= -> _]. rewrite fault_eqb_refl in Heq. discriminate.
    + intros H. destruct (IHC H) as (C' & Hrem & Hexp & Hnot).
      exists (g :: C'). rewrite Hrem. simpl. rewrite Hg. simpl.
      rewrite Hnot. auto.
Qed.

Lemma filter_nothing_expired (t : Z) (C : list FaultInjection) :
  filter (expired t) C = [] ->
  filter (fun f => negb (expired t f)) C = C.
Proof.
  induction C as [ | g C IHC ]; simpl; [ reflexivity | ].
  destruct (expired t g); simpl; [ discriminate | ].
  intros H. rewrite IHC by exact H. reflexivity.
Qed.

Lemma set_active_faults_id (s : NetworkSimulator) :
  set_active_faults s (active_faults s) = s.
Proof. destruct s. reflexivity. Qed.

(** The second loop of the expiry turn. *)
Lemma removal_loop (t : Z) (R C : list FaultInjection) (s : NetworkSimulator) :
  active_faults s = C ->
  filter (expired t) C = R ->
  for_each R
    (fun fault =>
       l <- read active_faults ;;
       match faults_remove fault l with
       | Some l' => modify (fun s => set_active_faults s l')
       | None => raise ValueError
       end) s
  = mkOutcome (Ok tt)
      (set_active_faults s (filter (fun f => negb (expired t f)) C)) [].
Proof.
  revert C s. induction R as [ | x R IHR ]; intros C s HC HR; simpl.
  - rewrite filter_nothing_expired by exact HR.
    rewrite <- HC, set_active_faults_id. reflexivity.
  - destruct (faults_remove_first_expired t x C R HR)
      as (C' & Hrem & Hexp & Hnot).
    unfold bind at 1. rewrite bind_read, HC, Hrem.
    unfold modify at 1. simpl.
    rewrite (IHR C' (set_active_faults s C') eq_refl Hexp).
    simpl. rewrite Hnot. reflexivity.
Qed.

(** One turn of the expiry loop on a valid state: it returns, and the
    active list loses exactly the faults that expired. *)
Lemma _process_faults_iteration_spec (t : Z) (s : NetworkSimulator) :
  faults_valid s ->
  exists s1 logs,
    frame (active_faults s) (PyDict.keys (devices s))
          (simulation_running s) (topology_generator s) s1 /\
    _process_faults_iteration t s
    = mkOutcome (Ok tt)
        (set_active_faults s1
           (filter (fun f => negb (expired t f)) (active_faults s)))
        logs.
Proof.
  intros Hvalid.
  assert (Hs : frame (active_faults s) (PyDict.keys (devices s))
                     (simulation_running s) (topology_generator s) s)
    by (repeat split).
  assert (Hl : forall f, In f (active_faults s) ->
                         In (target_device f) (PyDict.keys (devices s)))
    by (intros f Hf; apply PyDictFacts.mem_keys; apply Hvalid; exact Hf).
  destruct (revert_expired_returns _ _ _ _ t (active_faults s) Hl s Hs)
    as (Hs1 & (r & Hr & ->) & _).
  destruct (revert_expired t (active_faults s) s) as [res s1 l1] eqn:Hrev.
  simpl in Hs1, Hr. subst res.
  exists s1, l1. split; [ exact Hs1 | ].
  unfold _process_faults_iteration, try_except.
  rewrite bind_read. rewrite (bind_ok _ _ _ _ _ _ Hrev).
  destruct Hs1 as (Ha & _).
  rewrite (removal_loop t _ (active_faults s) s1 Ha eq_refl).
  simpl. rewrite app_nil_r. reflexivity.
Qed.



Lemma tick_valid (t : Z) (s : NetworkSimulator) :
  faults_valid s -> faults_valid (state' (_process_faults_iteration t s)).
Proof.
  intros Hv. destruct (_process_faults_iteration_spec t s Hv)
    as (s1 & logs & (_ & Hk & _ & _) & ->).
  intros f Hf. simpl in *. apply filter_In in Hf as [Hf _].
  apply PyDictFacts.mem_keys. rewrite Hk.
  apply PyDictFacts.mem_keys. apply Hv. exact Hf.
Qed.

(** ** The expiry loop *)

Lemma _process_faults_valid (ticks : list Z) (s : NetworkSimulator) :
  faults_valid s -> faults_valid (_process_faults ticks s).
Proof.
  revert s. induction ticks as [ | t ticks IH ]; intros s Hv; simpl.
  - exact Hv.
  - destruct (simulation_running s); [ | exact Hv ].
    apply IH. apply tick_valid. exact Hv.
Qed.




(** ** Injection *)

Lemma inject_fault_spec (s : NetworkSimulator) (ft target : string)
      (ti : option string) (params : option (PyDict.t PyVal))
      (dur : option Z) (now now' : Z) :
  PyDict.mem target (devices s) = true ->
  let fault := new_fault ft target ti params dur now in
  let o := inject_fault ft target ti params dur now now' s in
  result o = Ok tt /\
  frame (active_faults s ++ [fault]) (PyDict.keys (devices s))
        (simulation_running s) (topology_generator s) (state' o) /\
  no_error_logged (logged o).
Proof.
  intros Hmem fault o. subst o. unfold inject_fault.
  rewrite bind_read, Hmem. change (negb true) with false. cbv beta iota.
  fold fault. rewrite !bind_modify.
  set (s2 := set_fault_history _ _).
  assert (Hs2 : frame (active_faults s ++ [fault]) (PyDict.keys (devices s))
                      (simulation_running s) (topology_generator s) s2)
    by (repeat split).
  assert (Ht : In (target_device fault) (PyDict.keys (devices s)))
    by (apply PyDictFacts.mem_keys; exact Hmem).
  destruct (_apply_fault_returns _ _ _ _ fault Ht s2 Hs2)
    as (Hs3 & ([] & Hr & _) & Hl3).
  destruct (_apply_fault fault s2) as [res s3 l3] eqn:Happ.
  simpl in Hs3, Hr, Hl3. subst res.
  rewrite (bind_ok _ _ _ _ _ _ Happ). rewrite bind_log.
  unfold _record_event, modify. simpl.
  destruct Hs3 as (Ha & Hk & Hrun & Hg).
  split; [ reflexivity | ].
  split; [ repeat split; assumption | ].
  apply Forall_app. split; [ exact Hl3 | ].
  repeat constructor. simpl. discriminate.
Qed.







(** ** The event query *)

Lemma filter_all {A} (l : list A) : filter (fun _ => true) l = l.
Proof. induction l as [ | x l IHl ]; simpl; [ | rewrite IHl ]; reflexivity. Qed.

Lemma slice_from_most_recent {A} (n : Z) (l : list A) :
  0 < n -> slice_from (- n) l = most_recent (Z.to_nat n) l.
Proof.
  intros Hn. unfold slice_from, most_recent.
  destruct (Z.ltb_spec (- n) 0); [ | lia ].
  f_equal. lia.
Qed.

(** C8 (as amended): with no kind filter, or a kind that is not the empty
    string, and with no limit, or a limit above zero, [get_simulation_events]
    returns the events of that kind (all events without a filter) in
    insertion order; without a limit all of them, with a limit [n] the [n]
    most recent ones. *)
Theorem get_simulation_events_filters_and_truncates
        (s : NetworkSimulator) (kind : option string) (limit : option Z) :
  (forall k, kind = Some k -> k <> "") ->
  (forall n, limit = Some n -> 0 < n) ->
  let matching :=
    filter (fun e => match kind with
                     | Some k => String.eqb (event_type e) k
                     | None => true
                     end) (events s) in
  let r := get_simulation_events s kind limit in
  (limit = None -> r = matching) /\
  (forall n, limit = Some n -> r = most_recent (Z.to_nat n) matching) /\
  (exists older, matching = (older ++ r)%list).
Proof.
  intros Hkind Hlimit matching r.
  assert (Hm : (if truthy_opt_str kind
                then filter (fun e => opt_string_eqb (Some (event_type e)) kind)
                            (events s)
                else events s) = matching).
  { unfold matching. destruct kind as [k | ]; simpl.
    - destruct (String.eqb_spec k ""); [ exfalso; eapply Hkind; eauto | ].
      reflexivity.
    - rewrite filter_all. reflexivity. }
  assert (Hr : r = match limit with
                   | Some n => most_recent (Z.to_nat n) matching
                   | None => matching
                   end).
  { unfold r, get_simulation_events. rewrite Hm.
    destruct limit as [n | ]; simpl; [ | reflexivity ].
    pose proof (Hlimit n eq_refl).
    destruct (Z.eqb_spec n 0); [ lia | ]. simpl.
    apply slice_from_most_recent. assumption. }
  split; [ intros ->; exact Hr | ].
  split; [ intros n ->; exact Hr | ].
  rewrite Hr. destruct limit as [n | ].
  - exists (firstn (List.length matching - Z.to_nat n) matching).
    unfold most_recent. symmetry. apply firstn_skipn.
  - exists []. reflexivity.
Qed.

(** ** Construction, start and status *)

Lemma In_set_cases {V} (l : PyDict.t V) (nm : string) (j : V)
      (k : string) (x : V) :
  In (k, x) (PyDict.set l nm j) -> x = j \/ In (k, x) l.
Proof.
  induction l as [ | [k' v'] l IHl ]; simpl.
  - intros [[= _ <-] | []]. left. reflexivity.
  - destruct (String.eqb nm k'); simpl.
    + intros [[= _ <-] | H]; auto.
    + intros [H | H]; auto. destruct (IHl H); auto.
Qed.

(** The generator the constructor makes knows no topology, so it has no
    neighbours to give, whatever the device. *)
Lemma fresh_generator_has_no_neighbors (device : string) :
  Topology.get_device_neighbors Topology.__init__ device = [].
Proof. reflexivity. Qed.

(** The generator that generated a topology does give the adjacency. *)
Lemma generating_generator_gives_adjacency
      (configs : PyDict.t Config.ParsedConfig)
      (links : list Topology.NetworkLink) (device : string) :
  let (gen, topo) :=
    Topology.generate_topology Topology.__init__ configs links [] [] [] in
  Topology.get_device_neighbors gen device
  = Topology.graph_neighbors (Topology.graph topo) device.
Proof.
  simpl. unfold Topology.get_device_neighbors, Topology.contains,
           Topology.graph_neighbors, PyDict.mem. simpl.
  destruct (PyDict.get _ device); reflexivity.
Qed.

Lemma init_loop (l : PyDict.t Config.ParsedConfig) (s : NetworkSimulator) :
  topology_generator s = Topology.__init__ ->
  no_neighbors s ->
  let o :=
    for_each l
      (fun hc =>
         let hostname := fst hc in
         let config := snd hc in
         let device_type := _determine_device_type config in
         let device := Device.__init__ hostname device_type
                         (_convert_config_for_device config) in
         modify (fun s => set_devices s (PyDict.set (devices s) hostname device)) ;;
         gen <- read topology_generator ;;
         let neighbors := Topology.get_device_neighbors gen hostname in
         for_each neighbors
           (fun neighbor => on_device hostname (Device.add_neighbor neighbor)))
      s in
  result o = Ok tt /\
  topology_generator (state' o) = Topology.__init__ /\
  no_neighbors (state' o) /\
  (forall h, PyDict.mem h (devices s) = true \/ In h (PyDict.keys l) ->
             PyDict.mem h (devices (state' o)) = true).
Proof.
  revert s. induction l as [ | [h0 c0] l IHl ]; intros s Hg Hn; simpl.
  - repeat split; try assumption. intros h [H | []]. exact H.
  - set (dev := Device.__init__ h0 _ _).
    set (s1 := set_devices s (PyDict.set (devices s) h0 dev)).
    assert (Hbody :
      (modify (fun s => set_devices s (PyDict.set (devices s) h0 dev)) ;;
       gen <- read topology_generator ;;
       for_each (Topology.get_device_neighbors gen h0)
         (fun neighbor => on_device h0 (Device.add_neighbor neighbor))) s
      = mkOutcome (Ok tt) s1 []).
    { rewrite bind_modify, bind_read. fold s1.
      change (topology_generator s1) with (topology_generator s).
      rewrite Hg. reflexivity. }
    rewrite (bind_ok _ _ _ _ _ _ Hbody). simpl.
    assert (Hn1 : no_neighbors s1).
    { intros h d Hin. apply In_set_cases in Hin as [-> | Hin].
      - reflexivity.
      - eapply Hn. exact Hin. }
    destruct (IHl s1 Hg Hn1) as (Hr & Hg' & Hn' & Hk).
    repeat split; try assumption.
    intros h Hh. apply Hk. simpl.
    destruct Hh as [Hh | [<- | Hh]].
    + left. rewrite PyDictFacts.mem_set, Hh. apply orb_true_r.
    + left. rewrite PyDictFacts.mem_set, String.eqb_refl. reflexivity.
    + right. exact Hh.
Qed.

Lemma _initialize_devices_spec (s : NetworkSimulator) :
  topology_generator s = Topology.__init__ ->
  no_neighbors s ->
  let o := _initialize_devices s in
  result o = Ok tt /\
  topology_generator (state' o) = Topology.__init__ /\
  no_neighbors (state' o) /\
  (forall h, PyDict.mem h (Topology.devices (topology s)) = true ->
             PyDict.mem h (devices (state' o)) = true).
Proof.
  intros Hg0 Hn0.
  destruct (init_loop (Topology.devices (topology s)) s Hg0 Hn0)
    as (Hr & Hg & Hn & Hk).
  match type of Hr with result (?m s) = _ =>
    destruct (m s) as [res s1 l1] eqn:Hloop end.
  simpl in Hr, Hg, Hn, Hk. subst res.
  unfold _initialize_devices.
  rewrite bind_log. cbn [result state' logged].
  rewrite bind_read. rewrite (bind_ok _ _ _ _ _ _ Hloop).
  cbn [result state' logged]. rewrite bind_read. simpl.
  repeat split; try assumption.
  intros h Hh. apply Hk. right. apply PyDictFacts.mem_keys. exact Hh.
Qed.

Lemma __init___spec (topo : Topology.NetworkTopology) :
  let s := state' (__init__ topo) in
  topology_generator s = Topology.__init__ /\
  no_neighbors s /\
  (forall h, PyDict.mem h (Topology.devices topo) = true ->
             PyDict.mem h (devices s) = true).
Proof.
  unfold __init__.
  set (s0 := mkSim _ _ _ _ _ _ _ _ _ _ _ _ _).
  destruct (_initialize_devices_spec s0 eq_refl) as (Hr & Hg & Hn & Hk);
    [ intros h d [] | ].
  destruct (_initialize_devices s0) as [res s1 l1] eqn:Hinit.
  simpl in Hr, Hg, Hn, Hk. subst res.
  rewrite (bind_ok _ _ _ _ _ _ Hinit). simpl.
  repeat split; assumption.
Qed.

Lemma state'_then_log {A} (m : S A) (l : Level) (text : string)
      (args : list PyVal) (s : NetworkSimulator) :
  state' ((m ;; log l text args) s) = state' (m s).
Proof. unfold bind. destruct (m s) as [[a | e] s1 l1]; reflexivity. Qed.

Lemma on_device_start_keeps (h0 : string) (s : NetworkSimulator) :
  let s' := state' (on_device h0 Device.start s) in
  (no_neighbors s -> no_neighbors s') /\
  (forall h, PyDict.mem h (devices s) = true ->
             PyDict.mem h (devices s') = true).
Proof.
  unfold on_device.
  destruct (PyDict.get (devices s) h0) as [d | ] eqn:Hget;
    cbn [state']; [ | auto ].
  assert (Hnb : Device.neighbors (state' (Device.start d))
                = Device.neighbors d).
  { unfold Device.start. rewrite bind_read.
    destruct (Device.started d); reflexivity. }
  split.
  - intros Hn h x Hin. apply In_set_cases in Hin as [-> | Hin].
    + rewrite Hnb. eapply Hn. apply PyDictFacts.get_In. exact Hget.
    + eapply Hn. exact Hin.
  - intros h Hh. simpl. rewrite PyDictFacts.mem_set, Hh. apply orb_true_r.
Qed.

Lemma start_devices_loop (l : list string) (s : NetworkSimulator) :
  let s' := state' (for_each l (fun h => on_device h Device.start) s) in
  (no_neighbors s -> no_neighbors s') /\
  (forall h, PyDict.mem h (devices s) = true ->
             PyDict.mem h (devices s') = true).
Proof.
  revert s. induction l as [ | h0 l IHl ]; intros s; simpl.
  - auto.
  - destruct (on_device_start_keeps h0 s) as (Hn1 & Hk1).
    destruct (on_device h0 Device.start s) as [[[] | e] s1 l1] eqn:Hstep;
      cbn [state'] in Hn1, Hk1.
    + rewrite (bind_ok _ _ _ _ _ _ Hstep). cbn [state'].
      destruct (IHl s1) as (Hn & Hk). split.
      * intros H. apply Hn, Hn1, H.
      * intros h Hh. apply Hk, Hk1, Hh.
    + rewrite (bind_fail _ _ _ _ _ _ Hstep). cbn [state']. auto.
Qed.

Lemma start_simulation_spec (now : Z) (s : NetworkSimulator) :
  let s' := state' (start_simulation now s) in
  (no_neighbors s -> no_neighbors s') /\
  (forall h, PyDict.mem h (devices s) = true ->
             PyDict.mem h (devices s') = true).
Proof.
  unfold start_simulation. rewrite bind_read.
  destruct (simulation_running s); [ simpl; auto | ].
  rewrite bind_log. cbn [state']. rewrite !bind_modify, bind_read.
  rewrite state'_then_log.
  match goal with |- context [for_each _ _ ?s2] =>
    destruct (start_devices_loop (PyDict.keys (devices s2)) s2) as (Hn & Hk)
  end.
  split; [ intros H; apply Hn; exact H | intros h Hh; apply Hk; exact Hh ].
Qed.

Lemma status_devices_get (devs : PyDict.t Device.NetworkDevice)
      (acc : PyDict.t Status.DeviceSummary) (h : string)
      (sm : Status.DeviceSummary) :
  PyDict.get
    (fold_left
       (fun acc hd =>
          PyDict.set acc (fst hd)
            (Status.mkSummary (Device.alive (snd hd))
                              (Device.neighbors (snd hd))
                              (List.length (Device.interfaces (snd hd)))))
       devs acc) h = Some sm ->
  (exists d, In (h, d) devs /\ Status.neighbors sm = Device.neighbors d) \/
  PyDict.get acc h = Some sm.
Proof.
  revert acc. induction devs as [ | [h0 d0] devs IH ]; intros acc; simpl.
  - auto.
  - intros H. apply IH in H as [(d & Hin & Hsm) | H].
    + left. exists d. auto.
    + destruct (String.eqb_spec h h0) as [-> | Hne].
      * rewrite PyDictFacts.get_set_same in H. injection H as <-.
        left. exists d0. auto.
      * rewrite PyDictFacts.get_set_other in H by exact Hne. auto.
Qed.

Lemma status_devices_mem (devs : PyDict.t Device.NetworkDevice)
      (acc : PyDict.t Status.DeviceSummary) (h : string) :
  PyDict.mem h devs = true \/ PyDict.mem h acc = true ->
  PyDict.mem h
    (fold_left
       (fun acc hd =>
          PyDict.set acc (fst hd)
            (Status.mkSummary (Device.alive (snd hd))
                              (Device.neighbors (snd hd))
                              (List.length (Device.interfaces (snd hd)))))
       devs acc) = true.
Proof.
  revert acc. induction devs as [ | [h0 d0] devs IH ]; intros acc; simpl.
  - intros [H | H]; [ discriminate | exact H ].
  - intros H. apply IH. rewrite PyDictFacts.mem_set.
    unfold PyDict.mem in H at 1. simpl in H.
    destruct (String.eqb_spec h h0) as [-> | Hne].
    + right. reflexivity.
    + destruct H as [H | H]; [ left; exact H | right; exact H ].
Qed.

(** With the generator of the constructor, reverting a link failure
    changes no device: there is no neighbour to restore. *)
Lemma revert_link_failure_changes_nothing
      (s : NetworkSimulator) (fault : FaultInjection) :
  topology_generator s = Topology.__init__ ->
  fault_type fault = "link_failure" ->
  PyDict.mem (target_device fault) (devices s) = true ->
  state' (_remove_fault fault s) = s.
Proof.
  intros Hg Hft Hmem. unfold _remove_fault.
  unfold PyDict.mem in Hmem.
  destruct (PyDict.get (devices s) (target_device fault)) as [d | ] eqn:Hget;
    [ | discriminate ].
  assert (Hlookup : lookup_device (target_device fault) s
                    = mkOutcome (Ok d) s [])
    by (unfold lookup_device; rewrite Hget; reflexivity).
  rewrite (bind_ok _ _ _ _ _ _ Hlookup). cbn [state'].
  rewrite state'_then_log, Hft. cbn [String.eqb Ascii.eqb Bool.eqb].
  rewrite bind_read, Hg. reflexivity.
Qed.

(** The part of the round trip that holds: every configured device is in
    the status taken after the start. *)
Lemma status_lists_every_configured_device
      (topo : Topology.NetworkTopology) (now : Z) (h : string) :
  PyDict.mem h (Topology.devices topo) = true ->
  PyDict.mem h
    (Status.devices
       (get_network_status
          (state' (start_simulation now (state' (__init__ topo)))))) = true.
Proof.
  intros Hh. unfold get_network_status. simpl.
  apply status_devices_mem. left.
  apply start_simulation_spec. apply __init___spec. exact Hh.
Qed.

(** The part that does not: whatever the topology, every neighbour list
    in that status is empty. *)
Lemma status_reports_no_neighbors
      (topo : Topology.NetworkTopology) (now : Z) (h : string)
      (sm : Status.DeviceSummary) :
  PyDict.get
    (Status.devices
       (get_network_status
          (state' (start_simulation now (state' (__init__ topo)))))) h
  = Some sm ->
  Status.neighbors sm = [].
Proof.
  unfold get_network_status. simpl. intros H.
  apply status_devices_get in H as [(d & Hin & ->) | H]; [ | discriminate ].
  assert (Hn : no_neighbors
                 (state' (start_simulation now (state' (__init__ topo)))))
    by (apply start_simulation_spec; apply __init___spec).
  eapply Hn. exact Hin.
Qed.

End SimulatorFacts.

(* ================================================================== *)
(** * The scenarios *)
(* ================================================================== *)

Module ScenarioFacts.

Import Simulator Eff Props Scenario.

(** C1: on the two-device topology with one link, every configured device
    is in the status taken right after the start, but the neighbour list
    reported for R1 is empty while R1 has one neighbour in the adjacency
    of the topology: the constructor asked a generator of its own, which
    holds no topology, for the neighbours. *)
Theorem status_after_start_misses_the_adjacency :
  let status := get_network_status (started pair_topology) in
  PyDict.keys (Status.devices status) = ["R1"; "R2"] /\
  Topology.graph_neighbors (Topology.graph pair_topology) "R1" = ["R2"] /\
  option_map Status.neighbors (PyDict.get (Status.devices status) "R1")
  = Some [] /\
  topology_generator (started pair_topology) = Topology.__init__.
Proof. vm_compute. repeat split. Qed.

(** C2: on the triangle, where the neighbour sets had to be put in place by
    [add_neighbor] (the constructor leaves them empty), the link failure
    on A empties the neighbour list
    of A and takes A out of the lists of B and C; half a second later the
    fault is still active and the lists are the same; after the turn of
    the expiry loop at two and a half seconds the fault is gone but the
    neighbour list of A is still empty and B and C still do not list A:
    the revert asks the simulator's own generator, which knows no
    topology, and restores nothing. *)
Theorem link_failure_revert_restores_nothing :
  map (neighbors_of (started triangle_topology)) ["A"; "B"; "C"]
  = [[]; []; []] /\
  map (neighbors_of triangle_seeded) ["A"; "B"; "C"]
  = [["B"; "C"]; ["A"; "C"]; ["A"; "B"]] /\
  Topology.graph_neighbors (Topology.graph triangle_topology) "A"
  = ["B"; "C"] /\
  (let s := _process_faults [now0 + 500] triangle_failed in
   List.length (active_faults s) = 1%nat /\
   map (neighbors_of s) ["A"; "B"; "C"] = [[]; ["C"]; ["B"]]) /\
  (let s := _process_faults [now0 + 500; now0 + 1500; now0 + 2500]
                            triangle_failed in
   active_faults s = [] /\
   map (neighbors_of s) ["A"; "B"; "C"] = [[]; ["C"]; ["B"]]).
Proof. vm_compute. repeat split. Qed.

(** The ping scenario: the router R, its interface up, is sent a ping for
    192.168.1.1; the packet is counted and the reply is logged. *)
Example ping_for_own_address_is_answered :
  let o := Device.process_message ping_for_R router_R in
  result o = Ok tt /\
  Device.packets_received (Device.statistics (state' o)) = 1 /\
  logged o = [mkLog INFO "Ping reply sent to {}" [VStr "192.168.1.77"]].
Proof. vm_compute. repeat split. Qed.

(** A permanent interface fault: after any number of turns of the expiry
    loop the interface of R1 is still down. *)
Example permanent_interface_down_stays :
  let s1 := state' (inject_fault "interface_down" "R1"
                                 (Some "GigabitEthernet0/0") None None
                                 now0 now0 (started pair_topology)) in
  let s2 := _process_faults [now0 + 1000; now0 + 60000; now0 + 3600000] s1 in
  List.length (active_faults s2) = 1%nat /\
  option_map (fun d => map Device.state (PyDict.values (Device.interfaces d)))
             (PyDict.get (devices s2) "R1")
  = Some [Device.DOWN].
Proof. vm_compute. repeat split. Qed.

(** ** Where the claims as stated fail *)



(** The claim of C8 at limit 0, and at the empty kind: in both cases the
    query returns the whole log. *)
Lemma limit_zero_returns_every_event :
  List.length (events with_two_events) = 2%nat /\
  get_simulation_events with_two_events None (Some 0)
  = events with_two_events /\
  get_simulation_events with_two_events None (Some 0)
  <> most_recent 0 (events with_two_events) /\
  get_simulation_events with_two_events (Some "") None
  = events with_two_events /\
  filter (fun e => String.eqb (event_type e) "") (events with_two_events)
  = [].
Proof.
  vm_compute. repeat split. discriminate.
Qed.

End ScenarioFacts.

(* ================================================================== *)
(** * The theorems at concrete inputs *)
(* ================================================================== *)

Module Witnesses.

Import Simulator Eff Props Scenario.


(** C6 on the router R: 192.168.1.77 is reached through its interface
    while that is up, and not once it is down. *)
Lemma can_reach_ip_witness :
  Device._can_reach_ip router_R (VStr "192.168.1.77") = true /\
  Device._can_reach_ip router_R_down (VStr "192.168.1.77") = false.
Proof.
  split.
  - apply (proj1 (DeviceFacts.can_reach_ip_iff_up_interface_covers
                    router_R "192.168.1.77")).
    exists (Device.mkInterface "eth0" "192.168.1.1" "255.255.255.0"
                               100 1500 Device.UP None ""),
           (Ipaddress.mkNet 3232235776 24),
           (Ipaddress.mkNet 3232235853 32).
    vm_compute. repeat split. left. reflexivity.
  - apply (proj2 (DeviceFacts.can_reach_ip_iff_up_interface_covers
                    router_R_down "192.168.1.77")).
    intros interface H. vm_compute in H. destruct H as [<- | []].
    left. reflexivity.
Defined.

(** C7 on the router R. *)
Lemma set_interface_state_down_then_up_witness :
  state' (Device.set_interface_state "eth9" Device.DOWN router_R) = router_R /\
  option_map Device.state
    (PyDict.get
       (Device.interfaces
          (state' (Device.set_interface_state "eth0" Device.UP
                     (state' (Device.set_interface_state "eth0" Device.DOWN
                                router_R)))))
       "eth0")
  = Some Device.UP.
Proof.
  assert (Hwf : PyDict.wf (Device.interfaces router_R)).
  { vm_compute. constructor; [ intros [] | constructor ]. }
  split.
  - apply (proj1 (DeviceFacts.set_interface_state_down_then_up
                    router_R "eth9" Hwf)).
    reflexivity.
  - apply (proj2 (DeviceFacts.set_interface_state_down_then_up
                    router_R "eth0" Hwf)
                 (Device.mkInterface "eth0" "192.168.1.1" "255.255.255.0"
                                     100 1500 Device.UP None "")).
    reflexivity.
Defined.

(** C9 on the router R and a message of kind "bogus". *)
Lemma process_message_witness :
  Device.process_message bogus_message router_R
  = mkOutcome (Ok tt) (Device.incr_packets_received router_R)
              [mkLog WARNING "Unknown message type: {}" [VStr "bogus"]].
Proof.
  apply (proj2 (DeviceFacts.process_message_counts_every_message
                  router_R bogus_message)).
  intros k H. simpl in H.
  destruct H as [<- | [<- | [<- | [<- | []]]]]; discriminate.
Defined.

(** C10 on the router R with its only interface down. *)
Lemma arp_request_witness :
  exists owner,
    In owner (PyDict.values (Device.interfaces router_R_down)) /\
    Device.ip_address owner = "192.168.1.1" /\
    Device._handle_arp_request arp_for_R router_R_down
    = mkOutcome
        (Ok (Some [("type", VStr "arp_reply");
                   ("target_mac", VStr "MAC_X_eth0");
                   ("source_ip", VStr "192.168.1.1");
                   ("source_mac",
                    VStr ("MAC_" ++ "R" ++ "_" ++ Device.name owner))]))
        router_R_down
        [mkLog INFO "ARP reply for {}" [VStr "192.168.1.1"]].
Proof.
  apply (DeviceFacts.arp_request_for_own_address_is_answered
           router_R_down arp_for_R eth0_of_R).
  - left. reflexivity.
  - reflexivity.
Defined.




(** C8 on the log of two events: the most recent packet event. *)
Lemma get_simulation_events_witness :
  get_simulation_events with_two_events (Some "packet_sent") (Some 1)
  = most_recent 1
      (filter (fun e => String.eqb (event_type e) "packet_sent")
              (events with_two_events)).
Proof.
  assert (Hk : forall k, Some "packet_sent" = Some k -> k <> "")
    by (intros k [= <-]; discriminate).
  assert (Hn : forall n, Some 1 = Some n -> 0 < n)
    by (intros n [= <-]; lia).
  destruct (SimulatorFacts.get_simulation_events_filters_and_truncates
              with_two_events (Some "packet_sent") (Some 1) Hk Hn)
    as (_ & H & _).
  apply (H 1 eq_refl).
Defined.

End Witnesses.

(* ================================================================== *)
(** * Further facts about the device *)
(* ================================================================== *)

Module MoreDeviceFacts.

Import Device Eff EffFacts Props MoreProps.
Local Open Scope eff_scope.

(** ** Neighbours *)

Lemma str_in_iff (x : string) (l : list string) :
  str_in x l = true <-> In x l.
Proof.
  unfold str_in. rewrite existsb_exists. split.
  - intros (y & Hy & He). apply String.eqb_eq in He. subst. exact Hy.
  - intros H. exists x. split; [ exact H | apply String.eqb_refl ].
Qed.

Lemma str_in_false (x : string) (l : list string) :
  str_in x l = false <-> ~ In x l.
Proof.
  rewrite <- str_in_iff. destruct (str_in x l); split; congruence.
Qed.

Lemma set_neighbors_id (d : NetworkDevice) :
  set_neighbors d (neighbors d) = d.
Proof. destruct d. reflexivity. Qed.

Lemma list_remove_last (x : string) (l : list string) :
  ~ In x l -> list_remove x (l ++ [x]) = l.
Proof.
  induction l as [ | y l IHl ]; simpl; intros Hn.
  - rewrite String.eqb_refl. reflexivity.
  - destruct (String.eqb_spec x y) as [-> | _].
    + exfalso. apply Hn. left. reflexivity.
    + rewrite IHl; [ reflexivity | ]. intros H. apply Hn. right. exact H.
Qed.

Lemma list_remove_NoDup (x : string) (l : list string) :
  NoDup l -> NoDup (list_remove x l) /\ ~ In x (list_remove x l) /\
             (forall y, In y (list_remove x l) -> In y l).
Proof.
  induction l as [ | y l IHl ]; simpl; intros Hnd.
  - split; [ constructor | ]. split; [ intros [] | auto ].
  - inversion Hnd as [ | ? ? Hy Hl ]; subst.
    destruct (String.eqb_spec x y) as [-> | Hne].
    + split; [ exact Hl | ]. split; [ exact Hy | ]. intros z Hz. right. exact Hz.
    + destruct (IHl Hl) as (Hnd' & Hx & Hsub).
      split; [ constructor; [ intros H; apply Hy, Hsub, H | exact Hnd' ] | ].
      split.
      * intros [H | H]; [ congruence | exact (Hx H) ].
      * intros z [<- | Hz]; [ left; reflexivity | right; apply Hsub, Hz ].
Qed.

(** X1: [add_neighbor] never makes a duplicate: a duplicate-free list stays
    duplicate-free and lists the neighbour afterwards; adding a neighbour
    that is already listed changes nothing and logs nothing, so adding
    twice is adding once. *)
Theorem add_neighbor_is_idempotent (d : NetworkDevice) (n : string) :
  NoDup (neighbors d) ->
  let d1 := state' (add_neighbor n d) in
  NoDup (neighbors d1) /\
  In n (neighbors d1) /\
  (In n (neighbors d) -> add_neighbor n d = mkOutcome (Ok tt) d []) /\
  add_neighbor n d1 = mkOutcome (Ok tt) d1 [].
Proof.
  intros Hnd d1.
  assert (Hpresent : forall d0, In n (neighbors d0) ->
                       add_neighbor n d0 = mkOutcome (Ok tt) d0 []).
  { intros d0 Hin. unfold add_neighbor. rewrite bind_read.
    apply str_in_iff in Hin. rewrite Hin. reflexivity. }
  assert (Hd1 : NoDup (neighbors d1) /\ In n (neighbors d1)).
  { unfold d1, add_neighbor. rewrite bind_read.
    destruct (str_in n (neighbors d)) eqn:Hin; simpl.
    - apply str_in_iff in Hin. auto.
    - apply str_in_false in Hin. split.
      + apply NoDup_app; [ exact Hnd | repeat constructor; intros [] | ].
        intros x Hx [<- | []]. exact (Hin Hx).
      + apply in_or_app. right. left. reflexivity. }
  destruct Hd1 as (Hnd1 & Hin1).
  repeat split; try assumption.
  - apply Hpresent.
  - apply Hpresent. exact Hin1.
Qed.

(** X2: [remove_neighbor] undoes [add_neighbor] of a neighbour that was not
    listed; removing a name that is not listed changes nothing and logs
    nothing; after a removal from a duplicate-free list the name is gone
    and no other name is. *)
Theorem remove_neighbor_undoes_add (d : NetworkDevice) (n : string) :
  (~ In n (neighbors d) ->
   remove_neighbor n d = mkOutcome (Ok tt) d [] /\
   state' (remove_neighbor n (state' (add_neighbor n d))) = d) /\
  (NoDup (neighbors d) ->
   let d1 := state' (remove_neighbor n d) in
   ~ In n (neighbors d1) /\
   forall x, x <> n -> (In x (neighbors d1) <-> In x (neighbors d))).
Proof.
  split.
  - intros Hn. pose proof Hn as Hf. apply str_in_false in Hf. split.
    + unfold remove_neighbor. rewrite bind_read, Hf. reflexivity.
    + assert (Hadd : state' (add_neighbor n d)
                     = set_neighbors d (neighbors d ++ [n]))
        by (unfold add_neighbor; rewrite bind_read, Hf; reflexivity).
      rewrite Hadd. unfold remove_neighbor. rewrite bind_read.
      assert (Hin : str_in n (neighbors (set_neighbors d (neighbors d ++ [n])))
                    = true)
        by (apply str_in_iff, in_or_app; right; left; reflexivity).
      rewrite Hin. simpl. rewrite list_remove_last by exact Hn.
      destruct d. reflexivity.
  - intros Hnd d1. unfold d1, remove_neighbor. rewrite bind_read.
    destruct (str_in n (neighbors d)) eqn:Hin; simpl.
    + destruct (list_remove_NoDup n (neighbors d) Hnd) as (_ & Hgone & Hsub).
      split; [ exact Hgone | ]. intros x Hx. split; [ apply Hsub | ].
      clear Hgone Hsub Hin Hnd.
      induction (neighbors d) as [ | y l IHl ]; simpl; [ auto | ].
      intros [<- | Hl].
      * destruct (String.eqb_spec n y); [ congruence | left; reflexivity ].
      * destruct (String.eqb_spec n y); [ exact Hl | right; apply IHl, Hl ].
    + apply str_in_false in Hin. split; [ exact Hin | reflexivity ].
Qed.

(** ** What a message can change *)

Lemma set_routing_table_id (d : NetworkDevice) :
  set_routing_table d (routing_table d) = d.
Proof. destruct d. reflexivity. Qed.

Lemma _handle_routing_update_state (message : Message) (d : NetworkDevice) :
  exists t, state' (_handle_routing_update message d) = set_routing_table d t.
Proof.
  assert (Hsame : exists t, d = set_routing_table d t)
    by (exists (routing_table d); symmetry; apply set_routing_table_id).
  unfold _handle_routing_update. rewrite bind_read.
  destruct (DeviceType_is_router (device_type d)); [ | exact Hsame ].
  destruct (truthy (msg_get message "route")); [ | exact Hsame ].
  unfold bind at 1.
  pose proof (DeviceFacts.subscript_state
                (msg_get message "route") "next_hop" d) as H1.
  destruct (subscript (msg_get message "route") "next_hop" d)
    as [[next_hop | e] d1 l1]; simpl in *; subst d1; [ | exact Hsame ].
  unfold bind at 1.
  pose proof (DeviceFacts.subscript_state
                (msg_get message "route") "destination" d) as H2.
  destruct (subscript (msg_get message "route") "destination" d)
    as [[destination | e] d2 l2]; simpl in *; subst d2; [ | exact Hsame ].
  destruct (hashable destination).
  - eexists. reflexivity.
  - exact Hsame.
Qed.

(** A message changes the received counter and, at most, the routing
    table. *)
Lemma process_message_state (message : Message) (d : NetworkDevice) :
  exists t,
    state' (process_message message d)
    = set_routing_table (incr_packets_received d) t.
Proof.
  unfold process_message. rewrite bind_modify.
  set (d' := incr_packets_received d).
  assert (Hsame : exists t, d' = set_routing_table d' t)
    by (exists (routing_table d'); symmetry; apply set_routing_table_id).
  destruct (py_eqb _ (VStr "arp_request")).
  { unfold bind.
    pose proof (DeviceFacts._handle_arp_request_state message d') as Hs.
    destruct (_handle_arp_request message d') as [[r | e] d'' l];
      simpl in *; subst d''; exact Hsame. }
  destruct (py_eqb _ (VStr "ospf_hello")).
  { rewrite DeviceFacts._handle_ospf_hello_state. exact Hsame. }
  destruct (py_eqb _ (VStr "routing_update")).
  { apply _handle_routing_update_state. }
  destruct (py_eqb _ (VStr "ping")).
  { rewrite DeviceFacts._handle_ping_state. exact Hsame. }
  exact Hsame.
Qed.

(** One turn of the [run] loop, by what it found in the inbox. *)
Lemma run_iteration_cases (now : Z) (d : NetworkDevice) :
  result (run_iteration now d) = Ok tt /\
  match message_queue d with
  | [] => state' (run_iteration now d) = set_uptime now d
  | message :: rest =>
      exists t,
        let d1 := set_routing_table
                    (incr_packets_received (set_message_queue d rest)) t in
        state' (run_iteration now d) = set_uptime now d1 \/
        state' (run_iteration now d) = incr_errors d1
  end.
Proof.
  unfold run_iteration, try_except. rewrite bind_read.
  destruct (message_queue d) as [ | message rest ].
  - split; reflexivity.
  - rewrite bind_assoc, bind_modify.
    destruct (process_message_state message (set_message_queue d rest))
      as [t Ht].
    destruct (process_message message (set_message_queue d rest))
      as [[[] | e] d' l] eqn:Hpm; simpl in Ht; subst d'.
    + rewrite (bind_ok _ _ _ _ _ _ Hpm). simpl.
      split; [ reflexivity | ]. exists t. left. reflexivity.
    + rewrite (bind_fail _ _ _ _ _ _ Hpm). simpl.
      split; [ reflexivity | ]. exists t. right. reflexivity.
Qed.

(** X3: a turn of the [run] loop never raises, whatever the message: it
    takes the head of the inbox (if any) and counts it as received, adds
    at most one to the error counter, and leaves the interfaces, the
    neighbours, the name, the kind and the stop flag of the device alone. *)
Theorem run_iteration_never_raises (now : Z) (d : NetworkDevice) :
  let d1 := state' (run_iteration now d) in
  result (run_iteration now d) = Ok tt /\
  message_queue d1 = tl (message_queue d) /\
  packets_received (statistics d1)
  = packets_received (statistics d)
    + (match message_queue d with [] => 0 | _ => 1 end) /\
  (errors (statistics d1) = errors (statistics d) \/
   errors (statistics d1) = errors (statistics d) + 1) /\
  (message_queue d = [] -> errors (statistics d1) = errors (statistics d)) /\
  interfaces d1 = interfaces d /\ neighbors d1 = neighbors d /\
  hostname d1 = hostname d /\ device_type d1 = device_type d /\
  running d1 = running d.
Proof.
  intros d1. destruct (run_iteration_cases now d) as (Hres & Hst).
  split; [ exact Hres | ]. unfold d1.
  destruct (message_queue d) as [ | message rest ] eqn:Hq.
  - rewrite Hst. simpl. rewrite Hq, Z.add_0_r. repeat split; auto.
  - destruct Hst as (t & [-> | ->]); simpl; repeat split; auto;
      discriminate.
Qed.

(** What a turn of the [run] loop does to the inbox and the received
    counter. *)
Lemma run_iteration_inbox (now : Z) (d : NetworkDevice) :
  let d1 := state' (run_iteration now d) in
  message_queue d1 = tl (message_queue d) /\
  packets_received (statistics d1)
  = packets_received (statistics d)
    + (match message_queue d with [] => 0 | _ => 1 end) /\
  running d1 = running d.
Proof.
  intros d1. destruct (run_iteration_cases now d) as (_ & Hst). unfold d1.
  destruct (message_queue d) as [ | message rest ] eqn:Hq.
  - rewrite Hst. simpl. rewrite Hq, Z.add_0_r. repeat split.
  - destruct Hst as (t & [-> | ->]); simpl; repeat split.
Qed.

(** X4: the inbox is first in, first out, and every queued message is
    counted exactly once: after [n] turns of the running loop the inbox
    has lost its first [n] messages and the received counter has gone up
    by the number of messages taken, however they were handled. *)
Theorem run_counts_each_message_once (ticks : list Z) (d : NetworkDevice) :
  running d = true ->
  let d1 := Loops.run ticks d in
  message_queue d1 = skipn (List.length ticks) (message_queue d) /\
  packets_received (statistics d1)
  = packets_received (statistics d)
    + Z.of_nat (Nat.min (List.length ticks) (List.length (message_queue d))) /\
  running d1 = true.
Proof.
  revert d. induction ticks as [ | now ticks IH ]; intros d Hrun; simpl.
  - rewrite Z.add_0_r. auto.
  - rewrite Hrun.
    destruct (run_iteration_inbox now d) as (Hq & Hrecv & Hr).
    destruct (IH (state' (run_iteration now d))) as (Hq1 & Hrecv1 & Hr1);
      [ rewrite Hr; exact Hrun | ].
    rewrite Hq1, Hrecv1, Hq, Hrecv. split; [ | split; [ | exact Hr1 ] ].
    + destruct (message_queue d); simpl; [ apply skipn_nil | reflexivity ].
    + destruct (message_queue d) as [ | m q ]; cbn [tl List.length]; lia.
Qed.

(** ** Routing updates *)

Lemma hashable_py_eqb (a b : PyVal) :
  hashable a = true -> py_eqb a b = true -> a = b.
Proof.
  destruct a, b; simpl; try discriminate; intros _ H.
  - reflexivity.
  - apply Z.eqb_eq in H. subst. reflexivity.
  - apply String.eqb_eq in H. subst. reflexivity.
Qed.

Lemma table_get_set_same (t : list (PyVal * PyVal)) (k v : PyVal) :
  table_get (table_set t k v) k = Some v.
Proof.
  induction t as [ | [k' v'] t IHt ]; simpl.
  - rewrite py_eqb_refl. reflexivity.
  - destruct (py_eqb k k') eqn:He; simpl; rewrite He; [ reflexivity | exact IHt ].
Qed.

Lemma table_get_set_other (t : list (PyVal * PyVal)) (k k0 v : PyVal) :
  hashable k = true -> hashable k0 = true -> k0 <> k ->
  table_get (table_set t k v) k0 = table_get t k0.
Proof.
  intros Hk Hk0 Hne.
  induction t as [ | [k' v'] t IHt ]; simpl.
  - destruct (py_eqb k0 k) eqn:He; [ | reflexivity ].
    apply hashable_py_eqb in He; [ congruence | exact Hk0 ].
  - destruct (py_eqb k k') eqn:He; simpl.
    + apply hashable_py_eqb in He; [ subst k' | exact Hk ].
      destruct (py_eqb k0 k) eqn:He0; [ | reflexivity ].
      apply hashable_py_eqb in He0; [ congruence | exact Hk0 ].
    + destruct (py_eqb k0 k'); [ reflexivity | exact IHt ].
Qed.

Lemma process_routing_update (message : Message) (d : NetworkDevice) :
  msg_get message "type" = VStr "routing_update" ->
  process_message message d
  = _handle_routing_update message (incr_packets_received d).
Proof.
  intros Htype. unfold process_message. rewrite bind_modify, Htype.
  reflexivity.
Qed.

(** X5: a router that processes a [routing_update] whose route names a
    destination and a next hop then looks the destination up to that next
    hop, and every other destination as before; a device that is not a
    router keeps its routing table whatever the message. *)
Theorem routing_update_installs_route
        (d : NetworkDevice) (message : Message) (route : PyDict.t PyVal)
        (destination next_hop : PyVal) :
  (device_type d = ROUTER ->
   msg_get message "type" = VStr "routing_update" ->
   msg_get message "route" = VDict route ->
   PyDict.get route "destination" = Some destination ->
   PyDict.get route "next_hop" = Some next_hop ->
   hashable destination = true ->
   let o := process_message message d in
   result o = Ok tt /\
   table_get (routing_table (state' o)) destination = Some next_hop /\
   forall k, hashable k = true -> k <> destination ->
             table_get (routing_table (state' o)) k
             = table_get (routing_table d) k) /\
  (DeviceType_is_router (device_type d) = false ->
   routing_table (state' (process_message message d)) = routing_table d).
Proof.
  split.
  - intros Hty Htype Hroute Hdest Hhop Hhash o. unfold o.
    rewrite (process_routing_update message d Htype).
    unfold _handle_routing_update. rewrite bind_read.
    change (device_type (incr_packets_received d)) with (device_type d).
    rewrite Hty, Hroute. cbn [DeviceType_is_router].
    assert (Htruthy : truthy (VDict route) = true)
      by (destruct route; [ discriminate | reflexivity ]).
    rewrite Htruthy. unfold subscript. rewrite Hhop, Hdest.
    rewrite !bind_ret, Hhash.
    rewrite bind_modify. cbn [log result state'].
    split; [ reflexivity | ]. split.
    + apply table_get_set_same.
    + intros k Hk Hne. cbn [routing_table set_routing_table].
      apply table_get_set_other; assumption.
  - intros Hty. unfold process_message. rewrite bind_modify.
    set (d' := incr_packets_received d).
    destruct (py_eqb _ (VStr "arp_request")).
    { unfold bind.
      pose proof (DeviceFacts._handle_arp_request_state message d') as Hs.
      destruct (_handle_arp_request message d') as [[r | e] d'' l];
        simpl in *; subst d''; reflexivity. }
    destruct (py_eqb _ (VStr "ospf_hello")).
    { rewrite DeviceFacts._handle_ospf_hello_state. reflexivity. }
    destruct (py_eqb _ (VStr "routing_update")).
    { unfold _handle_routing_update. rewrite bind_read.
      change (device_type d') with (device_type d). rewrite Hty.
      reflexivity. }
    destruct (py_eqb _ (VStr "ping")).
    { rewrite DeviceFacts._handle_ping_state. reflexivity. }
    reflexivity.
Qed.

(** X6: a router that takes from its inbox a [routing_update] whose route
    lacks the destination or the next hop survives it: the turn of the
    [run] loop returns, logs the error, adds one to the error counter and
    one to the received counter, leaves the routing table as it was, and
    skips the periodic tasks of that turn (the uptime is not refreshed). *)
Theorem malformed_routing_update_is_counted
        (d : NetworkDevice) (message : Message) (rest : list Message)
        (route : PyDict.t PyVal) (now : Z) :
  device_type d = ROUTER ->
  message_queue d = message :: rest ->
  msg_get message "type" = VStr "routing_update" ->
  msg_get message "route" = VDict route ->
  route <> [] ->
  PyDict.get route "next_hop" = None \/
  PyDict.get route "destination" = None ->
  let o := run_iteration now d in
  result o = Ok tt /\
  map levelname (logged o) = [ERROR] /\
  errors (statistics (state' o)) = errors (statistics d) + 1 /\
  packets_received (statistics (state' o))
  = packets_received (statistics d) + 1 /\
  routing_table (state' o) = routing_table d /\
  uptime (statistics (state' o)) = uptime (statistics d) /\
  message_queue (state' o) = rest.
Proof.
  intros Hty Hq Htype Hroute Hne Hmissing o.
  set (d0 := set_message_queue d rest).
  assert (Hpm : process_message message d0
                = mkOutcome (Raise KeyError) (incr_packets_received d0) []).
  { rewrite (process_routing_update message d0 Htype).
    unfold _handle_routing_update. rewrite bind_read.
    change (device_type (incr_packets_received d0)) with (device_type d).
    rewrite Hty, Hroute. cbn [DeviceType_is_router].
    assert (Htruthy : truthy (VDict route) = true)
      by (destruct route; [ congruence | reflexivity ]).
    rewrite Htruthy. unfold subscript.
    destruct (PyDict.get route "next_hop") as [hop | ] eqn:Hhop.
    - destruct Hmissing as [Hm | Hm]; [ discriminate | ].
      rewrite Hm, bind_ret. reflexivity.
    - reflexivity. }
  unfold o, run_iteration, try_except. rewrite bind_read, Hq.
  cbv beta iota. rewrite bind_assoc, bind_modify. fold d0.
  rewrite (bind_fail _ _ _ _ _ _ Hpm). simpl. repeat split.
Qed.

(** ** Construction *)

Lemma _initialize_interfaces_inv
      (all cfg : list InterfaceData) (acc : PyDict.t Interface) :
  incl cfg all ->
  PyDict.wf acc ->
  (forall k i, In (k, i) acc ->
     state i = UP /\ name i = k /\
     exists c, In c all /\ data_name c = k /\
               ip_address i = data_ip_address c /\
               subnet_mask i = data_subnet_mask c /\
               bandwidth i = default (data_bandwidth c) 100 /\
               mtu i = default (data_mtu c) 1500) ->
  let r :=
    fold_left
      (fun acc interface_data =>
         let interface :=
           mkInterface (data_name interface_data)
                       (data_ip_address interface_data)
                       (data_subnet_mask interface_data)
                       (default (data_bandwidth interface_data) 100)
                       (default (data_mtu interface_data) 1500)
                       UP
                       (data_vlan interface_data)
                       (default (data_description interface_data) "") in
         PyDict.set acc (name interface) interface)
      cfg acc in
  PyDict.wf r /\
  (forall k i, In (k, i) r ->
     state i = UP /\ name i = k /\
     exists c, In c all /\ data_name c = k /\
               ip_address i = data_ip_address c /\
               subnet_mask i = data_subnet_mask c /\
               bandwidth i = default (data_bandwidth c) 100 /\
               mtu i = default (data_mtu c) 1500) /\
  (forall k, PyDict.mem k acc = true \/ In k (map data_name cfg) ->
             PyDict.mem k r = true).
Proof.
  revert acc. induction cfg as [ | c cfg IH ]; intros acc Hincl Hwf Hgood; simpl.
  - split; [ exact Hwf | ]. split; [ exact Hgood | ].
    intros k [H | []]. exact H.
  - destruct (IH (PyDict.set acc (data_name c)
                    (mkInterface (data_name c) (data_ip_address c)
                       (data_subnet_mask c) (default (data_bandwidth c) 100)
                       (default (data_mtu c) 1500) UP (data_vlan c)
                       (default (data_description c) ""))))
      as (Hwf' & Hgood' & Hmem').
    + intros x Hx. apply Hincl. right. exact Hx.
    + apply PyDictFacts.wf_set. exact Hwf.
    + intros k i Hin.
      assert (Hcases : (k = data_name c /\
                        i = mkInterface (data_name c) (data_ip_address c)
                              (data_subnet_mask c)
                              (default (data_bandwidth c) 100)
                              (default (data_mtu c) 1500) UP (data_vlan c)
                              (default (data_description c) ""))
                       \/ In (k, i) acc).
      { clear - Hin. induction acc as [ | [k' v'] acc IHacc ]; simpl in Hin.
        - destruct Hin as [[= <- <-] | []]. left. auto.
        - destruct (String.eqb_spec (data_name c) k') as [He | Hne];
            simpl in Hin.
          + destruct Hin as [[= <- <-] | Hin]; [ left; auto | ].
            right. right. exact Hin.
          + destruct Hin as [Hin | Hin]; [ right; left; exact Hin | ].
            destruct (IHacc Hin) as [H | H]; [ left; exact H | ].
            right. right. exact H. }
      destruct Hcases as [[-> ->] | Hacc]; [ | apply Hgood; exact Hacc ].
      simpl. repeat split. exists c. repeat split.
      apply Hincl. left. reflexivity.
    + split; [ exact Hwf' | ]. split; [ exact Hgood' | ].
      intros k Hk. apply Hmem'. rewrite PyDictFacts.mem_set.
      destruct Hk as [Hk | [<- | Hk]].
      * left. rewrite Hk. apply orb_true_r.
      * left. rewrite String.eqb_refl. reflexivity.
      * right. exact Hk.
Qed.

(** X7: the device the simulator constructs from a parsed configuration has
    one interface per distinct interface name, stored under that name and
    taken (address, mask, bandwidth, MTU) from an interface of the
    configuration with that name; every interface starts UP, also one the
    configuration marks as shut down; the device starts with no neighbour,
    its stop flag clear and its thread not started. *)
Theorem constructed_device_interfaces
        (hostname : string) (ty : DeviceType) (config : Config.ParsedConfig) :
  let d := __init__ hostname ty
                    (Simulator._convert_config_for_device config) in
  PyDict.wf (interfaces d) /\
  (forall k i, In (k, i) (interfaces d) ->
     state i = UP /\ name i = k /\
     exists p, In p (Config.interfaces config) /\ Config.name p = k /\
               ip_address i = Config.ip_address p /\
               subnet_mask i = Config.subnet_mask p /\
               bandwidth i = Config.bandwidth p /\
               mtu i = Config.mtu p) /\
  (forall p, In p (Config.interfaces config) ->
             PyDict.mem (Config.name p) (interfaces d) = true) /\
  neighbors d = [] /\ running d = true /\ alive d = false /\
  message_queue d = [].
Proof.
  intros d.
  destruct (_initialize_interfaces_inv
              (Simulator._convert_config_for_device config)
              (Simulator._convert_config_for_device config) [])
    as (Hwf & Hgood & Hmem).
  - apply incl_refl.
  - constructor.
  - intros k i [].
  - split; [ exact Hwf | ]. split; [ | split ].
    + intros k i Hin. destruct (Hgood k i Hin)
        as (Hst & Hname & c & Hc & Hcn & Hip & Hmask & Hbw & Hmtu).
      split; [ exact Hst | ]. split; [ exact Hname | ].
      unfold Simulator._convert_config_for_device in Hc.
      apply in_map_iff in Hc as (p & <- & Hp). exists p.
      simpl in *. repeat split; assumption.
    + intros p Hp. apply Hmem. right.
      unfold Simulator._convert_config_for_device. rewrite map_map. simpl.
      apply in_map_iff. exists p. split; [ reflexivity | exact Hp ].
    + repeat split.
Qed.

End MoreDeviceFacts.

(* ================================================================== *)
(** * Further facts about the simulator *)
(* ================================================================== *)

Module MoreSimulatorFacts.

Import Simulator Eff EffFacts Props MoreProps.
Local Open Scope eff_scope.

(** ** What a method body leaves alone *)

Section Preserves.

Context {X : Type} (f : NetworkSimulator -> X).

Lemma preserves_ret {A} (a : A) : preserves f (ret a).
Proof. intros s. reflexivity. Qed.

Lemma preserves_raise {A} (e : PyExn) : preserves f (@raise _ A e).
Proof. intros s. reflexivity. Qed.

Lemma preserves_read {A} (g : NetworkSimulator -> A) : preserves f (read g).
Proof. intros s. reflexivity. Qed.

Lemma preserves_log (l : Level) (text : string) (args : list PyVal) :
  preserves f (log l text args).
Proof. intros s. reflexivity. Qed.

Lemma preserves_modify (g : NetworkSimulator -> NetworkSimulator) :
  (forall s, f (g s) = f s) -> preserves f (modify g).
Proof. intros Hg s. apply Hg. Qed.

Lemma preserves_bind {A B} (m : S A) (k : A -> S B) :
  preserves f m -> (forall a, preserves f (k a)) -> preserves f (bind m k).
Proof.
  intros Hm Hk s. unfold bind. specialize (Hm s).
  destruct (m s) as [[a | e] s1 l1]; simpl in *; [ | exact Hm ].
  rewrite Hk. exact Hm.
Qed.

Lemma preserves_try_except {A} (m : S A) (h : PyExn -> S A) :
  preserves f m -> (forall e, preserves f (h e)) ->
  preserves f (try_except m h).
Proof.
  intros Hm Hh s. unfold try_except. specialize (Hm s).
  destruct (m s) as [[a | e] s1 l1]; simpl in *; [ exact Hm | ].
  rewrite Hh. exact Hm.
Qed.

Lemma preserves_for_each {A} (l : list A) (body : A -> S unit) :
  (forall x, preserves f (body x)) -> preserves f (for_each l body).
Proof.
  intros Hbody. induction l as [ | x l IHl ]; simpl.
  - apply preserves_ret.
  - apply preserves_bind; [ apply Hbody | intros _; exact IHl ].
Qed.

Hypothesis Hblind : blind f.

Lemma preserves_on_device {A} (h : string) (m : Device.M A) :
  preserves f (on_device h m).
Proof.
  intros s. unfold on_device.
  destruct (PyDict.get (devices s) h); simpl; [ apply Hblind | reflexivity ].
Qed.

Lemma preserves_lookup_device (h : string) : preserves f (lookup_device h).
Proof.
  intros s. unfold lookup_device.
  destruct (PyDict.get (devices s) h); reflexivity.
Qed.

Lemma preserves_guarded (h : string) (m : Device.M unit) :
  preserves f (devs <- read devices ;;
               if PyDict.mem h devs then on_device h m else ret tt).
Proof.
  apply preserves_bind; [ apply preserves_read | ].
  intros devs. destruct (PyDict.mem h devs);
    [ apply preserves_on_device | apply preserves_ret ].
Qed.

Lemma _apply_fault_preserves (fault : FaultInjection) :
  preserves f (_apply_fault fault).
Proof.
  unfold _apply_fault.
  apply preserves_bind; [ apply preserves_lookup_device | ]. intros device.
  destruct (String.eqb (fault_type fault) "interface_down").
  { destruct (truthy_opt_str (target_interface fault)).
    - destruct (target_interface fault);
        [ apply preserves_on_device | apply preserves_ret ].
    - apply preserves_for_each. intros nm. apply preserves_on_device. }
  destruct (String.eqb (fault_type fault) "link_failure").
  { apply preserves_for_each. intros neighbor.
    apply preserves_bind; [ apply preserves_on_device | ].
    intros _. apply preserves_guarded. }
  destruct (String.eqb (fault_type fault) "high_cpu");
    [ apply preserves_on_device | ].
  destruct (String.eqb (fault_type fault) "memory_leak");
    [ apply preserves_on_device | ].
  destruct (String.eqb (fault_type fault) "packet_loss");
    [ apply preserves_on_device | ].
  apply preserves_log.
Qed.

Lemma _remove_fault_preserves (fault : FaultInjection) :
  preserves f (_remove_fault fault).
Proof.
  unfold _remove_fault.
  apply preserves_bind; [ apply preserves_lookup_device | ]. intros device.
  apply preserves_bind; [ | intros _; apply preserves_log ].
  destruct (String.eqb (fault_type fault) "interface_down").
  { destruct (truthy_opt_str (target_interface fault)).
    - destruct (target_interface fault);
        [ apply preserves_on_device | apply preserves_ret ].
    - apply preserves_for_each. intros nm. apply preserves_on_device. }
  destruct (String.eqb (fault_type fault) "link_failure").
  { apply preserves_bind; [ apply preserves_read | ]. intros gen.
    apply preserves_for_each. intros neighbor.
    apply preserves_bind; [ apply preserves_on_device | ].
    intros _. apply preserves_guarded. }
  apply preserves_ret.
Qed.

Lemma revert_expired_preserves (t : Z) (l : list FaultInjection) :
  preserves f (revert_expired t l).
Proof.
  induction l as [ | fault l IHl ]; simpl.
  - apply preserves_ret.
  - destruct (expired t fault); [ | exact IHl ].
    apply preserves_bind; [ apply _remove_fault_preserves | ]. intros _.
    apply preserves_bind; [ exact IHl | ]. intros r. apply preserves_ret.
Qed.

Lemma _process_faults_iteration_preserves (t : Z) :
  preserves f (_process_faults_iteration t).
Proof.
  unfold _process_faults_iteration.
  apply preserves_try_except; [ | intros e; apply preserves_log ].
  apply preserves_bind; [ apply preserves_read | ]. intros active.
  apply preserves_bind; [ apply revert_expired_preserves | ]. intros r.
  apply preserves_for_each. intros fault.
  apply preserves_bind; [ apply preserves_read | ]. intros l.
  destruct (faults_remove fault l);
    [ apply preserves_modify; intros s; apply Hblind | apply preserves_raise ].
Qed.

End Preserves.

Lemma rest_of_blind : blind rest_of.
Proof. split; intros s x; reflexivity. Qed.

(** X8: the expiry loop touches the device table and the active list and
    nothing else: after any number of turns, also turns that hit an
    exception, the topology, the flags, the clock fields, the recorded and
    the queued events, the fault history, the counters and the handlers
    are as before. *)
Theorem expiry_loop_touches_devices_and_active_list_only
        (ticks : list Z) (s : NetworkSimulator) :
  rest_of (_process_faults ticks s) = rest_of s /\
  fault_history (_process_faults ticks s) = fault_history s /\
  events (_process_faults ticks s) = events s /\
  event_queue (_process_faults ticks s) = event_queue s /\
  statistics (_process_faults ticks s) = statistics s.
Proof.
  assert (H : rest_of (_process_faults ticks s) = rest_of s).
  { revert s. induction ticks as [ | t ticks IH ]; intros s; simpl.
    - reflexivity.
    - destruct (simulation_running s); [ | reflexivity ].
      rewrite IH.
      apply (_process_faults_iteration_preserves rest_of rest_of_blind). }
  split; [ exact H | ].
  repeat split.
  - exact (f_equal fault_history H).
  - exact (f_equal events H).
  - exact (f_equal event_queue H).
  - exact (f_equal statistics H).
Qed.

(** X9: on a state whose active faults all target known devices, one turn
    of the expiry loop returns and takes out of the active list exactly
    the faults that expired at the clock reading, leaving the others in
    their order; the device table keeps its names. *)
Theorem expiry_turn_removes_exactly_the_expired
        (t : Z) (s : NetworkSimulator) :
  faults_valid s ->
  let o := _process_faults_iteration t s in
  result o = Ok tt /\
  active_faults (state' o)
  = filter (fun fault => negb (expired t fault)) (active_faults s) /\
  PyDict.keys (devices (state' o)) = PyDict.keys (devices s) /\
  faults_valid (state' o).
Proof.
  intros Hv o.
  pose proof (SimulatorFacts.tick_valid t s Hv) as Hv'.
  destruct (SimulatorFacts._process_faults_iteration_spec t s Hv)
    as (s1 & logs & (_ & Hk & _ & _) & Ho).
  fold o in Ho, Hv'. rewrite Ho in *. simpl. auto.
Qed.

(** X10: [inject_fault] on a known device returns and puts
    the new fault at the end of both the active list and the history and
    one [fault_injected] event, carrying the fault, at the end of the
    event queue; the recorded events and the counters are untouched (the
    event thread has not run yet). *)
Theorem inject_fault_records_fault_and_event
        (s : NetworkSimulator) (ft target : string) (ti : option string)
        (params : option (PyDict.t PyVal)) (dur : option Z) (now now' : Z) :
  PyDict.mem target (devices s) = true ->
  let fault := new_fault ft target ti params dur now in
  let o := inject_fault ft target ti params dur now now' s in
  result o = Ok tt /\
  active_faults (state' o) = (active_faults s ++ [fault])%list /\
  fault_history (state' o) = (fault_history s ++ [fault])%list /\
  event_queue (state' o)
  = (event_queue s
     ++ [mkEvent now' "fault_injected" target None
                 ("Fault " ++ ft ++ " injected") (DataFault fault)])%list /\
  events (state' o) = events s /\
  statistics (state' o) = statistics s /\
  PyDict.keys (devices (state' o)) = PyDict.keys (devices s).
Proof.
  intros Hmem fault o.
  destruct (SimulatorFacts.inject_fault_spec s ft target ti params dur
              now now' Hmem) as (Hres & (Ha & Hk & _ & _) & _).
  fold o fault in Hres, Ha, Hk.
  split; [ exact Hres | ]. split; [ exact Ha | ].
  assert (Hrest : exists s3,
            state' o = set_event_queue s3
                         (event_queue s3
                          ++ [mkEvent now' "fault_injected" target None
                                ("Fault " ++ ft ++ " injected")
                                (DataFault fault)]) /\
            rest_of s3
            = rest_of (set_fault_history
                         (set_active_faults s (active_faults s ++ [fault]))
                         (fault_history s ++ [fault]))).
  { unfold o, inject_fault. rewrite bind_read, Hmem.
    change (negb true) with false. cbv beta iota. fold fault.
    rewrite !bind_modify.
    set (s2 := set_fault_history _ _).
    pose proof (_apply_fault_preserves rest_of rest_of_blind fault s2) as Hp.
    destruct (_apply_fault fault s2) as [[[] | e] s3 l3] eqn:Happ;
      simpl in Hp.
    - exists s3. split; [ | exact Hp ].
      rewrite (bind_ok _ _ _ _ _ _ Happ). rewrite bind_log. reflexivity.
    - exfalso. unfold o, inject_fault in Hres.
      rewrite bind_read, Hmem in Hres.
      change (negb true) with false in Hres. cbv beta iota in Hres.
      fold fault in Hres. rewrite !bind_modify in Hres. fold s2 in Hres.
      rewrite (bind_fail _ _ _ _ _ _ Happ) in Hres. discriminate. }
  destruct Hrest as (s3 & Ho & Hr). rewrite Ho. simpl.
  repeat split.
  - exact (f_equal fault_history Hr).
  - assert (Hq : event_queue s3 = event_queue s)
      by exact (f_equal event_queue Hr).
    rewrite Hq. reflexivity.
  - exact (f_equal events Hr).
  - exact (f_equal statistics Hr).
  - rewrite Ho in Hk. exact Hk.
Qed.

(** X11: a fault whose kind is neither [interface_down] nor [link_failure]
    (the stress kinds and any unknown kind) is a marker only: applying it
    and reverting it both return and leave every device exactly as it
    was. *)
Theorem marker_faults_change_no_device
        (s : NetworkSimulator) (fault : FaultInjection) :
  PyDict.mem (target_device fault) (devices s) = true ->
  fault_type fault <> "interface_down" ->
  fault_type fault <> "link_failure" ->
  result (_apply_fault fault s) = Ok tt /\
  state' (_apply_fault fault s) = s /\
  result (_remove_fault fault s) = Ok tt /\
  state' (_remove_fault fault s) = s.
Proof.
  intros Hmem Hid Hlf. unfold PyDict.mem in Hmem.
  destruct (PyDict.get (devices s) (target_device fault)) as [d | ] eqn:Hget;
    [ | discriminate ].
  assert (Hlookup : lookup_device (target_device fault) s
                    = mkOutcome (Ok d) s [])
    by (unfold lookup_device; rewrite Hget; reflexivity).
  assert (Hcpu : on_device (target_device fault)
                           (Device.inject_fault "high_cpu" []) s
                 = mkOutcome (Ok tt) s
                     [mkLog WARNING "Fault injected: High CPU usage" []]).
  { unfold on_device. rewrite Hget. simpl.
    rewrite (PyDictFacts.set_get_id _ _ _ Hget). destruct s. reflexivity. }
  apply String.eqb_neq in Hid. apply String.eqb_neq in Hlf.
  unfold _apply_fault, _remove_fault.
  rewrite !(bind_ok _ _ _ _ _ _ Hlookup). cbn [result state' logged].
  rewrite Hid, Hlf.
  split; [ | split; [ | split; reflexivity ] ].
  - destruct (String.eqb (fault_type fault) "high_cpu");
      [ rewrite Hcpu; reflexivity | ].
    destruct (String.eqb (fault_type fault) "memory_leak");
      [ rewrite Hcpu; reflexivity | ].
    destruct (String.eqb (fault_type fault) "packet_loss");
      [ rewrite Hcpu; reflexivity | reflexivity ].
  - destruct (String.eqb (fault_type fault) "high_cpu");
      [ rewrite Hcpu; reflexivity | ].
    destruct (String.eqb (fault_type fault) "memory_leak");
      [ rewrite Hcpu; reflexivity | ].
    destruct (String.eqb (fault_type fault) "packet_loss");
      [ rewrite Hcpu; reflexivity | reflexivity ].
Qed.

(** ** Interface faults *)

Lemma set_set {V} (l : PyDict.t V) (k : string) (v v' : V) :
  PyDict.set (PyDict.set l k v) k v' = PyDict.set l k v'.
Proof.
  induction l as [ | [k0 v0] l IHl ]; simpl.
  - rewrite String.eqb_refl. reflexivity.
  - destruct (String.eqb k k0) eqn:He; simpl; rewrite He;
      [ reflexivity | rewrite IHl; reflexivity ].
Qed.

Lemma wf_unique {V} (l : PyDict.t V) (k : string) (a b : V) :
  PyDict.wf l -> In (k, a) l -> In (k, b) l -> a = b.
Proof.
  unfold PyDict.wf, PyDict.keys.
  induction l as [ | [k0 v0] l IHl ]; simpl; intros Hwf Ha Hb;
    [ destruct Ha | ].
  inversion Hwf as [ | ? ? Hnotin Hwf' ]; subst.
  destruct Ha as [Ha | Ha], Hb as [Hb | Hb].
  - congruence.
  - exfalso. injection Ha as -> _. apply Hnotin.
    apply (in_map fst) in Hb. exact Hb.
  - exfalso. injection Hb as -> _. apply Hnotin.
    apply (in_map fst) in Ha. exact Ha.
  - apply IHl; assumption.
Qed.

Section SetStates.

Variables (st : Device.InterfaceState) (l0 : PyDict.t Device.Interface).
Hypothesis Hwf0 : PyDict.wf l0.

(** The table after the names in [done] have been set. *)
Let inv (done : list string) (l : PyDict.t Device.Interface) : Prop :=
  PyDict.keys l = PyDict.keys l0 /\
  forall k i', In (k, i') l <->
    exists i, In (k, i) l0 /\
              ((In k done /\ i' = Device.with_state i st) \/
               (~ In k done /\ i' = i)).

Lemma set_states_step (done : list string) (l : PyDict.t Device.Interface)
      (nm : string) :
  inv done l ->
  inv (nm :: done)
      (match PyDict.get l nm with
       | Some i => PyDict.set l nm (Device.with_state i st)
       | None => l
       end).
Proof.
  intros (Hk & Hin).
  assert (Hwf : PyDict.wf l) by (unfold PyDict.wf; rewrite Hk; exact Hwf0).
  destruct (PyDict.get l nm) as [i1 | ] eqn:Hget.
  - assert (Hmem : PyDict.mem nm l = true)
      by (unfold PyDict.mem; rewrite Hget; reflexivity).
    split; [ rewrite PyDictFacts.keys_set_present; assumption | ].
    pose proof (PyDictFacts.get_In _ _ _ Hget) as Hi1.
    apply Hin in Hi1 as (i & Hi0 & Hi1).
    assert (Hj : Device.with_state i1 st = Device.with_state i st)
      by (destruct Hi1 as [[_ ->] | [_ ->]]; reflexivity).
    intros k i'. rewrite (DeviceFacts.In_set_wf l nm _ k i' Hwf Hmem). split.
    + intros [[-> ->] | [Hne Hl]].
      * exists i. split; [ exact Hi0 | ]. left. split; [ left; reflexivity | ].
        exact Hj.
      * apply Hin in Hl as (i2 & Hi2 & Hc). exists i2. split; [ exact Hi2 | ].
        destruct Hc as [[Hd ->] | [Hd ->]].
        -- left. split; [ right; exact Hd | reflexivity ].
        -- right. split; [ | reflexivity ].
           intros [H | H]; [ congruence | exact (Hd H) ].
    + intros (i2 & Hi2 & Hc).
      destruct (String.eqb_spec k nm) as [-> | Hne].
      * left. split; [ reflexivity | ].
        rewrite (wf_unique l0 nm i2 i Hwf0 Hi2 Hi0) in Hc.
        destruct Hc as [[_ ->] | [Hd _]];
          [ symmetry; exact Hj | exfalso; apply Hd; left; reflexivity ].
      * right. split; [ exact Hne | ]. apply Hin. exists i2.
        split; [ exact Hi2 | ].
        destruct Hc as [[[H | Hd] ->] | [Hd ->]].
        -- congruence.
        -- left. auto.
        -- right. split; [ | reflexivity ]. intros H. apply Hd. right. exact H.
  - split; [ exact Hk | ].
    assert (Hnm : ~ In nm (PyDict.keys l)).
    { intros H. apply PyDictFacts.mem_keys in H. unfold PyDict.mem in H.
      rewrite Hget in H. discriminate. }
    intros k i'. rewrite Hin. split.
    + intros (i & Hi & Hc). exists i. split; [ exact Hi | ].
      destruct Hc as [[Hd ->] | [Hd ->]].
      * left. split; [ right; exact Hd | reflexivity ].
      * right. split; [ | reflexivity ].
        intros [<- | H]; [ | exact (Hd H) ].
        apply Hnm. rewrite Hk. apply (in_map fst) in Hi. exact Hi.
    + intros (i & Hi & Hc). exists i. split; [ exact Hi | ].
      destruct Hc as [[[<- | Hd] ->] | [Hd ->]].
      * exfalso. apply Hnm. rewrite Hk. apply (in_map fst) in Hi. exact Hi.
      * left. auto.
      * right. split; [ | reflexivity ]. intros H. apply Hd. right. exact H.
Qed.

Lemma set_states_inv (names done : list string)
      (l : PyDict.t Device.Interface) :
  inv done l -> inv (rev names ++ done) (set_states names st l).
Proof.
  revert done l. induction names as [ | nm names IH ]; intros done l Hinv.
  - exact Hinv.
  - simpl. rewrite <- app_assoc. simpl.
    apply (IH (nm :: done)). apply set_states_step. exact Hinv.
Qed.

(** Setting every name of the table sets every interface. *)
Lemma set_states_all :
  let l := set_states (PyDict.keys l0) st l0 in
  PyDict.keys l = PyDict.keys l0 /\
  forall k i', In (k, i') l <->
               exists i, In (k, i) l0 /\ i' = Device.with_state i st.
Proof.
  assert (H0 : inv [] l0).
  { split; [ reflexivity | ]. intros k i'. split.
    - intros H. exists i'. split; [ exact H | ]. right. auto.
    - intros (i & Hi & [[[] _] | [_ ->]]). exact Hi. }
  destruct (set_states_inv (PyDict.keys l0) [] l0 H0) as (Hk & Hin).
  split; [ exact Hk | ]. intros k i'. rewrite Hin. split.
  - intros (i & Hi & [[_ ->] | [Hd _]]); [ exists i; auto | ].
    exfalso. apply Hd. rewrite app_nil_r. apply -> in_rev.
    apply (in_map fst) in Hi. exact Hi.
  - intros (i & Hi & ->). exists i. split; [ exact Hi | ]. left.
    split; [ | reflexivity ]. rewrite app_nil_r. apply -> in_rev.
    apply (in_map fst) in Hi. exact Hi.
Qed.

End SetStates.

Lemma set_interfaces_id (d : Device.NetworkDevice) :
  Device.set_interfaces d (Device.interfaces d) = d.
Proof. destruct d. reflexivity. Qed.

Lemma set_devices_id (s : NetworkSimulator) : set_devices s (devices s) = s.
Proof. destruct s. reflexivity. Qed.

(** The loop that sets every interface of a device, as one update of the
    device table. *)
Lemma set_all_interfaces_loop (target : string) (st : Device.InterfaceState)
      (names : list string) (s : NetworkSimulator) (d : Device.NetworkDevice) :
  PyDict.get (devices s) target = Some d ->
  let o := for_each names
             (fun nm => on_device target (Device.set_interface_state nm st))
             s in
  result o = Ok tt /\
  state' o
  = set_devices s
      (PyDict.set (devices s) target
         (Device.set_interfaces d (set_states names st (Device.interfaces d)))).
Proof.
  revert s d. induction names as [ | nm names IH ]; intros s d Hget; simpl.
  - split; [ reflexivity | ].
    unfold set_states. simpl. rewrite set_interfaces_id.
    rewrite (PyDictFacts.set_get_id _ _ _ Hget), set_devices_id. reflexivity.
  - set (d1 := Device.set_interfaces d
                 (match PyDict.get (Device.interfaces d) nm with
                  | Some i => PyDict.set (Device.interfaces d) nm
                                         (Device.with_state i st)
                  | None => Device.interfaces d
                  end)).
    assert (Hstep : exists logs,
              on_device target (Device.set_interface_state nm st) s
              = mkOutcome (Ok tt)
                  (set_devices s (PyDict.set (devices s) target d1)) logs).
    { unfold on_device. rewrite Hget. unfold Device.set_interface_state.
      rewrite bind_read. unfold d1.
      destruct (PyDict.get (Device.interfaces d) nm) as [i | ].
      - eexists. rewrite bind_modify. reflexivity.
      - eexists. rewrite set_interfaces_id. reflexivity. }
    destruct Hstep as (logs & Hstep).
    rewrite (bind_ok _ _ _ _ _ _ Hstep). cbn [result state'].
    set (s1 := set_devices s (PyDict.set (devices s) target d1)).
    destruct (IH s1 d1) as (Hr & Hs).
    { apply PyDictFacts.get_set_same. }
    split; [ exact Hr | ]. rewrite Hs. unfold s1. simpl.
    rewrite set_set. unfold set_states, d1. simpl.
    destruct s. reflexivity.
Qed.

(** X12: an [interface_down] fault without a target interface takes every
    interface of the target device DOWN, whatever its state was, so that
    the device reaches no address; reverting it brings every interface UP,
    also one that was not UP before the fault.  Nothing else of an
    interface changes and no other device is touched. *)
Theorem interface_down_fault_on_all_interfaces
        (s : NetworkSimulator) (fault : FaultInjection)
        (d : Device.NetworkDevice) :
  PyDict.get (devices s) (target_device fault) = Some d ->
  PyDict.wf (Device.interfaces d) ->
  fault_type fault = "interface_down" ->
  truthy_opt_str (target_interface fault) = false ->
  let s1 := state' (_apply_fault fault s) in
  let s2 := state' (_remove_fault fault s1) in
  exists d1 d2,
    PyDict.get (devices s1) (target_device fault) = Some d1 /\
    PyDict.get (devices s2) (target_device fault) = Some d2 /\
    (forall k i', In (k, i') (Device.interfaces d1) <->
       exists i, In (k, i) (Device.interfaces d) /\
                 i' = Device.with_state i Device.DOWN) /\
    (forall target_ip, Device._can_reach_ip d1 target_ip = false) /\
    (forall k i', In (k, i') (Device.interfaces d2) <->
       exists i, In (k, i) (Device.interfaces d) /\
                 i' = Device.with_state i Device.UP) /\
    (forall h, h <> target_device fault ->
       PyDict.get (devices s1) h = PyDict.get (devices s) h /\
       PyDict.get (devices s2) h = PyDict.get (devices s) h).
Proof.
  intros Hget Hwf Hft Hti s1 s2.
  set (target := target_device fault) in *.
  set (d1 := Device.set_interfaces d
               (set_states (PyDict.keys (Device.interfaces d)) Device.DOWN
                           (Device.interfaces d))).
  assert (Hs1 : s1 = set_devices s (PyDict.set (devices s) target d1)).
  { unfold s1, _apply_fault. fold target.
    assert (Hlookup : lookup_device target s = mkOutcome (Ok d) s [])
      by (unfold lookup_device; rewrite Hget; reflexivity).
    rewrite (bind_ok _ _ _ _ _ _ Hlookup). cbn [state'].
    rewrite Hft, Hti. cbn [String.eqb Ascii.eqb Bool.eqb].
    apply (set_all_interfaces_loop target Device.DOWN _ s d Hget). }
  destruct (set_states_all Device.DOWN (Device.interfaces d) Hwf)
    as (Hk1 & Hin1).
  assert (Hget1 : PyDict.get (devices s1) target = Some d1)
    by (rewrite Hs1; apply PyDictFacts.get_set_same).
  assert (Hwf1 : PyDict.wf (Device.interfaces d1))
    by (unfold PyDict.wf, d1; simpl; rewrite Hk1; exact Hwf).
  set (d2 := Device.set_interfaces d1
               (set_states (PyDict.keys (Device.interfaces d1)) Device.UP
                           (Device.interfaces d1))).
  assert (Hs2 : s2 = set_devices s1 (PyDict.set (devices s1) target d2)).
  { unfold s2, _remove_fault. fold target.
    assert (Hlookup : lookup_device target s1 = mkOutcome (Ok d1) s1 [])
      by (unfold lookup_device; rewrite Hget1; reflexivity).
    rewrite (bind_ok _ _ _ _ _ _ Hlookup). cbn [state'].
    rewrite SimulatorFacts.state'_then_log.
    rewrite Hft, Hti. cbn [String.eqb Ascii.eqb Bool.eqb].
    apply (set_all_interfaces_loop target Device.UP _ s1 d1 Hget1). }
  destruct (set_states_all Device.UP (Device.interfaces d1) Hwf1)
    as (Hk2 & Hin2).
  exists d1, d2. split; [ exact Hget1 | ].
  split; [ rewrite Hs2; apply PyDictFacts.get_set_same | ].
  split; [ exact Hin1 | ]. split; [ | split ].
  - intros target_ip. unfold Device._can_reach_ip.
    destruct (Device.can_reach_loop _ _) eqn:Hc; [ | reflexivity ].
    apply DeviceFacts.can_reach_loop_iff in Hc as (i' & Hi' & Hup & _).
    apply in_map_iff in Hi' as ([k x] & Hx & Hi'). simpl in Hx. subst x.
    apply Hin1 in Hi' as (i & _ & ->). discriminate.
  - intros k i'.
    change (Device.interfaces d2)
      with (set_states (PyDict.keys (Device.interfaces d1)) Device.UP
                       (Device.interfaces d1)).
    rewrite Hin2. split.
    + intros (i1 & Hi1 & ->). apply Hin1 in Hi1 as (i & Hi & ->).
      exists i. auto.
    + intros (i & Hi & ->). exists (Device.with_state i Device.DOWN).
      split; [ apply Hin1; exists i; auto | reflexivity ].
  - intros h Hne.
    assert (H1 : PyDict.get (devices s1) h = PyDict.get (devices s) h)
      by (rewrite Hs1; apply PyDictFacts.get_set_other; exact Hne).
    split; [ exact H1 | ]. rewrite <- H1, Hs2.
    apply PyDictFacts.get_set_other. exact Hne.
Qed.

(** ** Link failures *)

Lemma remove_neighbor_outcome (n : string) (d : Device.NetworkDevice) :
  exists logs,
    Device.remove_neighbor n d
    = mkOutcome (Ok tt)
        (Device.set_neighbors d (without n (Device.neighbors d))) logs.
Proof.
  unfold Device.remove_neighbor, without. rewrite bind_read.
  destruct (Device.str_in n (Device.neighbors d)).
  - eexists. rewrite bind_modify. reflexivity.
  - eexists. rewrite MoreDeviceFacts.set_neighbors_id. reflexivity.
Qed.

Lemma on_device_remove_neighbor (h n : string) (s : NetworkSimulator)
      (d : Device.NetworkDevice) :
  PyDict.get (devices s) h = Some d ->
  exists logs,
    on_device h (Device.remove_neighbor n) s
    = mkOutcome (Ok tt)
        (set_devices s
           (PyDict.set (devices s) h
              (Device.set_neighbors d (without n (Device.neighbors d)))))
        logs.
Proof.
  intros Hget. unfold on_device. rewrite Hget.
  destruct (remove_neighbor_outcome n d) as (logs & ->).
  exists logs. reflexivity.
Qed.

Lemma link_failure_loop (target : string) (names : list string)
      (s : NetworkSimulator) :
  PyDict.mem target (devices s) = true ->
  let o :=
    for_each names
      (fun neighbor =>
         on_device target (Device.remove_neighbor neighbor) ;;
         devs <- read devices ;;
         if PyDict.mem neighbor devs then
           on_device neighbor (Device.remove_neighbor target)
         else ret tt)
      s in
  result o = Ok tt /\
  state' o = set_devices s (fold_left (cut_link target) names (devices s)).
Proof.
  revert s. induction names as [ | n names IH ]; intros s Hmem; simpl.
  - split; [ reflexivity | symmetry; apply set_devices_id ].
  - unfold PyDict.mem in Hmem.
    destruct (PyDict.get (devices s) target) as [dt | ] eqn:Hget;
      [ | discriminate ].
    destruct (on_device_remove_neighbor target n s dt Hget) as (l1 & H1).
    set (s1 := set_devices s _) in H1.
    assert (Hbody : exists logs,
      (on_device target (Device.remove_neighbor n) ;;
       devs <- read devices ;;
       if PyDict.mem n devs then on_device n (Device.remove_neighbor target)
       else ret tt) s
      = mkOutcome (Ok tt) (set_devices s (cut_link target (devices s) n))
                  logs).
    { rewrite (bind_ok _ _ _ _ _ _ H1). rewrite bind_read.
      unfold cut_link. rewrite Hget. unfold PyDict.mem.
      change (devices s1)
        with (PyDict.set (devices s) target
                (Device.set_neighbors dt (without n (Device.neighbors dt)))).
      destruct (PyDict.get (PyDict.set (devices s) target _) n)
        as [dn | ] eqn:Hn.
      - destruct (on_device_remove_neighbor n target s1 dn Hn) as (l2 & H2).
        rewrite H2. eexists. reflexivity.
      - eexists. reflexivity. }
    destruct Hbody as (logs & Hbody).
    rewrite (bind_ok _ _ _ _ _ _ Hbody). cbn [result state'].
    destruct (IH (set_devices s (cut_link target (devices s) n)))
      as (Hr & Hs).
    + simpl. unfold cut_link. rewrite Hget.
      destruct (PyDict.get (PyDict.set (devices s) target _) n);
        rewrite ?PyDictFacts.mem_set; unfold PyDict.mem;
        rewrite ?PyDictFacts.get_set_same, ?Hget, ?String.eqb_refl;
        try reflexivity; apply orb_true_r.
    + split; [ exact Hr | ]. rewrite Hs. destruct s. reflexivity.
Qed.

Lemma fold_without_self (l : list string) :
  fold_left (fun acc n => without n acc) l l = [].
Proof.
  induction l as [ | n l IHl ]; simpl; [ reflexivity | ].
  unfold without at 2. simpl. rewrite String.eqb_refl. simpl. exact IHl.
Qed.

Lemma cut_link_target (target n : string)
      (devs : PyDict.t Device.NetworkDevice) (dt : Device.NetworkDevice) :
  n <> target ->
  PyDict.get devs target = Some dt ->
  PyDict.get (cut_link target devs n) target
  = Some (Device.set_neighbors dt (without n (Device.neighbors dt))).
Proof.
  intros Hne Hget. unfold cut_link. rewrite Hget.
  destruct (PyDict.get (PyDict.set devs target _) n).
  - rewrite PyDictFacts.get_set_other by congruence.
    apply PyDictFacts.get_set_same.
  - apply PyDictFacts.get_set_same.
Qed.

Lemma cut_link_other (target n h : string)
      (devs : PyDict.t Device.NetworkDevice) :
  n <> target -> h <> target ->
  PyDict.mem target devs = true ->
  PyDict.get (cut_link target devs n) h
  = if String.eqb h n
    then option_map
           (fun dn => Device.set_neighbors dn
                        (without target (Device.neighbors dn)))
           (PyDict.get devs h)
    else PyDict.get devs h.
Proof.
  intros Hn Hh Hmem. unfold cut_link, PyDict.mem in *.
  destruct (PyDict.get devs target) as [dt | ]; [ | discriminate ].
  rewrite (PyDictFacts.get_set_other _ target n) by exact Hn.
  destruct (String.eqb_spec h n) as [-> | Hne].
  - destruct (PyDict.get devs n) as [dn | ] eqn:Hgn; simpl.
    + apply PyDictFacts.get_set_same.
    + rewrite PyDictFacts.get_set_other by exact Hn. exact Hgn.
  - destruct (PyDict.get devs n) as [dn | ].
    + rewrite PyDictFacts.get_set_other by exact Hne.
      apply PyDictFacts.get_set_other. exact Hh.
    + apply PyDictFacts.get_set_other. exact Hh.
Qed.

Lemma cut_links_target (target : string) (names : list string)
      (devs : PyDict.t Device.NetworkDevice) (dt : Device.NetworkDevice) :
  ~ In target names ->
  PyDict.get devs target = Some dt ->
  PyDict.get (fold_left (cut_link target) names devs) target
  = Some (Device.set_neighbors dt
            (fold_left (fun acc n => without n acc) names
                       (Device.neighbors dt))).
Proof.
  revert devs dt. induction names as [ | n names IH ]; intros devs dt Hn Hget;
    simpl.
  - rewrite MoreDeviceFacts.set_neighbors_id. exact Hget.
  - rewrite (IH _ (Device.set_neighbors dt (without n (Device.neighbors dt)))).
    + reflexivity.
    + intros H. apply Hn. right. exact H.
    + apply cut_link_target; [ | exact Hget ].
      intros ->. apply Hn. left. reflexivity.
Qed.

Lemma cut_links_other (target : string) (names : list string)
      (devs : PyDict.t Device.NetworkDevice) (h : string) :
  NoDup names -> ~ In target names -> h <> target ->
  PyDict.mem target devs = true ->
  PyDict.get (fold_left (cut_link target) names devs) h
  = if Device.str_in h names
    then option_map
           (fun dn => Device.set_neighbors dn
                        (without target (Device.neighbors dn)))
           (PyDict.get devs h)
    else PyDict.get devs h.
Proof.
  revert devs. induction names as [ | n names IH ];
    intros devs Hnd Hn Hh Hmem; simpl; [ reflexivity | ].
  inversion Hnd as [ | ? ? Hnotin Hnd' ]; subst.
  assert (Hnt : n <> target) by (intros ->; apply Hn; left; reflexivity).
  assert (Hmem' : PyDict.mem target (cut_link target devs n) = true).
  { unfold PyDict.mem in *.
    destruct (PyDict.get devs target) as [dt | ] eqn:Hget; [ | discriminate ].
    rewrite (cut_link_target target n devs dt Hnt Hget). reflexivity. }
  rewrite IH; try assumption; [ | intros H; apply Hn; right; exact H ].
  rewrite (cut_link_other target n h devs Hnt Hh Hmem).
  rewrite String.eqb_sym.
  destruct (String.eqb_spec n h) as [-> | Hne]; simpl; [ | reflexivity ].
  assert (Hf : Device.str_in h names = false)
    by (apply MoreDeviceFacts.str_in_false; exact Hnotin).
  rewrite Hf. reflexivity.
Qed.

(** X13: a [link_failure] fault on a device whose neighbour list has no
    duplicate and does not name the device itself empties that list and
    takes the device out of the list of each of those neighbours that is a
    device of the table, whatever interface the fault names; the other
    devices, and everything of a device but its neighbour list, stay. *)
Theorem link_failure_fault_cuts_both_directions
        (s : NetworkSimulator) (fault : FaultInjection)
        (d : Device.NetworkDevice) :
  PyDict.get (devices s) (target_device fault) = Some d ->
  fault_type fault = "link_failure" ->
  NoDup (Device.neighbors d) ->
  ~ In (target_device fault) (Device.neighbors d) ->
  let s1 := state' (_apply_fault fault s) in
  result (_apply_fault fault s) = Ok tt /\
  PyDict.get (devices s1) (target_device fault)
  = Some (Device.set_neighbors d []) /\
  forall h, h <> target_device fault ->
    PyDict.get (devices s1) h
    = if Device.str_in h (Device.neighbors d)
      then option_map
             (fun dn => Device.set_neighbors dn
                          (without (target_device fault)
                                   (Device.neighbors dn)))
             (PyDict.get (devices s) h)
      else PyDict.get (devices s) h.
Proof.
  intros Hget Hft Hnd Hself s1.
  set (target := target_device fault) in *.
  assert (Hmem : PyDict.mem target (devices s) = true)
    by (unfold PyDict.mem; rewrite Hget; reflexivity).
  assert (Hlookup : lookup_device target s = mkOutcome (Ok d) s [])
    by (unfold lookup_device; rewrite Hget; reflexivity).
  destruct (link_failure_loop target (Device.neighbors d) s Hmem)
    as (Hr & Hs).
  assert (Happ : _apply_fault fault s
                 = for_each (Device.neighbors d)
                     (fun neighbor =>
                        on_device target (Device.remove_neighbor neighbor) ;;
                        devs <- read devices ;;
                        if PyDict.mem neighbor devs then
                          on_device neighbor (Device.remove_neighbor target)
                        else ret tt) s).
  { unfold _apply_fault. fold target.
    rewrite (bind_ok _ _ _ _ _ _ Hlookup). rewrite Hft.
    cbn [String.eqb Ascii.eqb Bool.eqb]. simpl app.
    apply outcome_eta. }
  unfold s1. rewrite Happ, Hs.
  split; [ exact Hr | ]. simpl. split.
  - rewrite (cut_links_target target _ _ d Hself Hget).
    rewrite fold_without_self. reflexivity.
  - intros h Hh. apply cut_links_other; assumption.
Qed.

(** ** Packets and events *)

(** X14: [send_packet] with a source or a target that is not a device logs
    the error and changes nothing; with both known it appends the packet to
    the inbox of the target (whether or not a link joins the two devices)
    and one [packet_sent] event to the event queue, and changes nothing
    else: no counter of the source, the target or the simulator moves
    yet. *)
Theorem send_packet_enqueues_at_target
        (s : NetworkSimulator) (source target kind : string)
        (packet_data : PyDict.t PyVal) (now now' : Z) :
  let o := send_packet source target kind packet_data now now' s in
  (PyDict.mem source (devices s) = false \/
   PyDict.mem target (devices s) = false ->
   o = mkOutcome (Ok tt) s
         [mkLog ERROR "Invalid device names: {} -> {}"
                [VStr source; VStr target]]) /\
  (forall dt,
     PyDict.mem source (devices s) = true ->
     PyDict.get (devices s) target = Some dt ->
     let packet : Device.Message :=
       [("type", VStr kind); ("source", VStr source);
        ("target", VStr target); ("timestamp", VInt now);
        ("data", VDict packet_data)] in
     o = mkOutcome (Ok tt)
           (set_event_queue
              (set_devices s
                 (PyDict.set (devices s) target
                    (Device.set_message_queue dt
                       (Device.message_queue dt ++ [packet]))))
              (event_queue s
               ++ [mkEvent now' "packet_sent" source (Some target)
                           ("Packet sent: " ++ kind)
                           (DataDict packet_data)]))
           []).
Proof.
  intros o. split.
  - intros Hunknown. unfold o, send_packet. rewrite bind_read.
    destruct Hunknown as [H | H]; rewrite H; simpl;
      [ reflexivity | rewrite orb_true_r; reflexivity ].
  - intros dt Hsrc Hget packet. unfold o, send_packet. rewrite bind_read.
    assert (Htgt : PyDict.mem target (devices s) = true)
      by (unfold PyDict.mem; rewrite Hget; reflexivity).
    rewrite Hsrc, Htgt. cbn [negb orb]. cbv iota.
    unfold bind, on_device. rewrite Hget. reflexivity.
Qed.

Lemma try_except_log_result {St} (m : Eff.t St unit) (l : Level)
      (text : string) (args : PyExn -> list PyVal) (s : St) :
  result (try_except m (fun e => log l text (args e)) s) = Ok tt.
Proof.
  unfold try_except. destruct (m s) as [[[] | e] s1 l1]; reflexivity.
Qed.

Lemma try_except_log_state {St} (m : Eff.t St unit) (l : Level)
      (text : string) (args : PyExn -> list PyVal) (s : St) :
  state' (try_except m (fun e => log l text (args e)) s) = state' (m s).
Proof.
  unfold try_except. destruct (m s) as [[[] | e] s1 l1]; reflexivity.
Qed.

Lemma set_simulation_time_id (s : NetworkSimulator) :
  set_simulation_time s (simulation_time s) = s.
Proof. destruct s. reflexivity. Qed.

(** The end of a turn of the event loop moves the simulation time only. *)
Lemma time_update_state (now : Z) (s : NetworkSimulator) :
  exists t,
    state' ((paused <- read simulation_paused ;;
             if negb paused then
               t0 <- read simulation_start_time ;;
               match t0 with
               | Some t0 => modify (fun s => set_simulation_time s (now - t0))
               | None => raise TypeError
               end
             else ret tt) s)
    = set_simulation_time s t.
Proof.
  rewrite bind_read.
  destruct (simulation_paused s); cbn [negb].
  - exists (simulation_time s). symmetry. apply set_simulation_time_id.
  - rewrite bind_read. destruct (simulation_start_time s) as [t0 | ].
    + eexists. reflexivity.
    + exists (simulation_time s). symmetry. apply set_simulation_time_id.
Qed.

Lemma _handle_event_outcome (e : SimulationEvent) (s : NetworkSimulator) :
  exists st,
    _handle_event e s
    = mkOutcome (Ok tt)
        (set_statistics (set_events s (events s ++ [e])) st) [] /\
    total_packets st
    = total_packets (statistics s) + count_kind "packet_sent" [e] /\
    total_errors st
    = total_errors (statistics s) + count_kind "error_occurred" [e].
Proof.
  unfold _handle_event, _update_statistics.
  assert (Hc : forall kind,
             count_kind kind [e]
             = if String.eqb (event_type e) kind then 1 else 0).
  { intros kind. unfold count_kind. cbn [filter].
    destruct (String.eqb (event_type e) kind); reflexivity. }
  rewrite !Hc, bind_modify. unfold modify. cbv zeta.
  cbn [statistics set_events].
  destruct (String.eqb (event_type e) "packet_sent") eqn:Hp.
  { eexists. split; [ reflexivity | ].
    apply String.eqb_eq in Hp. rewrite Hp. cbn. split; lia. }
  destruct (String.eqb (event_type e) "error_occurred") eqn:He.
  { eexists. split; [ reflexivity | ]. cbn. split; lia. }
  destruct (String.eqb (event_type e) "device_start") eqn:Hs1.
  { eexists. split; [ reflexivity | ]. cbn. split; lia. }
  destruct (String.eqb (event_type e) "device_stop") eqn:Hs2.
  { eexists. split; [ reflexivity | ]. cbn. split; lia. }
  exists (statistics s). split; [ destruct s; reflexivity | ].
  split; lia.
Qed.

Lemma _process_events_iteration_cases (now : Z) (s : NetworkSimulator) :
  let s1 := state' (_process_events_iteration now s) in
  result (_process_events_iteration now s) = Ok tt /\
  events s1 = (events s ++ firstn 1 (event_queue s))%list /\
  event_queue s1 = tl (event_queue s) /\
  total_packets (statistics s1)
  = total_packets (statistics s)
    + count_kind "packet_sent" (firstn 1 (event_queue s)) /\
  total_errors (statistics s1)
  = total_errors (statistics s)
    + count_kind "error_occurred" (firstn 1 (event_queue s)) /\
  devices s1 = devices s /\ active_faults s1 = active_faults s /\
  fault_history s1 = fault_history s /\
  simulation_running s1 = simulation_running s.
Proof.
  intros s1. unfold s1, _process_events_iteration.
  split; [ apply (try_except_log_result _ ERROR _
                    (fun e => [Device.exn_name e])) | ].
  rewrite (try_except_log_state _ ERROR _ (fun e => [Device.exn_name e])).
  rewrite bind_read.
  destruct (event_queue s) as [ | e q ] eqn:Hq.
  - rewrite bind_ret.
    destruct (time_update_state now s) as (t & ->).
    simpl. rewrite Hq, app_nil_r. unfold count_kind. simpl.
    rewrite !Z.add_0_r. repeat split.
  - rewrite bind_assoc, bind_modify.
    destruct (_handle_event_outcome e (set_event_queue s q))
      as (st & Hh & Hp & He).
    rewrite (bind_ok _ _ _ _ _ _ Hh). cbn [state'].
    match goal with |- context [state' (?m ?s0)] =>
      destruct (time_update_state now s0) as (t & Ht) end.
    rewrite Ht. simpl. simpl in Hp, He. repeat split; assumption.
Qed.

Lemma count_kind_app (kind : string) (l1 l2 : list SimulationEvent) :
  count_kind kind (l1 ++ l2) = count_kind kind l1 + count_kind kind l2.
Proof.
  unfold count_kind. rewrite filter_app, length_app. lia.
Qed.

Lemma firstn_succ {A} (n : nat) (l : list A) :
  firstn (Datatypes.S n) l = (firstn 1 l ++ firstn n (tl l))%list.
Proof. destruct l; simpl; [ destruct n | ]; reflexivity. Qed.

(** X15: the event loop records the queued events first in, first out and
    counts them as it goes: after [n] turns of a running simulation the
    log has grown by the first [n] queued events, in order, the queue has
    lost them, the packet counter has grown by the number of [packet_sent]
    events among them and the error counter by the number of
    [error_occurred] events; the devices and the faults are not touched. *)
Theorem event_loop_records_in_order
        (ticks : list Z) (s : NetworkSimulator) :
  simulation_running s = true ->
  let n := List.length ticks in
  let s1 := Loops._process_events ticks s in
  events s1 = (events s ++ firstn n (event_queue s))%list /\
  event_queue s1 = skipn n (event_queue s) /\
  total_packets (statistics s1)
  = total_packets (statistics s)
    + count_kind "packet_sent" (firstn n (event_queue s)) /\
  total_errors (statistics s1)
  = total_errors (statistics s)
    + count_kind "error_occurred" (firstn n (event_queue s)) /\
  devices s1 = devices s /\ active_faults s1 = active_faults s /\
  fault_history s1 = fault_history s.
Proof.
  revert s. induction ticks as [ | now ticks IH ]; intros s Hrun.
  - simpl. rewrite app_nil_r. unfold count_kind. simpl.
    rewrite !Z.add_0_r. repeat split.
  - cbn [Loops._process_events List.length]. rewrite Hrun.
    destruct (_process_events_iteration_cases now s)
      as (_ & He & Hq & Hp & Herr & Hd & Ha & Hh & Hr).
    destruct (IH (state' (_process_events_iteration now s)))
      as (He1 & Hq1 & Hp1 & Herr1 & Hd1 & Ha1 & Hh1);
      [ rewrite Hr; exact Hrun | ].
    cbv zeta. rewrite He1, Hq1, Hp1, Herr1, Hd1, Ha1, Hh1.
    rewrite He, Hq, Hp, Herr, Hd, Ha, Hh.
    rewrite (firstn_succ (List.length ticks) (event_queue s)).
    rewrite !count_kind_app, <- app_assoc.
    repeat split; try lia.
    destruct (event_queue s); simpl; [ apply skipn_nil | reflexivity ].
Qed.

End MoreSimulatorFacts.

(* ================================================================== *)
(** * The topology graph and the analysis of the links *)
(* ================================================================== *)

Module MoreTopologyFacts.

Import Topology TopologyAnalysis MoreProps.

(** ** The adjacency of the generated graph *)

Lemma graph_neighbors_add_node (g : Graph) (n u : string) :
  graph_neighbors (add_node g n) u = graph_neighbors g u.
Proof.
  unfold add_node, graph_neighbors, PyDict.mem.
  destruct (PyDict.get g n) as [nb | ] eqn:Hn; [ reflexivity | ].
  destruct (String.eqb_spec u n) as [-> | Hne].
  - rewrite PyDictFacts.get_set_same, Hn. reflexivity.
  - rewrite PyDictFacts.get_set_other by exact Hne. reflexivity.
Qed.

Lemma graph_neighbors_adj_add (g : Graph) (a b u v : string) :
  In v (graph_neighbors (adj_add g a b) u)
  <-> In v (graph_neighbors g u) \/ (u = a /\ v = b).
Proof.
  unfold adj_add, graph_neighbors.
  destruct (PyDict.get g a) as [nb | ] eqn:Ha.
  - destruct (Device.str_in b nb) eqn:Hb.
    + split; [ auto | ]. intros [H | [-> ->]]; [ exact H | ].
      rewrite Ha. apply MoreDeviceFacts.str_in_iff. exact Hb.
    + destruct (String.eqb_spec u a) as [-> | Hne].
      * rewrite PyDictFacts.get_set_same, Ha, in_app_iff. simpl.
        split; intros [H | H]; auto.
        -- destruct H as [<- | []]. auto.
        -- destruct H as [_ ->]. auto.
      * rewrite PyDictFacts.get_set_other by exact Hne.
        split; [ auto | ]. intros [H | [Hu _]]; [ exact H | contradiction ].
  - destruct (String.eqb_spec u a) as [-> | Hne].
    + rewrite PyDictFacts.get_set_same, Ha. simpl.
      split; [ intros [<- | []]; auto | ].
      intros [[] | [_ ->]]. auto.
    + rewrite PyDictFacts.get_set_other by exact Hne.
      split; [ auto | ]. intros [H | [Hu _]]; [ exact H | contradiction ].
Qed.

Lemma graph_neighbors_add_edge (g : Graph) (a b u v : string) :
  In v (graph_neighbors (add_edge g a b) u)
  <-> In v (graph_neighbors g u) \/ (a = u /\ b = v) \/ (a = v /\ b = u).
Proof.
  unfold add_edge.
  rewrite !graph_neighbors_adj_add, !graph_neighbors_add_node.
  intuition congruence.
Qed.

Lemma linked_nil (u v : string) : ~ linked [] u v.
Proof. intros (l & [] & _). Qed.

Lemma linked_snoc (links : list NetworkLink) (l : NetworkLink) (u v : string) :
  linked (links ++ [l]) u v
  <-> linked links u v
      \/ (source_device l = u /\ target_device l = v)
      \/ (source_device l = v /\ target_device l = u).
Proof.
  unfold linked. split.
  - intros (k & Hin & Hk). apply in_app_iff in Hin.
    destruct Hin as [Hin | [<- | []]]; [ left; eauto | right; exact Hk ].
  - intros [(k & Hin & Hk) | Hl].
    + exists k. split; [ apply in_app_iff; auto | exact Hk ].
    + exists l. split; [ apply in_app_iff; simpl; auto | exact Hl ].
Qed.

Lemma graph_neighbors_nodes (configs : PyDict.t Config.ParsedConfig)
      (g : Graph) (u : string) :
  graph_neighbors (fold_left (fun g hc => add_node g (fst hc)) configs g) u
  = graph_neighbors g u.
Proof.
  revert g. induction configs as [ | hc configs IH ]; intros g; simpl.
  - reflexivity.
  - rewrite IH. apply graph_neighbors_add_node.
Qed.

Lemma build_graph_adjacency (configs : PyDict.t Config.ParsedConfig)
      (links : list NetworkLink) (u v : string) :
  In v (graph_neighbors (build_graph configs links) u) <-> linked links u v.
Proof.
  unfold build_graph.
  induction links as [ | l links IH ] using rev_ind.
  - simpl. rewrite graph_neighbors_nodes. simpl.
    split; [ intros [] | intros H; exact (linked_nil _ _ H) ].
  - rewrite fold_left_app. simpl.
    rewrite graph_neighbors_add_edge, IH, linked_snoc. reflexivity.
Qed.

Lemma adjacency_NoDup_add_node (g : Graph) (n : string) :
  adjacency_NoDup g -> adjacency_NoDup (add_node g n).
Proof.
  intros H u. rewrite graph_neighbors_add_node. apply H.
Qed.

Lemma adjacency_NoDup_adj_add (g : Graph) (a b : string) :
  adjacency_NoDup g -> adjacency_NoDup (adj_add g a b).
Proof.
  intros H u. generalize (H u). unfold adj_add, graph_neighbors.
  destruct (PyDict.get g a) as [nb | ] eqn:Ha.
  - destruct (Device.str_in b nb) eqn:Hb; [ auto | ].
    destruct (String.eqb_spec u a) as [-> | Hne].
    + rewrite PyDictFacts.get_set_same, Ha. intros Hnd.
      apply NoDup_app; [ exact Hnd | repeat constructor; intros [] | ].
      intros x Hx [<- | []].
      apply MoreDeviceFacts.str_in_false in Hb. contradiction.
    + rewrite PyDictFacts.get_set_other by exact Hne. auto.
  - destruct (String.eqb_spec u a) as [-> | Hne].
    + rewrite PyDictFacts.get_set_same. intros _.
      repeat constructor. intros [].
    + rewrite PyDictFacts.get_set_other by exact Hne. auto.
Qed.

Lemma build_graph_NoDup (configs : PyDict.t Config.ParsedConfig)
      (links : list NetworkLink) :
  adjacency_NoDup (build_graph configs links).
Proof.
  unfold build_graph.
  induction links as [ | l links IH ] using rev_ind.
  - simpl. intros u. rewrite graph_neighbors_nodes. constructor.
  - rewrite fold_left_app. simpl. unfold add_edge.
    repeat first [ apply adjacency_NoDup_adj_add
                 | apply adjacency_NoDup_add_node ].
    exact IH.
Qed.

(** X16: the neighbours a generator reports after [generate_topology] are
    exactly the devices a link joins to the queried one, whichever end of
    the link it is; so the relation is symmetric, and no neighbour is
    listed twice however many links join the two devices. *)
Theorem generated_neighbors_are_the_linked_devices
        (self : TopologyGenerator) (configs : PyDict.t Config.ParsedConfig)
        (links : list NetworkLink) (subnets : PyDict.t (list string))
        (vlans : list (Z * list string))
        (routing_domains : PyDict.t (list string)) (u v : string) :
  let gen := fst (generate_topology self configs links subnets vlans
                                    routing_domains) in
  (In v (get_device_neighbors gen u) <-> linked links u v) /\
  (In v (get_device_neighbors gen u) <-> In u (get_device_neighbors gen v)) /\
  NoDup (get_device_neighbors gen u).
Proof.
  intros gen.
  assert (Hn : forall x, get_device_neighbors gen x
                         = graph_neighbors (build_graph configs links) x).
  { intros x. unfold gen, generate_topology, get_device_neighbors.
    cbn [fst topology graph]. unfold contains, PyDict.mem, graph_neighbors.
    destruct (PyDict.get (build_graph configs links) x); reflexivity. }
  rewrite !Hn, !build_graph_adjacency.
  split; [ reflexivity | ]. split; [ | apply build_graph_NoDup ].
  unfold linked. split; intros (l & Hin & Hl); exists l; tauto.
Qed.

(** ** The links [_generate_links] keeps *)

Lemma is_reverse_of_iff (link existing_link : NetworkLink) :
  is_reverse_of link existing_link = true <-> reverses link existing_link.
Proof.
  unfold is_reverse_of, reverses.
  rewrite andb_true_iff, !String.eqb_eq. reflexivity.
Qed.

Lemma ForallOrdPairs_snoc {A} (R : A -> A -> Prop) (l : list A) (x : A) :
  ForallOrdPairs R l -> Forall (fun y => R y x) l ->
  ForallOrdPairs R (l ++ [x]).
Proof.
  induction 1 as [ | a l Ha Hl IH ]; intros Hx; simpl.
  - constructor; constructor.
  - inversion Hx as [ | ? ? Hax Hlx ]; subst.
    constructor; [ | apply IH; exact Hlx ].
    apply Forall_app. split; [ exact Ha | constructor; [ exact Hax | constructor ] ].
Qed.

Lemma unique_links_loop_spec (links unique_links : list NetworkLink) :
  ForallOrdPairs (fun kept link => ~ reverses link kept) unique_links ->
  let out := unique_links_loop links unique_links in
  incl out (unique_links ++ links) /\
  incl unique_links out /\
  (forall link, In link links ->
     In link out \/ exists kept, In kept out /\ reverses link kept) /\
  ForallOrdPairs (fun kept link => ~ reverses link kept) out.
Proof.
  revert unique_links.
  induction links as [ | link rest IH ]; intros acc Hacc; cbn [unique_links_loop].
  - cbv zeta. rewrite app_nil_r.
    repeat split; [ apply incl_refl | apply incl_refl | intros ? [] | exact Hacc ].
  - destruct (existsb (is_reverse_of link) acc) eqn:Hdup.
    + destruct (IH acc Hacc) as (Hin & Hkeep & Hcov & Hfree). cbv zeta.
      repeat split.
      * intros x Hx. apply Hin in Hx. apply in_app_iff in Hx.
        apply in_app_iff. simpl. tauto.
      * exact Hkeep.
      * intros x [<- | Hx]; [ | apply Hcov; exact Hx ].
        right. apply existsb_exists in Hdup. destruct Hdup as (k & Hk & Hr).
        exists k. split; [ apply Hkeep; exact Hk | ].
        apply is_reverse_of_iff. exact Hr.
      * exact Hfree.
    + assert (Hacc' : ForallOrdPairs (fun kept l => ~ reverses l kept)
                                     (acc ++ [link])).
      { apply ForallOrdPairs_snoc; [ exact Hacc | ].
        apply Forall_forall. intros k Hk Hr.
        apply is_reverse_of_iff in Hr.
        assert (Hex : existsb (is_reverse_of link) acc = true)
          by (apply existsb_exists; exists k; auto).
        congruence. }
      destruct (IH (acc ++ [link])%list Hacc') as (Hin & Hkeep & Hcov & Hfree).
      cbv zeta. repeat split.
      * intros x Hx. apply Hin in Hx. rewrite <- app_assoc in Hx. exact Hx.
      * intros x Hx. apply Hkeep. apply in_app_iff. auto.
      * intros x [<- | Hx]; [ | apply Hcov; exact Hx ].
        left. apply Hkeep. apply in_app_iff. simpl. auto.
      * exact Hfree.
Qed.

Lemma unique_links_loop_keeps_all (links unique_links : list NetworkLink) :
  (forall link other, In link links -> In other (unique_links ++ links) ->
                      ~ reverses link other) ->
  unique_links_loop links unique_links = (unique_links ++ links)%list.
Proof.
  revert unique_links.
  induction links as [ | link rest IH ]; intros acc Hfree;
    cbn [unique_links_loop].
  - rewrite app_nil_r. reflexivity.
  - destruct (existsb (is_reverse_of link) acc) eqn:Hdup.
    + apply existsb_exists in Hdup. destruct Hdup as (k & Hk & Hr).
      apply is_reverse_of_iff in Hr. exfalso.
      apply (Hfree link k); [ left; reflexivity | | exact Hr ].
      apply in_app_iff. auto.
    + rewrite IH; [ rewrite <- app_assoc; reflexivity | ].
      intros l o Hl Ho. apply Hfree; [ right; exact Hl | ].
      rewrite <- app_assoc in Ho. exact Ho.
Qed.

(** X17: the second loop of [_generate_links] keeps only links of its
    input; every input link is kept or is the reverse of a kept link; of
    the kept links none reverses one kept before it; and an input in which
    no link reverses a link is returned as it is (two links in the same
    direction between the same devices are both kept). *)
Theorem generated_links_hold_no_reversed_pair (links : list NetworkLink) :
  let out := remove_duplicate_links links in
  incl out links /\
  (forall link, In link links ->
     In link out \/ exists kept, In kept out /\ reverses link kept) /\
  ForallOrdPairs (fun kept link => ~ reverses link kept) out /\
  ((forall link other, In link links -> In other links ->
                       ~ reverses link other) -> out = links).
Proof.
  destruct (unique_links_loop_spec links [] (FOP_nil _))
    as (Hin & _ & Hcov & Hfree).
  cbv zeta. unfold remove_duplicate_links.
  repeat split; try assumption.
  intros Hnone. apply (unique_links_loop_keeps_all links []). exact Hnone.
Qed.

(** ** Link types and bandwidth classes *)

(** X18: the type of a link does not depend on which end is named first,
    and a link is [ethernet] exactly when neither end is of one of the four
    named kinds. *)
Theorem link_type_ignores_the_order_of_the_ends
        (intf1 intf2 : Config.ParsedInterface) :
  _determine_link_type intf1 intf2 = _determine_link_type intf2 intf1 /\
  (_determine_link_type intf1 intf2 = "ethernet" <->
   forall kind,
     In kind ["GigabitEthernet"; "FastEthernet"; "Serial"; "Loopback"] ->
     interface_type (Config.name intf1) <> kind /\
     interface_type (Config.name intf2) <> kind).
Proof.
  unfold _determine_link_type, Device.str_in.
  set (t1 := interface_type (Config.name intf1)).
  set (t2 := interface_type (Config.name intf2)).
  cbn [existsb]. rewrite !orb_false_r. split.
  - rewrite (orb_comm (String.eqb "GigabitEthernet" t1)),
            (orb_comm (String.eqb "FastEthernet" t1)),
            (orb_comm (String.eqb "Serial" t1)),
            (orb_comm (String.eqb "Loopback" t1)).
    reflexivity.
  - destruct (String.eqb_spec "GigabitEthernet" t1) as [G1 | G1];
      [ split; [ discriminate | ];
        intros H; destruct (H "GigabitEthernet") as [F _];
        [ simpl; auto | congruence ] | ].
    destruct (String.eqb_spec "GigabitEthernet" t2) as [G2 | G2];
      [ split; [ discriminate | ];
        intros H; destruct (H "GigabitEthernet") as [_ F];
        [ simpl; auto | congruence ] | ].
    destruct (String.eqb_spec "FastEthernet" t1) as [F1 | F1];
      [ split; [ discriminate | ];
        intros H; destruct (H "FastEthernet") as [F _];
        [ simpl; auto | congruence ] | ].
    destruct (String.eqb_spec "FastEthernet" t2) as [F2 | F2];
      [ split; [ discriminate | ];
        intros H; destruct (H "FastEthernet") as [_ F];
        [ simpl; auto | congruence ] | ].
    destruct (String.eqb_spec "Serial" t1) as [S1 | S1];
      [ split; [ discriminate | ];
        intros H; destruct (H "Serial") as [F _];
        [ simpl; auto | congruence ] | ].
    destruct (String.eqb_spec "Serial" t2) as [S2 | S2];
      [ split; [ discriminate | ];
        intros H; destruct (H "Serial") as [_ F];
        [ simpl; auto | congruence ] | ].
    destruct (String.eqb_spec "Loopback" t1) as [L1 | L1];
      [ split; [ discriminate | ];
        intros H; destruct (H "Loopback") as [F _];
        [ simpl; auto 6 | congruence ] | ].
    destruct (String.eqb_spec "Loopback" t2) as [L2 | L2];
      [ split; [ discriminate | ];
        intros H; destruct (H "Loopback") as [_ F];
        [ simpl; auto 6 | congruence ] | ].
    cbn [orb]. split; [ intros _ | reflexivity ].
    intros kind [<- | [<- | [<- | [<- | []]]]]; split; congruence.
Qed.

Lemma bandwidth_fold_sum (links : list NetworkLink)
      (d0 : BandwidthDistribution) :
  let d := fold_left
    (fun distribution link =>
       if bandwidth link <? 100 then
         mkDistribution (low distribution + 1) (medium distribution)
                        (high distribution) (ultra distribution)
       else if bandwidth link <? 1000 then
         mkDistribution (low distribution) (medium distribution + 1)
                        (high distribution) (ultra distribution)
       else if bandwidth link <? 10000 then
         mkDistribution (low distribution) (medium distribution)
                        (high distribution + 1) (ultra distribution)
       else
         mkDistribution (low distribution) (medium distribution)
                        (high distribution) (ultra distribution + 1))
    links d0 in
  low d = low d0
          + Z.of_nat (List.length
                        (filter (fun l => bandwidth l <? 100) links)) /\
  medium d = medium d0
             + Z.of_nat (List.length
                 (filter (fun l => (100 <=? bandwidth l)
                                   && (bandwidth l <? 1000)) links)) /\
  high d = high d0
           + Z.of_nat (List.length
               (filter (fun l => (1000 <=? bandwidth l)
                                 && (bandwidth l <? 10000)) links)) /\
  ultra d = ultra d0
            + Z.of_nat (List.length
                          (filter (fun l => 10000 <=? bandwidth l) links)) /\
  low d + medium d + high d + ultra d
  = low d0 + medium d0 + high d0 + ultra d0 + Z.of_nat (List.length links).
Proof.
  revert d0. induction links as [ | l links IH ]; intros d0.
  - simpl. repeat split; lia.
  - cbn [fold_left filter List.length].
    match goal with |- context [fold_left ?f links ?d1] =>
      specialize (IH d1); cbv zeta in IH;
      destruct IH as (Hl & Hm & Hh & Hu & Hs) end.
    cbv zeta. rewrite Hl, Hm, Hh, Hu.
    destruct (Z.ltb_spec (bandwidth l) 100);
      [ | destruct (Z.ltb_spec (bandwidth l) 1000);
          [ | destruct (Z.ltb_spec (bandwidth l) 10000) ] ];
      destruct (Z.leb_spec 100 (bandwidth l));
      destruct (Z.leb_spec 1000 (bandwidth l));
      destruct (Z.leb_spec 10000 (bandwidth l));
      try lia; cbn [andb List.length low medium high ultra];
      repeat split; lia.
Qed.

(** X19: the bandwidth analysis puts every link in exactly one class: the
    four counts are the numbers of links below 100, from 100 and below
    1000, from 1000 and below 10000, and from 10000 on (a link of exactly
    10000 counts as [ultra]), and they add up to the number of links. *)
Theorem bandwidth_classes_partition_the_links (links : list NetworkLink) :
  let d := _analyze_bandwidth_distribution links in
  low d = Z.of_nat (List.length (filter (fun l => bandwidth l <? 100) links)) /\
  medium d = Z.of_nat (List.length
               (filter (fun l => (100 <=? bandwidth l)
                                 && (bandwidth l <? 1000)) links)) /\
  high d = Z.of_nat (List.length
             (filter (fun l => (1000 <=? bandwidth l)
                               && (bandwidth l <? 10000)) links)) /\
  ultra d = Z.of_nat (List.length
              (filter (fun l => 10000 <=? bandwidth l) links)) /\
  low d + medium d + high d + ultra d = Z.of_nat (List.length links).
Proof.
  destruct (bandwidth_fold_sum links (mkDistribution 0 0 0 0))
    as (Hl & Hm & Hh & Hu & Hs).
  cbv zeta. unfold _analyze_bandwidth_distribution.
  repeat split; [ rewrite Hl | rewrite Hm | rewrite Hh | rewrite Hu
                | rewrite Hs ]; simpl; lia.
Qed.

(** ** Routing domains *)

Lemma get_dict_append (d : PyDict.t (list string)) (k h p : string) :
  PyDict.get (dict_append d k h) p
  = match PyDict.get d k with
    | Some l => if String.eqb p k then Some (l ++ [h])%list
                else PyDict.get d p
    | None => PyDict.get d p
    end.
Proof.
  unfold dict_append. destruct (PyDict.get d k) as [l | ] eqn:Hk;
    [ | reflexivity ].
  destruct (String.eqb_spec p k) as [-> | Hne].
  - apply PyDictFacts.get_set_same.
  - apply PyDictFacts.get_set_other. exact Hne.
Qed.

Lemma mem_dict_append (d : PyDict.t (list string)) (k h p : string) :
  PyDict.mem p (dict_append d k h) = PyDict.mem p d.
Proof.
  unfold PyDict.mem. rewrite get_dict_append.
  destruct (PyDict.get d k) as [l | ] eqn:Hk; [ | reflexivity ].
  destruct (String.eqb_spec p k) as [-> | Hne]; [ | reflexivity ].
  rewrite Hk. reflexivity.
Qed.

Lemma keys_dict_append (d : PyDict.t (list string)) (k h : string) :
  PyDict.keys (dict_append d k h) = PyDict.keys d.
Proof.
  unfold dict_append. destruct (PyDict.get d k) as [l | ] eqn:Hk;
    [ | reflexivity ].
  apply PyDictFacts.keys_set_present. unfold PyDict.mem. rewrite Hk.
  reflexivity.
Qed.

Lemma members_dict_append (d : PyDict.t (list string)) (k h p x : string) :
  PyDict.mem k d = true ->
  In x (members (dict_append d k h) p)
  <-> In x (members d p) \/ (p = k /\ x = h).
Proof.
  unfold PyDict.mem, members. rewrite get_dict_append.
  destruct (PyDict.get d k) as [l | ] eqn:Hk; [ intros _ | discriminate ].
  destruct (String.eqb_spec p k) as [-> | Hne].
  - rewrite Hk, in_app_iff. simpl. intuition congruence.
  - intuition congruence.
Qed.

Section RoutingDomains.

Variable hostname : string.

Let add_protocol (acc : PyDict.t (list string)) (protocol : string) :=
  if PyDict.mem protocol acc then dict_append acc protocol hostname else acc.

Lemma add_protocols_spec (protocols : list string)
      (d : PyDict.t (list string)) :
  let d' := fold_left add_protocol protocols d in
  PyDict.keys d' = PyDict.keys d /\
  (forall p, PyDict.mem p d' = PyDict.mem p d) /\
  (forall p x, In x (members d' p)
               <-> In x (members d p)
                   \/ (x = hostname /\ In p protocols /\
                       PyDict.mem p d = true)).
Proof.
  revert d. induction protocols as [ | q protocols IH ]; intros d.
  - simpl. repeat split; tauto.
  - cbn [fold_left]. specialize (IH (add_protocol d q)). cbv zeta in IH.
    destruct IH as (Hk & Hm & Hx). cbv zeta.
    assert (Hk1 : PyDict.keys (add_protocol d q) = PyDict.keys d).
    { unfold add_protocol. destruct (PyDict.mem q d);
        [ apply keys_dict_append | reflexivity ]. }
    assert (Hm1 : forall p, PyDict.mem p (add_protocol d q) = PyDict.mem p d).
    { intros p. unfold add_protocol. destruct (PyDict.mem q d);
        [ apply mem_dict_append | reflexivity ]. }
    assert (Hx1 : forall p x,
               In x (members (add_protocol d q) p)
               <-> In x (members d p)
                   \/ (x = hostname /\ p = q /\ PyDict.mem p d = true)).
    { intros p x. unfold add_protocol.
      destruct (PyDict.mem q d) eqn:Hq.
      - rewrite (members_dict_append d q hostname p x Hq).
        intuition (subst; auto).
      - intuition (subst; congruence). }
    split; [ congruence | ]. split; [ intros p; rewrite Hm; apply Hm1 | ].
    intros p x. rewrite Hx, Hx1, Hm1. simpl. intuition (subst; auto).
Qed.

End RoutingDomains.

Lemma routing_domains_fold (configs : PyDict.t Config.ParsedConfig)
      (d : PyDict.t (list string)) :
  PyDict.mem "Static" d = true ->
  let d' :=
    fold_left
      (fun domains hc =>
         let hostname := fst hc in
         let config := snd hc in
         let domains' :=
           fold_left
             (fun acc protocol =>
                if PyDict.mem protocol acc then dict_append acc protocol hostname
                else acc)
             (Config.routing_protocols config) domains in
         if truthy_opt_str (Config.default_gateway config)
         then dict_append domains' "Static" hostname
         else domains')
      configs d in
  PyDict.keys d' = PyDict.keys d /\
  (forall p x,
     In x (members d' p)
     <-> In x (members d p)
         \/ (PyDict.mem p d = true /\
             exists config, In (x, config) configs /\
               (In p (Config.routing_protocols config) \/
                (p = "Static" /\
                 truthy_opt_str (Config.default_gateway config) = true)))).
Proof.
  revert d. induction configs as [ | [h c] configs IH ]; intros d Hs.
  - simpl. split; [ reflexivity | ]. intros p x.
    split; [ auto | ]. intros [H | (_ & cfg & [] & _)]. exact H.
  - cbn [fold_left fst snd].
    destruct (add_protocols_spec h (Config.routing_protocols c) d)
      as (Hk & Hm & Hx).
    set (d1 := fold_left _ (Config.routing_protocols c) d) in *.
    set (d2 := if truthy_opt_str (Config.default_gateway c)
               then dict_append d1 "Static" h else d1).
    assert (Hk2 : PyDict.keys d2 = PyDict.keys d).
    { unfold d2. destruct (truthy_opt_str _);
        [ rewrite keys_dict_append | ]; exact Hk. }
    assert (Hm2 : forall p, PyDict.mem p d2 = PyDict.mem p d).
    { intros p. unfold d2. destruct (truthy_opt_str _);
        [ rewrite mem_dict_append | ]; apply Hm. }
    assert (Hx2 : forall p x,
               In x (members d2 p)
               <-> In x (members d p)
                   \/ (PyDict.mem p d = true /\ x = h /\
                       (In p (Config.routing_protocols c) \/
                        (p = "Static" /\
                         truthy_opt_str (Config.default_gateway c) = true)))).
    { intros p x. unfold d2.
      destruct (truthy_opt_str (Config.default_gateway c)) eqn:Hg.
      - rewrite members_dict_append by (rewrite Hm; exact Hs).
        rewrite Hx. intuition (subst; auto).
      - rewrite Hx. intuition (subst; auto; congruence). }
    specialize (IH d2). cbv zeta in IH.
    destruct IH as (Hk3 & Hx3); [ rewrite Hm2; exact Hs | ].
    cbv zeta. split; [ congruence | ].
    intros p x. rewrite Hx3, Hx2, Hm2. split.
    + intros [[H | (Hp & -> & Hc)] | (Hp & cfg & Hin & Hc)].
      * auto.
      * right. split; [ exact Hp | ]. exists c. split; [ left; reflexivity | exact Hc ].
      * right. split; [ exact Hp | ]. exists cfg. split; [ right; exact Hin | exact Hc ].
    + intros [H | (Hp & cfg & [Heq | Hin] & Hc)].
      * auto.
      * injection Heq as -> ->. left. right. auto.
      * right. split; [ exact Hp | ]. exists cfg. auto.
Qed.

Lemma get_filter_nonempty (d : PyDict.t (list string)) (p : string) :
  PyDict.wf d ->
  PyDict.get
    (filter (fun kv : string * list string =>
               match snd kv with [] => false | _ => true end) d) p
  = match PyDict.get d p with
    | Some [] => None
    | other => other
    end.
Proof.
  unfold PyDict.wf, PyDict.keys.
  induction d as [ | [k l] d IH ]; intros Hwf; [ reflexivity | ].
  inversion Hwf as [ | ? ? Hnotin Hwf' ]; subst.
  cbn [filter snd PyDict.get].
  destruct (String.eqb_spec p k) as [-> | Hne].
  - destruct l as [ | x l ].
    + rewrite (IH Hwf').
      assert (Hnone : PyDict.get d k = None).
      { destruct (PyDict.get d k) as [v | ] eqn:Hg; [ | reflexivity ].
        exfalso. apply Hnotin. apply PyDictFacts.get_In in Hg.
        apply in_map_iff. exists (k, v). auto. }
      rewrite Hnone. reflexivity.
    + cbn [PyDict.get]. rewrite String.eqb_refl. reflexivity.
  - destruct l as [ | x l ].
    + apply (IH Hwf').
    + cbn [PyDict.get].
      destruct (String.eqb_spec p k) as [-> | _]; [ contradiction | ].
      apply (IH Hwf').
Qed.

(** X20: a host is a member of a routing domain of the result exactly when
    the domain is one of OSPF, BGP, EIGRP, RIP and Static and the host's
    configuration lists it as a routing protocol, or the domain is Static
    and the host has a default gateway; and no domain of the result is
    empty. *)
Theorem routing_domain_membership
        (configs : PyDict.t Config.ParsedConfig) (p x : string) :
  let domains := _identify_routing_domains configs in
  (In x (members domains p)
   <-> In p known_domains /\
       exists config, In (x, config) configs /\
         (In p (Config.routing_protocols config) \/
          (p = "Static" /\
           truthy_opt_str (Config.default_gateway config) = true))) /\
  PyDict.get domains p <> Some [].
Proof.
  cbv zeta. unfold _identify_routing_domains.
  set (d0 := [("OSPF", []); ("BGP", []); ("EIGRP", []); ("RIP", []);
              ("Static", [])] : PyDict.t (list string)).
  destruct (routing_domains_fold configs d0 eq_refl) as (Hk & Hx).
  set (d := fold_left _ configs d0) in *.
  assert (Hwf : PyDict.wf d).
  { unfold PyDict.wf. rewrite Hk. unfold d0. simpl.
    repeat constructor; simpl; intuition discriminate. }
  assert (Hmem : PyDict.mem p d0 = true <-> In p known_domains).
  { rewrite PyDictFacts.mem_keys. reflexivity. }
  split.
  - unfold members at 1. rewrite (get_filter_nonempty d p Hwf).
    specialize (Hx p x). unfold members at 1 in Hx.
    assert (Hd0 : ~ In x (members d0 p)).
    { unfold members, d0. simpl.
      repeat match goal with |- context [String.eqb ?a ?b] =>
               destruct (String.eqb a b) end; intros []. }
    rewrite <- Hmem.
    destruct (PyDict.get d p) as [[ | y l] | ]; tauto.
  - rewrite (get_filter_nonempty d p Hwf).
    destruct (PyDict.get d p) as [[ | y l] | ]; discriminate.
Qed.

End MoreTopologyFacts.

(* ================================================================== *)
(** * Start, stop, pause and the clock *)
(* ================================================================== *)

Module LifecycleFacts.

Import Simulator Eff EffFacts Props MoreProps.
Local Open Scope eff_scope.

Lemma get_app_absent {V} (l1 l2 : PyDict.t V) (k : string) :
  ~ In k (PyDict.keys l1) ->
  PyDict.get (l1 ++ l2)%list k = PyDict.get l2 k.
Proof.
  induction l1 as [ | [k' v'] l1 IH ]; simpl; [ reflexivity | ].
  intros Hn. destruct (String.eqb_spec k k') as [-> | _]; [ tauto | ].
  apply IH. tauto.
Qed.

Lemma set_app_absent {V} (l1 l2 : PyDict.t V) (k : string) (v : V) :
  ~ In k (PyDict.keys l1) ->
  PyDict.set (l1 ++ l2)%list k v = (l1 ++ PyDict.set l2 k v)%list.
Proof.
  induction l1 as [ | [k' v'] l1 IH ]; simpl; [ reflexivity | ].
  intros Hn. destruct (String.eqb_spec k k') as [-> | _]; [ tauto | ].
  rewrite IH by tauto. reflexivity.
Qed.

Lemma set_devices_twice (s : NetworkSimulator) x y :
  set_devices (set_devices s x) y = set_devices s y.
Proof. reflexivity. Qed.

(** A device method that returns on the devices that satisfy [P], run on
    every device of the table in turn, is [f] on every device. *)
Lemma for_each_on_device (m : Device.M unit)
      (f : Device.NetworkDevice -> Device.NetworkDevice)
      (P : Device.NetworkDevice -> Prop)
      (Hm : forall d, P d -> result (m d) = Ok tt /\ state' (m d) = f d)
      (todo done : PyDict.t Device.NetworkDevice) (s : NetworkSimulator) :
  devices s = (done ++ todo)%list ->
  NoDup (PyDict.keys (done ++ todo)%list) ->
  (forall h d, In (h, d) todo -> P d) ->
  let o := for_each (PyDict.keys todo) (fun h => on_device h m) s in
  result o = Ok tt /\
  state' o = set_devices s (done ++ each_device f todo)%list.
Proof.
  revert done s.
  induction todo as [ | [h d] todo IH ]; intros done s Hd Hwf HP.
  - simpl. split; [ reflexivity | ].
    rewrite <- Hd. destruct s. reflexivity.
  - assert (Hh : ~ In h (PyDict.keys done)).
    { unfold PyDict.keys in *. rewrite map_app in Hwf.
      apply NoDup_app_remove_r in Hwf as Hwf1.
      intros Hin. simpl in Hwf.
      apply NoDup_remove_2 in Hwf. apply Hwf. apply in_app_iff. auto. }
    destruct (Hm d) as (Hres & Hst); [ apply (HP h); left; reflexivity | ].
    assert (Hstep : on_device h m s
                    = mkOutcome (Ok tt)
                        (set_devices s (done ++ (h, f d) :: todo)%list)
                        (logged (m d))).
    { unfold on_device. rewrite Hd, get_app_absent by exact Hh.
      cbn [PyDict.get]. rewrite String.eqb_refl, Hres, Hst.
      rewrite set_app_absent by exact Hh.
      cbn [PyDict.set]. rewrite String.eqb_refl. reflexivity. }
    cbn [PyDict.keys map fst for_each].
    change (map fst todo) with (PyDict.keys todo).
    rewrite (bind_ok _ _ _ _ _ _ Hstep). cbn [result state'].
    destruct (IH (done ++ [(h, f d)])%list
                 (set_devices s (done ++ (h, f d) :: todo)%list))
      as (Hr & Hs).
    + cbn [devices set_devices]. rewrite <- app_assoc. reflexivity.
    + rewrite <- app_assoc. unfold PyDict.keys in *.
      rewrite map_app in *. exact Hwf.
    + intros h' d' Hin. apply (HP h'). right. exact Hin.
    + split; [ exact Hr | ].
      rewrite Hs, set_devices_twice, <- app_assoc. reflexivity.
Qed.

Lemma bind_returns {St A B} (m : Eff.t St A) (k : A -> Eff.t St B)
      (s : St) (a : A) :
  result (m s) = Ok a ->
  result (bind m k s) = result (k a (state' (m s))) /\
  state' (bind m k s) = state' (k a (state' (m s))).
Proof. intros H. unfold bind. rewrite H. split; reflexivity. Qed.

Lemma bind_raises {St A B} (m : Eff.t St A) (k : A -> Eff.t St B)
      (s : St) (e : PyExn) :
  result (m s) = Raise e ->
  result (bind m k s) = Raise e /\ state' (bind m k s) = state' (m s).
Proof. intros H. unfold bind. rewrite H. split; reflexivity. Qed.

Lemma keys_each_device (f : Device.NetworkDevice -> Device.NetworkDevice)
      (devs : PyDict.t Device.NetworkDevice) :
  PyDict.keys (each_device f devs) = PyDict.keys devs.
Proof.
  unfold PyDict.keys, each_device. rewrite map_map. reflexivity.
Qed.

(** [start_simulation] on a stopped simulator none of whose devices was
    started before. *)
Lemma start_simulation_fresh (now : Z) (s : NetworkSimulator) :
  simulation_running s = false -> PyDict.wf (devices s) -> never_started s ->
  result (start_simulation now s) = Ok tt /\
  state' (start_simulation now s)
  = set_devices
      (set_simulation_start_time
         (set_simulation_paused (set_simulation_running s true) false)
         (Some now))
      (each_device (fun d => Device.set_alive (Device.set_started d true) true)
                   (devices s)).
Proof.
  intros Hrun Hwf Hnew. unfold start_simulation.
  rewrite bind_read, Hrun, bind_log. cbn [result state'].
  rewrite !bind_modify, bind_read.
  set (s3 := set_simulation_start_time _ _).
  destruct (for_each_on_device Device.start
              (fun d => Device.set_alive (Device.set_started d true) true)
              (fun d => Device.started d = false)) with
    (todo := devices s3) (done := @nil (string * Device.NetworkDevice))
    (s := s3) as (Hr & Hs).
  - intros d Hd. unfold Device.start. rewrite bind_read, Hd.
    split; reflexivity.
  - reflexivity.
  - exact Hwf.
  - exact Hnew.
  - destruct (bind_returns _ (fun _ => log INFO
                 "Network simulation started successfully" []) _ _ Hr)
      as (Hr2 & Hs2).
    rewrite Hr2, Hs2. cbn [result state' log]. rewrite Hs.
    split; reflexivity.
Qed.

(** [stop_simulation] on a running simulator. *)
Lemma stop_simulation_running (s : NetworkSimulator) :
  simulation_running s = true -> PyDict.wf (devices s) ->
  result (stop_simulation s) = Ok tt /\
  state' (stop_simulation s)
  = set_devices (set_simulation_running s false)
      (each_device (fun d => Device.set_running d false) (devices s)).
Proof.
  intros Hrun Hwf. unfold stop_simulation.
  rewrite bind_read, Hrun. cbn [negb]. rewrite bind_log.
  cbn [result state']. rewrite bind_modify, bind_read.
  set (s1 := set_simulation_running s false).
  destruct (for_each_on_device Device.stop
              (fun d => Device.set_running d false)
              (fun _ => True)) with
    (todo := devices s1) (done := @nil (string * Device.NetworkDevice))
    (s := s1) as (Hr & Hs).
  - intros d _. unfold Device.stop. rewrite bind_modify, bind_read.
    split; reflexivity.
  - reflexivity.
  - exact Hwf.
  - intros; exact I.
  - destruct (bind_returns _ (fun _ => log INFO
                 "Network simulation stopped" []) _ _ Hr) as (Hr2 & Hs2).
    rewrite Hr2, Hs2. cbn [result state' log]. rewrite Hs.
    split; reflexivity.
Qed.

(** X21: a simulation that was started and stopped cannot be started
    again.  On a simulator with at least one device, none started before,
    [start_simulation] and then [stop_simulation] return; the second
    [start_simulation] raises [RuntimeError] at the first device (a thread
    starts once), after it has set the running flag: the simulator is left
    marked as running and no device is changed. *)
Theorem stopped_simulation_cannot_be_started_again
        (now now' : Z) (s : NetworkSimulator) :
  simulation_running s = false -> PyDict.wf (devices s) ->
  devices s <> [] -> never_started s ->
  let s1 := state' (start_simulation now s) in
  let s2 := state' (stop_simulation s1) in
  let o := start_simulation now' s2 in
  result (start_simulation now s) = Ok tt /\
  result (stop_simulation s1) = Ok tt /\
  simulation_running s1 = true /\ simulation_running s2 = false /\
  result o = Raise RuntimeError /\
  simulation_running (state' o) = true /\
  devices (state' o) = devices s2.
Proof.
  intros Hrun Hwf Hne Hnew.
  destruct (start_simulation_fresh now s Hrun Hwf Hnew) as (Hr1 & Hs1).
  cbv zeta. rewrite Hs1.
  set (s1 := set_devices _ _).
  assert (Hwf1 : PyDict.wf (devices s1)).
  { unfold PyDict.wf, s1. cbn [devices set_devices].
    rewrite keys_each_device. exact Hwf. }
  destruct (stop_simulation_running s1 eq_refl Hwf1) as (Hr2 & Hs2).
  rewrite Hs2.
  set (s2 := set_devices _ _).
  split; [ exact Hr1 | ]. split; [ exact Hr2 | ].
  split; [ reflexivity | ]. split; [ reflexivity | ].
  destruct (devices s) as [ | [h d] rest ] eqn:Hd; [ congruence | ].
  unfold start_simulation. rewrite bind_read.
  change (simulation_running s2) with false. cbv iota. rewrite bind_log.
  cbn [result state']. rewrite !bind_modify, bind_read.
  set (s3 := set_simulation_start_time _ _).
  set (d2 := Device.set_running
               (Device.set_alive (Device.set_started d true) true) false).
  assert (Hdev : devices s3
                 = (h, d2)
                   :: each_device (fun d => Device.set_running d false)
                        (each_device
                           (fun d => Device.set_alive
                                       (Device.set_started d true) true)
                           rest)).
  { unfold s3, s2, s1. cbn [devices set_devices set_simulation_start_time
                             set_simulation_paused set_simulation_running].
    rewrite ?Hd. reflexivity. }
  assert (Hfirst : on_device h Device.start s3
                   = mkOutcome (Raise RuntimeError) s3 []).
  { unfold on_device. rewrite Hdev. cbn [PyDict.get].
    rewrite String.eqb_refl.
    assert (Hst : Device.start d2 = mkOutcome (Raise RuntimeError) d2 []).
    { unfold Device.start. rewrite bind_read. reflexivity. }
    rewrite Hst. cbn [result state' logged PyDict.set].
    rewrite String.eqb_refl, <- Hdev. destruct s3. reflexivity. }
  assert (Hloop : for_each (PyDict.keys (devices s3))
                    (fun h => on_device h Device.start) s3
                  = mkOutcome (Raise RuntimeError) s3 []).
  { rewrite Hdev. cbn [PyDict.keys map fst for_each].
    apply (bind_fail _ _ _ _ _ _ Hfirst). }
  rewrite (bind_fail _ _ _ _ _ _ Hloop). cbn [result state'].
  repeat split.
Qed.

(** ** The clock *)

(** What a turn of the event loop does to the clock and the flags. *)
Lemma _process_events_iteration_clock (now : Z) (s : NetworkSimulator) :
  let s1 := state' (_process_events_iteration now s) in
  simulation_running s1 = simulation_running s /\
  simulation_paused s1 = simulation_paused s /\
  simulation_start_time s1 = simulation_start_time s /\
  simulation_time s1
  = if simulation_paused s then simulation_time s
    else match simulation_start_time s with
         | Some t0 => now - t0
         | None => simulation_time s
         end.
Proof.
  intros s1. unfold s1, _process_events_iteration.
  rewrite (MoreSimulatorFacts.try_except_log_state _ ERROR _
             (fun e => [Device.exn_name e])).
  assert (Hclock : forall s0,
            simulation_running s0 = simulation_running s ->
            simulation_paused s0 = simulation_paused s ->
            simulation_start_time s0 = simulation_start_time s ->
            simulation_time s0 = simulation_time s ->
            let s2 :=
              state' ((paused <- read simulation_paused ;;
                       if negb paused then
                         t0 <- read simulation_start_time ;;
                         match t0 with
                         | Some t0 =>
                             modify (fun s => set_simulation_time s (now - t0))
                         | None => raise TypeError
                         end
                       else ret tt) s0) in
            simulation_running s2 = simulation_running s /\
            simulation_paused s2 = simulation_paused s /\
            simulation_start_time s2 = simulation_start_time s /\
            simulation_time s2
            = if simulation_paused s then simulation_time s
              else match simulation_start_time s with
                   | Some t0 => now - t0
                   | None => simulation_time s
                   end).
  { intros s0 Hr Hp Ht0 Ht. cbv zeta. rewrite bind_read, Hp.
    destruct (simulation_paused s); cbn [negb].
    - cbn [ret state']. auto.
    - rewrite bind_read, Ht0.
      destruct (simulation_start_time s) as [t0 | ].
      + cbn [modify state']. destruct s0. cbn in *. auto.
      + cbn [raise state']. auto. }
  rewrite bind_read.
  destruct (event_queue s) as [ | e q ] eqn:Hq.
  - rewrite bind_ret. apply Hclock; reflexivity.
  - rewrite bind_assoc, bind_modify.
    destruct (MoreSimulatorFacts._handle_event_outcome e (set_event_queue s q))
      as (st & Hh & _).
    rewrite (bind_ok _ _ _ _ _ _ Hh). cbn [state'].
    apply Hclock; reflexivity.
Qed.

Lemma _process_events_paused (ticks : list Z) (s : NetworkSimulator) :
  simulation_paused s = true ->
  let s1 := Loops._process_events ticks s in
  simulation_running s1 = simulation_running s /\
  simulation_paused s1 = true /\
  simulation_start_time s1 = simulation_start_time s /\
  simulation_time s1 = simulation_time s.
Proof.
  revert s. induction ticks as [ | now ticks IH ]; intros s Hp.
  - simpl. auto.
  - cbn [Loops._process_events].
    destruct (simulation_running s) eqn:Hrun; [ | cbv zeta; auto ].
    destruct (_process_events_iteration_clock now s) as (Hr & Hp1 & Ht0 & Ht).
    rewrite Hp in Hp1, Ht.
    destruct (IH _ Hp1) as (Hr2 & Hp2 & Ht02 & Ht2).
    cbv zeta. rewrite Hr2, Hp2, Ht02, Ht2. repeat split; congruence.
Qed.

(** X22: pausing stops the simulation clock but not the wall clock it is
    read from.  On a running simulation started at [t0], after
    [pause_simulation] the turns of the event loop leave the simulation
    time where it was; after [resume_simulation] the first turn, at wall
    clock [now], sets it to [now - t0]: the time spent paused is counted. *)
Theorem pause_freezes_the_clock_and_resume_counts_the_pause
        (ticks : list Z) (now t0 : Z) (s : NetworkSimulator) :
  simulation_running s = true ->
  simulation_start_time s = Some t0 ->
  let paused := Loops._process_events ticks (state' (pause_simulation s)) in
  let resumed :=
    state' (_process_events_iteration now
              (state' (resume_simulation paused))) in
  simulation_time paused = simulation_time s /\
  simulation_paused paused = true /\
  simulation_time resumed = now - t0.
Proof.
  intros Hrun Ht0.
  assert (Hpause : state' (pause_simulation s) = set_simulation_paused s true).
  { unfold pause_simulation. rewrite bind_read, Hrun. cbn [negb].
    rewrite bind_modify. reflexivity. }
  cbv zeta. rewrite Hpause.
  destruct (_process_events_paused ticks (set_simulation_paused s true)
              eq_refl) as (Hr & Hp & Hs & Ht).
  set (paused := Loops._process_events ticks _) in *.
  cbn [simulation_running simulation_start_time simulation_time
       set_simulation_paused] in Hr, Hs, Ht.
  split; [ exact Ht | ]. split; [ exact Hp | ].
  assert (Hresume : state' (resume_simulation paused)
                    = set_simulation_paused paused false).
  { unfold resume_simulation. rewrite bind_read, Hr, Hrun. cbn [negb].
    rewrite bind_modify. reflexivity. }
  rewrite Hresume.
  destruct (_process_events_iteration_clock now
              (set_simulation_paused paused false)) as (_ & _ & _ & Hc).
  rewrite Hc. cbn [simulation_paused simulation_start_time
                   set_simulation_paused].
  rewrite Hs, Ht0. reflexivity.
Qed.

(** ** The statistics collector *)

Lemma counting_loop {A} (p : A -> bool) (l : list A) (c : Z * Z) :
  let r := fold_left
             (fun counts x =>
                if p x then (fst counts + 1, snd counts)
                else (fst counts, snd counts + 1))
             l c in
  fst r = fst c + Z.of_nat (List.length (filter p l)) /\
  fst r + snd r = fst c + snd c + Z.of_nat (List.length l).
Proof.
  revert c. induction l as [ | x l IH ]; intros c.
  - simpl. lia.
  - cbn [fold_left filter List.length].
    match goal with |- context [fold_left ?f l ?c1] =>
      specialize (IH c1); cbv zeta in IH; destruct IH as (H1 & H2) end.
    cbv zeta. split; [ rewrite H1 | rewrite H2 ];
      destruct (p x); cbn [fst snd List.length]; lia.
Qed.

(** X23: a turn of the statistics collector never raises.  On a paused
    simulation it changes nothing.  Otherwise the online count is the
    number of live devices and the active count the number of links whose
    two ends are live devices of the table; online and offline add up to
    the number of devices, active and failed to the number of links; the
    packet and error counters and everything but the statistics are left
    alone. *)
Theorem collected_counts_cover_every_device_and_link (s : NetworkSimulator) :
  let o := Loops._collect_statistics_iteration s in
  let st := statistics (state' o) in
  result o = Ok tt /\ logged o = [] /\
  if simulation_paused s then state' o = s
  else
    state' o = set_statistics s st /\
    devices_online st
    = Z.of_nat (List.length (filter Device.alive (PyDict.values (devices s)))) /\
    devices_online st + devices_offline st
    = Z.of_nat (List.length (devices s)) /\
    links_active st
    = Z.of_nat (List.length (filter (Loops.link_is_active (devices s))
                                    (Topology.links (topology s)))) /\
    links_active st + links_failed st
    = Z.of_nat (List.length (Topology.links (topology s))) /\
    total_packets st = total_packets (statistics s) /\
    total_errors st = total_errors (statistics s).
Proof.
  cbv zeta. unfold Loops._collect_statistics_iteration, try_except.
  rewrite bind_read.
  destruct (simulation_paused s) eqn:Hp; cbn [negb].
  - cbn [ret result state' logged]. auto.
  - rewrite !bind_modify. cbn [modify result state' logged].
    cbv zeta. cbn [statistics set_statistics devices topology
                   total_packets total_errors devices_online devices_offline
                   links_active links_failed].
    destruct (counting_loop Device.alive (PyDict.values (devices s)) (0, 0))
      as (Hd1 & Hd2).
    destruct (counting_loop (Loops.link_is_active (devices s))
                            (Topology.links (topology s)) (0, 0))
      as (Hl1 & Hl2).
    cbv zeta in Hd1, Hd2, Hl1, Hl2.
    fold (Loops.count_devices (devices s)) in Hd1, Hd2.
    fold (Loops.count_links (devices s) (Topology.links (topology s)))
      in Hl1, Hl2.
    unfold PyDict.values in Hd2. rewrite length_map in Hd2.
    cbn [fst snd] in Hd1, Hd2, Hl1, Hl2.
    repeat split; try reflexivity; lia.
Qed.

(** ** The events query *)

(** X24: whatever the limit, the events query returns the most recent part
    of what it returns without a limit for the same kind, in the same
    order; and a negative limit [-k] does not limit the result but drops
    the [k] oldest of these events. *)
Theorem limited_query_is_the_recent_part_of_the_unlimited_one
        (s : NetworkSimulator) (kind : option string) (limit : option Z) :
  let every := get_simulation_events s kind None in
  let r := get_simulation_events s kind limit in
  (exists older, every = (older ++ r)%list) /\
  (forall k, limit = Some (- k) -> 0 < k -> r = skipn (Z.to_nat k) every).
Proof.
  cbv zeta. unfold get_simulation_events.
  set (every := if truthy_opt_str kind then _ else _).
  change (truthy_opt_num None) with false. cbv iota. split.
  - destruct limit as [n | ]; [ | exists []; reflexivity ].
    destruct (truthy_opt_num (Some n)); [ | exists []; reflexivity ].
    unfold slice_from.
    match goal with |- context [skipn ?k every] =>
      exists (firstn k every); symmetry; apply firstn_skipn end.
  - intros k -> Hk.
    assert (Ht : truthy_opt_num (Some (- k)) = true).
    { unfold truthy_opt_num. destruct (Z.eqb_spec (- k) 0); [ lia | reflexivity ]. }
    rewrite Ht. unfold slice_from. rewrite Z.opp_involutive.
    destruct (Z.ltb_spec k 0); [ lia | ].
    destruct (Z.le_gt_cases k (Z.of_nat (List.length every))) as [Hle | Hgt].
    + rewrite Z.min_l by exact Hle. reflexivity.
    + rewrite Z.min_r by lia. rewrite Nat2Z.id.
      rewrite skipn_all. symmetry. apply skipn_all2. lia.
Qed.

End LifecycleFacts.

(* ================================================================== *)
(** * The further statements on the scenarios *)
(* ================================================================== *)

Module MoreWitnesses.

Import Simulator Eff Props MoreProps Scenario MoreScenario.

(** X1 on the router R and a neighbour R2. *)
Lemma add_neighbor_is_idempotent_witness :
  let d1 := state' (Device.add_neighbor "R2" router_R) in
  Device.add_neighbor "R2" d1 = mkOutcome (Ok tt) d1 [].
Proof.
  assert (Hnd : NoDup (Device.neighbors router_R)) by constructor.
  destruct (MoreDeviceFacts.add_neighbor_is_idempotent router_R "R2" Hnd)
    as (_ & _ & _ & H).
  exact H.
Defined.

(** X2 on the router R, which has no neighbour R2. *)
Lemma remove_neighbor_undoes_add_witness :
  state' (Device.remove_neighbor "R2"
            (state' (Device.add_neighbor "R2" router_R)))
  = router_R.
Proof.
  destruct (MoreDeviceFacts.remove_neighbor_undoes_add router_R "R2")
    as (H & _).
  destruct H as (_ & H); [ intros [] | exact H ].
Defined.

(** X3 on the router R with an empty inbox. *)
Lemma run_iteration_never_raises_witness :
  Device.errors (Device.statistics
                   (state' (Device.run_iteration now0 router_R)))
  = Device.errors (Device.statistics router_R).
Proof.
  destruct (MoreDeviceFacts.run_iteration_never_raises now0 router_R)
    as (_ & _ & _ & _ & H & _).
  apply H. reflexivity.
Defined.

(** X4 on the router R with one message and two turns of the loop. *)
Lemma run_counts_each_message_once_witness :
  Device.packets_received
    (Device.statistics
       (Loops.run [now0; now0 + 1] (router_R_with bogus_message)))
  = Device.packets_received (Device.statistics (router_R_with bogus_message))
    + 1.
Proof.
  destruct (MoreDeviceFacts.run_counts_each_message_once
              [now0; now0 + 1] (router_R_with bogus_message) eq_refl)
    as (_ & H & _).
  exact H.
Defined.

(** X5 on the router R, and on a switch. *)
Lemma routing_update_installs_route_witness :
  table_get
    (Device.routing_table (state' (Device.process_message route_update
                                                         router_R)))
    (VStr "10.1.0.0/16")
  = Some (VStr "192.168.1.254") /\
  Device.routing_table (state' (Device.process_message route_update switch_S))
  = Device.routing_table switch_S.
Proof.
  split.
  - destruct (MoreDeviceFacts.routing_update_installs_route
                router_R route_update
                [("destination", VStr "10.1.0.0/16");
                 ("next_hop", VStr "192.168.1.254")]
                (VStr "10.1.0.0/16") (VStr "192.168.1.254")) as (H & _).
    destruct H as (_ & H & _); [ reflexivity .. | exact H ].
  - destruct (MoreDeviceFacts.routing_update_installs_route
                switch_S route_update [] VNone VNone) as (_ & H).
    apply H. reflexivity.
Defined.

(** X6 on the router R with the update that lacks its next hop. *)
Lemma malformed_routing_update_is_counted_witness :
  let o := Device.run_iteration now0 (router_R_with bad_update) in
  result o = Ok tt /\
  Device.errors (Device.statistics (state' o))
  = Device.errors (Device.statistics (router_R_with bad_update)) + 1.
Proof.
  assert (Hne : [("destination", VStr "10.1.0.0/16")] <> @nil (string * PyVal))
    by discriminate.
  destruct (MoreDeviceFacts.malformed_routing_update_is_counted
              (router_R_with bad_update) bad_update []
              [("destination", VStr "10.1.0.0/16")] now0
              eq_refl eq_refl eq_refl eq_refl Hne (or_introl eq_refl))
    as (Hr & _ & He & _).
  split; [ exact Hr | exact He ].
Defined.

(** X7 on the configuration of R1. *)
Lemma constructed_device_interfaces_witness :
  PyDict.mem "GigabitEthernet0/0"
    (Device.interfaces
       (Device.__init__ "R1" Device.ROUTER
          (_convert_config_for_device (host_config "R1" "10.0.0.1"))))
  = true.
Proof.
  destruct (MoreDeviceFacts.constructed_device_interfaces
              "R1" Device.ROUTER (host_config "R1" "10.0.0.1"))
    as (_ & _ & H & _).
  apply (H (Config.mkParsedInterface "GigabitEthernet0/0" "10.0.0.1"
              "255.255.255.0" 1000 1500 None "" false None)).
  left. reflexivity.
Defined.

(** X9 on the pair with the fault of two seconds, half a second after it
    has run out. *)
Lemma expiry_turn_removes_exactly_the_expired_witness :
  active_faults
    (state' (_process_faults_iteration (now0 + 2500) pair_with_timed_fault))
  = [].
Proof.
  assert (Hv : faults_valid pair_with_timed_fault).
  { intros f H. vm_compute in H. destruct H as [<- | []]. reflexivity. }
  destruct (MoreSimulatorFacts.expiry_turn_removes_exactly_the_expired
              (now0 + 2500) pair_with_timed_fault Hv) as (_ & H & _).
  rewrite H. reflexivity.
Defined.

(** X10 on the started pair. *)
Lemma inject_fault_records_fault_and_event_witness :
  let s := started pair_topology in
  let o := inject_fault "high_cpu" "R1" None None None now0 now0 s in
  active_faults (state' o)
  = (active_faults s ++ [new_fault "high_cpu" "R1" None None None now0])%list.
Proof.
  destruct (MoreSimulatorFacts.inject_fault_records_fault_and_event
              (started pair_topology) "high_cpu" "R1" None None None
              now0 now0 eq_refl) as (_ & H & _).
  exact H.
Defined.

(** X11 on the started pair and a fault of kind [high_cpu]. *)
Lemma marker_faults_change_no_device_witness :
  state' (_apply_fault (new_fault "high_cpu" "R1" None None None now0)
                       (started pair_topology))
  = started pair_topology.
Proof.
  assert (H1 : "high_cpu" <> "interface_down") by discriminate.
  assert (H2 : "high_cpu" <> "link_failure") by discriminate.
  destruct (MoreSimulatorFacts.marker_faults_change_no_device
              (started pair_topology)
              (new_fault "high_cpu" "R1" None None None now0)
              eq_refl H1 H2) as (_ & H & _).
  exact H.
Defined.

(** X12 on the started pair: with all interfaces of R1 down, R1 reaches
    no address. *)
Lemma interface_down_fault_on_all_interfaces_witness :
  let fault := new_fault "interface_down" "R1" None None None now0 in
  exists d1,
    PyDict.get (devices (state' (_apply_fault fault (started pair_topology))))
               "R1" = Some d1 /\
    forall target_ip, Device._can_reach_ip d1 target_ip = false.
Proof.
  assert (Hwf : PyDict.wf (Device.interfaces
                             (device_of (started pair_topology) "R1"))).
  { vm_compute. constructor; [ intros [] | constructor ]. }
  destruct (MoreSimulatorFacts.interface_down_fault_on_all_interfaces
              (started pair_topology)
              (new_fault "interface_down" "R1" None None None now0)
              (device_of (started pair_topology) "R1")
              eq_refl Hwf eq_refl eq_refl)
    as (d1 & d2 & H1 & _ & _ & Hreach & _).
  exists d1. split; [ exact H1 | exact Hreach ].
Defined.

(** X13 on the triangle with its neighbour lists in place: the failure on
    A empties the list of A. *)
Lemma link_failure_fault_cuts_both_directions_witness :
  let fault := new_fault "link_failure" "A" None None None now0 in
  PyDict.get (devices (state' (_apply_fault fault triangle_seeded))) "A"
  = Some (Device.set_neighbors (device_of triangle_seeded "A") []).
Proof.
  assert (Hnd : NoDup (Device.neighbors (device_of triangle_seeded "A"))).
  { vm_compute. constructor; [ intros [H | []]; discriminate | ].
    constructor; [ intros [] | constructor ]. }
  assert (Hself : ~ In "A" (Device.neighbors (device_of triangle_seeded "A"))).
  { vm_compute. intros [H | [H | []]]; discriminate. }
  destruct (MoreSimulatorFacts.link_failure_fault_cuts_both_directions
              triangle_seeded
              (new_fault "link_failure" "A" None None None now0)
              (device_of triangle_seeded "A") eq_refl eq_refl Hnd Hself)
    as (_ & H & _).
  exact H.
Defined.

(** X14 on the started pair: an unknown source is refused. *)
Lemma send_packet_enqueues_at_target_witness :
  send_packet "R9" "R2" "ping" [] now0 now0 (started pair_topology)
  = mkOutcome (Ok tt) (started pair_topology)
      [mkLog ERROR "Invalid device names: {} -> {}" [VStr "R9"; VStr "R2"]].
Proof.
  destruct (MoreSimulatorFacts.send_packet_enqueues_at_target
              (started pair_topology) "R9" "R2" "ping" [] now0 now0)
    as (H & _).
  apply H. left. reflexivity.
Defined.

(** X15 on the started pair with two events in the queue. *)
Lemma event_loop_records_in_order_witness :
  events (Loops._process_events [now0 + 1; now0 + 2] two_queued)
  = (events two_queued ++ firstn 2 (event_queue two_queued))%list.
Proof.
  destruct (MoreSimulatorFacts.event_loop_records_in_order
              [now0 + 1; now0 + 2] two_queued eq_refl) as (H & _).
  exact H.
Defined.

(** X16 on the pair: R2 is a neighbour of R1 by the link R1-R2. *)
Lemma generated_neighbors_are_the_linked_devices_witness :
  In "R2"
     (Topology.get_device_neighbors
        (fst (Topology.generate_topology Topology.__init__ pair_configs
                [link "R1" "R2"] [] [] []))
        "R1").
Proof.
  destruct (MoreTopologyFacts.generated_neighbors_are_the_linked_devices
              Topology.__init__ pair_configs [link "R1" "R2"] [] [] []
              "R1" "R2") as (H & _).
  apply H. exists (link "R1" "R2").
  split; [ left; reflexivity | left; split; reflexivity ].
Defined.

(** X17 on two links from A to B: neither reverses the other, both stay. *)
Lemma generated_links_hold_no_reversed_pair_witness :
  TopologyAnalysis.remove_duplicate_links [link "A" "B"; link "A" "B"]
  = [link "A" "B"; link "A" "B"].
Proof.
  destruct (MoreTopologyFacts.generated_links_hold_no_reversed_pair
              [link "A" "B"; link "A" "B"]) as (_ & _ & _ & H).
  apply H. intros l o Hl Ho (Hs & _).
  destruct Hl as [<- | [<- | []]];
    destruct Ho as [<- | [<- | []]]; discriminate Hs.
Defined.

(** X18 on two VLAN interfaces. *)
Lemma link_type_ignores_the_order_of_the_ends_witness :
  TopologyAnalysis._determine_link_type (vlan_interface "Vlan10")
                                        (vlan_interface "Vlan20")
  = "ethernet".
Proof.
  destruct (MoreTopologyFacts.link_type_ignores_the_order_of_the_ends
              (vlan_interface "Vlan10") (vlan_interface "Vlan20"))
    as (_ & H).
  apply H. intros kind Hk.
  destruct Hk as [<- | [<- | [<- | [<- | []]]]];
    split; intros E; vm_compute in E; discriminate E.
Defined.

(** X20 on two hosts that run OSPF. *)
Lemma routing_domain_membership_witness :
  In "R2"
     (members (TopologyAnalysis._identify_routing_domains
                 [("R1", ospf_config "R1"); ("R2", ospf_config "R2")])
              "OSPF").
Proof.
  destruct (MoreTopologyFacts.routing_domain_membership
              [("R1", ospf_config "R1"); ("R2", ospf_config "R2")]
              "OSPF" "R2") as (H & _).
  apply H. split; [ left; reflexivity | ].
  exists (ospf_config "R2").
  split; [ right; left; reflexivity | left; left; reflexivity ].
Defined.

(** X21 on the pair as constructed. *)
Lemma stopped_simulation_cannot_be_started_again_witness :
  let s1 := state' (start_simulation now0 constructed_pair) in
  let s2 := state' (stop_simulation s1) in
  result (start_simulation (now0 + 60000) s2) = Raise RuntimeError.
Proof.
  assert (Hwf : PyDict.wf (devices constructed_pair)).
  { vm_compute. constructor; [ intros [H | []]; discriminate | ].
    constructor; [ intros [] | constructor ]. }
  assert (Hne : devices constructed_pair <> []).
  { intros E. vm_compute in E. discriminate E. }
  assert (Hnew : never_started constructed_pair).
  { intros h d H. vm_compute in H.
    destruct H as [H | [H | []]]; injection H as <- <-; reflexivity. }
  destruct (LifecycleFacts.stopped_simulation_cannot_be_started_again
              now0 (now0 + 60000) constructed_pair eq_refl Hwf Hne Hnew)
    as (_ & _ & _ & _ & H & _).
  exact H.
Defined.

(** X22 on the started pair, paused for two turns and resumed a minute
    after the start. *)
Lemma pause_freezes_the_clock_and_resume_counts_the_pause_witness :
  let paused :=
    Loops._process_events [now0 + 1000; now0 + 2000]
      (state' (pause_simulation (started pair_topology))) in
  simulation_time paused = simulation_time (started pair_topology) /\
  simulation_time
    (state' (_process_events_iteration (now0 + 60000)
               (state' (resume_simulation paused))))
  = now0 + 60000 - now0.
Proof.
  destruct (LifecycleFacts.pause_freezes_the_clock_and_resume_counts_the_pause
              [now0 + 1000; now0 + 2000] (now0 + 60000) now0
              (started pair_topology) eq_refl eq_refl) as (H1 & _ & H2).
  split; [ exact H1 | exact H2 ].
Defined.

(** X24 on the log with two events: the limit -1 drops the older one. *)
Lemma limited_query_is_the_recent_part_of_the_unlimited_one_witness :
  get_simulation_events with_two_events None (Some (- 1))
  = skipn 1 (get_simulation_events with_two_events None None).
Proof.
  destruct (LifecycleFacts.limited_query_is_the_recent_part_of_the_unlimited_one
              with_two_events None (Some (- 1))) as (_ & H).
  apply (H 1); [ reflexivity | lia ].
Defined.

End MoreWitnesses.
